(** * Donut examples: basic_triangle, vertex_buffer, deferred_shading

    A shallow embedding of the three example applications and the
    properties their specification states about them.  The examples are
    glue code over the donut engine and the nvrhi device abstraction:
    every call into those libraries is recorded as an event in a trace,
    and the answers that can come back null or false (shader creation,
    texture loading, binding-set creation, pipeline creation, device
    creation) come from an environment record. *)

From Stdlib Require Import ZArith QArith Qpower List String Bool Lia Lqa SpecFloat.
Import ListNotations.

Local Open Scope Z_scope.

(** ** Single-precision arithmetic

    The examples compute viewport rectangles in C++ [float], from the
    32-bit width and height of the framebuffer.  A finite binary32 value is
    kept as [mant * 2^expo]; every operation computes the exact result and
    rounds it to 24 significant bits, ties to even.  Overflow to infinity
    and gradual underflow are outside this model: the values met here are
    zero or lie between 2^-1 and 2^33. *)
Module F32.

Record t : Set := mk { mant : Z; expo : Z }.

Definition prec : Z := 24.

(** Round [m * 2^e] to nearest, ties to even, keeping [prec] bits. *)
Definition round (m e : Z) : t :=
  let d := Z.log2 (Z.abs m) + 1 - prec in
  if d <=? 0 then mk m e
  else
    let q := Z.abs m / 2 ^ d in
    let r := Z.abs m mod 2 ^ d in
    let h := 2 ^ (d - 1) in
    let q' := if r <? h then q
              else if h <? r then q + 1
              else if Z.even q then q else q + 1 in
    mk (Z.sgn m * q') (e + d).

(** [float(n)] for an integer [n]. *)
Definition of_Z (n : Z) : t := round n 0.

Definition mul (a b : t) : t :=
  round (mant a * mant b) (expo a + expo b).

Definition add (a b : t) : t :=
  let e := Z.min (expo a) (expo b) in
  round (mant a * 2 ^ (expo a - e) + mant b * 2 ^ (expo b - e)) e.

(** The literals used by the examples. *)
Definition zero : t := mk 0 0.               (* 0.f *)
Definition one : t := mk 1 0.                (* 1.f *)
Definition half : t := mk 1 (-1).            (* 0.5f *)

(** The rational number a value stands for. *)
Definition value (x : t) : Q := (inject_Z (mant x) * 2 ^ expo x)%Q.

End F32.

(** The rotation angle is computed from the frame times the host hands
    in, which nothing bounds: there C++ [float] is taken in full, as the
    Standard Library specifies binary32 (24 bits of precision,
    [emax = 128]), with its infinities, NaN and subnormal numbers. *)
Module Binary32.

Definition t : Set := spec_float.

Definition add : t -> t -> t := SFadd 24 128.
Definition mul : t -> t -> t := SFmul 24 128.

Definition zero : t := S754_zero false.                      (* 0.f *)
Definition one : t := S754_finite false 8388608 (-23).       (* 1.f *)
Definition half : t := S754_finite false 8388608 (-24).      (* 0.5f *)
Definition c_1_1 : t := S754_finite false 9227469 (-23).     (* 1.1f *)

End Binary32.

(** ** nvrhi: descriptors and handles

    A reference-counted handle is [None] when null and otherwise carries
    the description of the object it refers to.  Shaders, loaded textures,
    binding sets and graphics pipelines come back null when the
    surroundings say so.  [createBuffer], [createTexture],
    [createInputLayout] and [createCommandList] are taken to deliver the
    object they are asked for: the examples use what these return without
    a test, and a buffer handle stands for the description the buffer was
    created from. *)

Module ShaderType.
Inductive t : Set := Vertex | Pixel | Compute | All.
End ShaderType.

Module ResourceStates.
Inductive t : Set :=
  Common | ConstantBuffer | VertexBuffer | IndexBuffer | CopyDest | UnorderedAccess.
End ResourceStates.

Module Format.
Inductive t : Set := UNKNOWN | R32_UINT | RG32_FLOAT | RGB32_FLOAT | RGBA16_FLOAT.
End Format.

Record Shader : Set := mkShader
  { shader_file : string; shader_entry : string; shader_stage : ShaderType.t }.
Definition ShaderHandle := option Shader.

Record BufferDesc : Set := mkBufferDesc
  { byteSize : Z;                      (* uint64_t *)
    debugName : string;
    isVertexBuffer : bool;
    isIndexBuffer : bool;
    isConstantBuffer : bool;
    initialState : ResourceStates.t;
    keepInitialState : bool }.
Definition BufferHandle := option BufferDesc.

Record BufferRange : Set := mkBufferRange
  { byteOffset : Z; rangeByteSize : Z }.         (* uint64_t, uint64_t *)

Record TextureDesc : Set := mkTextureDesc
  { tex_width : Z; tex_height : Z;               (* uint32_t *)
    tex_sampleCount : Z;
    tex_format : Format.t;
    tex_debugName : string;
    tex_isUAV : bool;
    tex_initialState : ResourceStates.t;
    tex_keepInitialState : bool }.

Inductive Texture : Set :=
| TextureFromFile (path : string)
| TextureCreated (desc : TextureDesc).
Definition TextureHandle := option Texture.

Record VertexAttributeDesc : Set := mkVertexAttributeDesc
  { attr_name : string;
    attr_format : Format.t;
    attr_offset : Z;
    attr_bufferIndex : Z;
    attr_elementStride : Z }.
Definition InputLayoutHandle := option (list VertexAttributeDesc).

Record Viewport : Set := mkViewport
  { minX : F32.t; maxX : F32.t;
    minY : F32.t; maxY : F32.t;
    minZ : F32.t; maxZ : F32.t }.

(** [nvrhi::FramebufferInfoEx]: the fields the examples read.  A
    framebuffer is identified with its info. *)
Record FramebufferInfo : Set := mkFramebufferInfo
  { width : Z; height : Z }.                     (* uint32_t *)

(** [FramebufferInfoEx::getViewport]: the whole framebuffer. *)
Definition getViewport (fbinfo : FramebufferInfo) : Viewport :=
  mkViewport F32.zero (F32.of_Z (width fbinfo))
             F32.zero (F32.of_Z (height fbinfo))
             F32.zero F32.one.

Inductive BindingSetItem : Set :=
| ConstantBuffer (slot : Z) (buffer : BufferHandle) (range : BufferRange)
| Texture_SRV (slot : Z) (texture : TextureHandle)
| Sampler (slot : Z) (sampler : string).

Definition BindingSetDesc := list BindingSetItem.
Definition BindingSetHandle := option BindingSetDesc.
Definition BindingLayoutHandle := option (list BindingSetItem).

Record GraphicsPipelineDesc : Set := mkGraphicsPipelineDesc
  { VS : ShaderHandle;
    PS : ShaderHandle;
    inputLayout : InputLayoutHandle;
    bindingLayouts : list BindingLayoutHandle;
    depthTestEnable : bool }.                    (* primType is TriangleList throughout *)

Definition GraphicsPipelineHandle := option (GraphicsPipelineDesc * FramebufferInfo).

Record VertexBufferBinding : Set := mkVertexBufferBinding
  { vb_buffer : BufferHandle; vb_slot : Z; vb_offset : Z }.

Record GraphicsState : Set := mkGraphicsState
  { gs_pipeline : GraphicsPipelineHandle;
    gs_framebuffer : FramebufferInfo;
    gs_viewports : list Viewport;
    gs_bindings : list BindingSetHandle;
    gs_indexBuffer : BufferHandle;
    gs_vertexBuffers : list VertexBufferBinding }.

Definition CommandListHandle := option unit.

Module Severity.
Inductive t : Set := Error | Fatal.
End Severity.

(** ** Calls into the libraries

    Every call an example makes into nvrhi, the donut engine, the logger
    or the device manager is one event.  Each example owns a single
    command list, so command-list events do not name it. *)
Inductive Event : Set :=
(* nvrhi::IDevice *)
| EvCreateCommandList
| EvCreateBuffer (desc : BufferDesc)
| EvCreateInputLayout (attributes : list VertexAttributeDesc) (vs : ShaderHandle)
| EvCreateTexture (desc : TextureDesc)
| EvCreateGraphicsPipeline (desc : GraphicsPipelineDesc) (fb : FramebufferInfo)
| EvExecuteCommandList
(* nvrhi::ICommandList *)
| EvOpen
| EvClose
| EvBeginTrackingBufferState (buffer : BufferHandle) (state : ResourceStates.t)
| EvWriteBuffer (buffer : BufferHandle) (dataSize destOffset : Z)
| EvSetPermanentBufferState (buffer : BufferHandle) (state : ResourceStates.t)
| EvClearColorAttachment (fb : FramebufferInfo)
| EvSetGraphicsState (state : GraphicsState)
| EvDraw (vertexCount : Z)
| EvDrawIndexed (vertexCount : Z)
(* donut::engine and donut::render *)
| EvCreateShader (file entry : string) (stage : ShaderType.t) (result : ShaderHandle)
| EvCommonRenderPassesCreate
| EvTextureCacheCreate
| EvBindingCacheCreate
| EvBindingCacheClear
| EvLoadTextureFromFile (path : string) (result : TextureHandle)
| EvCreateBindingSetAndLayout (desc : BindingSetDesc) (ok : bool)
| EvFillConstantBuffer
| EvDeferredLightingPassCreate
| EvDeferredLightingPassInit
| EvDeferredLightingPassResetBindingCache
| EvDeferredLightingPassRender
| EvGBufferFillPassCreate
| EvGBufferFillPassInit
| EvGBufferRenderTargetsInit (size : Z * Z) (sampleCount : Z)
                             (enableMotionVectors useReverseProjection : bool)
| EvRenderTargetsClear
| EvRenderView (instance : option nat)
| EvBlitTexture (source : TextureHandle)
(* donut::engine::SceneGraph *)
| EvSetRootNode (node : nat)
| EvSetLeaf (node leaf : nat)
| EvSetNodeName (node : nat) (name : string)
| EvAttachLeafNode (parent leaf : nat)
| EvSetDirection (leaf : nat)
| EvSetLeafName (leaf : nat) (name : string)
| EvSceneGraphRefresh (frameIndex : Z)
| EvPrintSceneGraph
(* donut::log *)
| EvLog (severity : Severity.t) (message : string)
(* donut::app *)
| EvGetGraphicsAPIFromCommandLine
| EvDeviceManagerCreate
| EvCreateWindowDeviceAndSwapChain (title : string) (ok : bool)
| EvSetInformativeWindowTitle (title : string)
| EvAddRenderPassToBack
| EvRunMessageLoop
| EvRemoveRenderPass
| EvShutdown
| EvDeleteDeviceManager.

(** A computation returns a value and the events it caused, in order. *)
Definition Cmd (A : Type) : Type := A * list Event.

Definition ret {A : Type} (a : A) : Cmd A := (a, []).

Definition bind {A B : Type} (m : Cmd A) (k : A -> Cmd B) : Cmd B :=
  let (a, l1) := m in
  let (b, l2) := k a in
  (b, l1 ++ l2).

Definition emit (e : Event) : Cmd unit := (tt, [e]).

Definition result {A : Type} (m : Cmd A) : A := fst m.
Definition events {A : Type} (m : Cmd A) : list Event := snd m.

Declare Scope cmd_scope.
Delimit Scope cmd_scope with cmd.
Notation "x <- m ;; k" := (bind m (fun x => k))
  (at level 61, m at next level, right associativity) : cmd_scope.
Notation "m ;; k" := (bind m (fun _ => k))
  (at level 61, right associativity) : cmd_scope.
Local Open Scope cmd_scope.

(** One turn of the host's message loop: the window may have been
    resized, then a frame is animated and rendered. *)
Record Iteration : Set := mkIteration
  { resized : option FramebufferInfo;
    elapsed : Binary32.t }.

(** Sizes of the arrays of [CubeGeometry.h], which the deferred-shading
    example includes; the header is not among the sources, so its sizes
    are parameters. *)
Record CubeGeometry : Set := mkCubeGeometry
  { sizeof_g_Indices : Z;
    sizeof_g_Positions : Z;
    sizeof_g_TexCoords : Z;
    sizeof_g_Normals : Z;
    sizeof_g_Tangents : Z;
    dim_g_Indices : Z;
    dim_g_Positions : Z }.

(** What the surroundings answer when the examples ask. *)
Record Env : Set := mkEnv
  { CreateShader_ok : string -> string -> ShaderType.t -> bool;
    LoadTextureFromFile_ok : string -> bool;
    CreateBindingSetAndLayout_ok : BindingSetDesc -> bool;
    createGraphicsPipeline_ok : GraphicsPipelineDesc -> FramebufferInfo -> bool;
    CreateWindowDeviceAndSwapChain_ok : bool;
    initial_framebuffer : FramebufferInfo;
    iterations : list Iteration;
    cube : CubeGeometry;
    sizeof_InstanceData : Z;
    sizeof_MaterialConstants : Z }.

(** [ShaderFactory::CreateShader]: a null handle when compilation fails. *)
Definition CreateShader (env : Env) (file entry : string) (stage : ShaderType.t)
  : Cmd ShaderHandle :=
  let h := if CreateShader_ok env file entry stage
           then Some (mkShader file entry stage) else None in
  emit (EvCreateShader file entry stage h);;
  ret h.

(** [TextureCache::LoadTextureFromFile]: always returns a [LoadedTexture];
    its [texture] member is null when the file could not be read. *)
Record LoadedTexture : Set := mkLoadedTexture { texture : TextureHandle }.

Definition LoadTextureFromFile (env : Env) (path : string) : Cmd LoadedTexture :=
  let h := if LoadTextureFromFile_ok env path
           then Some (TextureFromFile path) else None in
  emit (EvLoadTextureFromFile path h);;
  ret (mkLoadedTexture h).

(** [nvrhi::utils::CreateBindingSetAndLayout]: creates the layout when it
    is still empty, then the binding set. *)
Definition CreateBindingSetAndLayout (env : Env) (desc : BindingSetDesc)
    (layout : BindingLayoutHandle) : Cmd (bool * (BindingLayoutHandle * BindingSetHandle)) :=
  let ok := CreateBindingSetAndLayout_ok env desc in
  emit (EvCreateBindingSetAndLayout desc ok);;
  if ok
  then ret (true, (match layout with Some l => Some l | None => Some desc end, Some desc))
  else ret (false, (layout, None)).

(** [IDevice::createGraphicsPipeline]: a null handle when the device could
    not create the pipeline.  The examples store the handle as it comes. *)
Definition createGraphicsPipeline (env : Env) (desc : GraphicsPipelineDesc)
    (framebuffer : FramebufferInfo) : Cmd GraphicsPipelineHandle :=
  emit (EvCreateGraphicsPipeline desc framebuffer);;
  ret (if createGraphicsPipeline_ok env desc framebuffer
       then Some (desc, framebuffer) else None).

(** The interface every example implements for the host loop.  The
    methods follow the members of the example without testing them for
    null; the host calls them on an example whose [Init] has returned
    [true]. *)
Class IRenderPass (S : Type) : Type :=
  { BackBufferResizing : S -> Cmd S;
    Animate : Binary32.t -> S -> Cmd S;
    Render : FramebufferInfo -> S -> Cmd S }.

(** Modelled from the spec: [DeviceManager::RunMessageLoop] is not among
    the sources.  The loop is single-threaded; each iteration calls the
    animate step and the render step once, and a window resize invalidates
    size-dependent state on the same thread before the next frame.  The
    loop ends when the window is closed, that is when the iterations the
    environment supplies are used up. *)
Fixpoint RunMessageLoop {S : Type} `{IRenderPass S}
    (its : list Iteration) (fb : FramebufferInfo) (st : S) : Cmd S :=
  match its with
  | [] => ret st
  | it :: rest =>
      let fb' := match resized it with Some f => f | None => fb end in
      st1 <- match resized it with
             | Some _ => BackBufferResizing st
             | None => ret st
             end;;
      st2 <- Animate (elapsed it) st1;;
      st3 <- Render fb' st2;;
      RunMessageLoop rest fb' st3
  end.

(** ** examples/basic_triangle *)
Module BasicTriangle.

Definition g_WindowTitle : string := "Donut Example: Basic Triangle".

Record State : Set := mkState
  { m_VertexShader : ShaderHandle;
    m_PixelShader : ShaderHandle;
    m_Pipeline : GraphicsPipelineHandle;
    m_CommandList : CommandListHandle }.

(** The freshly constructed example: every handle is null. *)
Definition new : State := mkState None None None None.

Definition Init (env : Env) (st : State) : Cmd (bool * State) :=
  vs <- CreateShader env "shaders.hlsl" "main_vs" ShaderType.Vertex;;
  ps <- CreateShader env "shaders.hlsl" "main_ps" ShaderType.Pixel;;
  let st := mkState vs ps (m_Pipeline st) (m_CommandList st) in
  match m_VertexShader st, m_PixelShader st with
  | Some _, Some _ =>
      emit EvCreateCommandList;;
      ret (true, mkState (m_VertexShader st) (m_PixelShader st) (m_Pipeline st) (Some tt))
  | _, _ => ret (false, st)
  end.

Definition BackBufferResizing (st : State) : Cmd State :=
  ret (mkState (m_VertexShader st) (m_PixelShader st) None (m_CommandList st)).

Definition Animate (fElapsedTimeSeconds : Binary32.t) (st : State) : Cmd State :=
  emit (EvSetInformativeWindowTitle g_WindowTitle);;
  ret st.

Definition psoDesc (st : State) : GraphicsPipelineDesc :=
  mkGraphicsPipelineDesc (m_VertexShader st) (m_PixelShader st) None [] false.

Definition Render (env : Env) (framebuffer : FramebufferInfo) (st : State) : Cmd State :=
  st <- match m_Pipeline st with
        | Some _ => ret st
        | None =>
            pipeline <- createGraphicsPipeline env (psoDesc st) framebuffer;;
            ret (mkState (m_VertexShader st) (m_PixelShader st)
                         pipeline (m_CommandList st))
        end;;
  emit EvOpen;;
  emit (EvClearColorAttachment framebuffer);;
  let state :=
    mkGraphicsState (m_Pipeline st) framebuffer [getViewport framebuffer] [] None [] in
  emit (EvSetGraphicsState state);;
  emit (EvDraw 3);;
  emit EvClose;;
  emit EvExecuteCommandList;;
  ret st.

(** The render pass on the device of [env]. *)
Definition RenderPass (env : Env) : IRenderPass State :=
  Build_IRenderPass State BackBufferResizing Animate (Render env).

(** The process exit code. *)
Definition main (env : Env) : Cmd Z :=
  emit EvGetGraphicsAPIFromCommandLine;;
  emit EvDeviceManagerCreate;;
  let ok := CreateWindowDeviceAndSwapChain_ok env in
  emit (EvCreateWindowDeviceAndSwapChain g_WindowTitle ok);;
  if negb ok
  then
    emit (EvLog Severity.Fatal
            "Cannot initialize a graphics device with the requested parameters");;
    ret 1
  else
    r <- Init env new;;
    (if fst r
     then
       emit EvAddRenderPassToBack;;
       emit EvRunMessageLoop;;
       @RunMessageLoop _ (RenderPass env)
         (iterations env) (initial_framebuffer env) (snd r);;
       emit EvRemoveRenderPass
     else ret tt);;
    emit EvShutdown;;
    emit EvDeleteDeviceManager;;
    ret 0.

End BasicTriangle.

(** Unsigned 64-bit arithmetic ([size_t], [uint64_t]) wraps around. *)
Definition u64 (x : Z) : Z := x mod 2 ^ 64.

(** A [for] loop over the given indices, in order. *)
Fixpoint for_each {A : Type} (l : list A) (body : A -> Cmd unit) : Cmd unit :=
  match l with
  | [] => ret tt
  | x :: rest => body x;; for_each rest body
  end.

(** Assignment to [a[i]]; the examples only index inside the array. *)
Fixpoint array_set {A : Type} (a : list A) (i : nat) (v : A) : list A :=
  match a, i with
  | [], _ => []
  | _ :: rest, O => v :: rest
  | x :: rest, S j => x :: array_set rest j v
  end.

(** ** examples/vertex_buffer *)
Module VertexBuffer.

Definition g_WindowTitle : string := "Donut Example: Vertex Buffer".

Definition sizeof_float : Z := 4.
Definition sizeof_float2 : Z := 2 * sizeof_float.
Definition sizeof_float3 : Z := 3 * sizeof_float.
Definition sizeof_float4x4 : Z := 16 * sizeof_float.
Definition sizeof_uint32_t : Z := 4.

(** [struct Vertex { float3 position; float2 uv; }] *)
Definition sizeof_Vertex : Z := sizeof_float3 + sizeof_float2.
Definition offsetof_Vertex_position : Z := 0.
Definition offsetof_Vertex_uv : Z := sizeof_float3.

Definition dim_g_Vertices : Z := 24.
Definition dim_g_Indices : Z := 36.
Definition sizeof_g_Vertices : Z := dim_g_Vertices * sizeof_Vertex.
Definition sizeof_g_Indices : Z := dim_g_Indices * sizeof_uint32_t.

Definition c_NumViews : Z := 4.

(** [struct ConstantBufferEntry { float4x4 viewProjMatrix; float padding[16*3]; }] *)
Definition sizeof_ConstantBufferEntry : Z :=
  sizeof_float4x4 + (16 * 3) * sizeof_float.

(** [nvrhi::c_ConstantBufferOffsetSizeAlignment], which the
    [static_assert] compares the entry size with: "must be 256 bytes". *)
Definition c_ConstantBufferOffsetSizeAlignment : Z := 256.

Definition static_assert_ConstantBufferEntry : bool :=
  sizeof_ConstantBufferEntry =? c_ConstantBufferOffsetSizeAlignment.

Record State : Set := mkState
  { m_VertexShader : ShaderHandle;
    m_PixelShader : ShaderHandle;
    m_ConstantBuffer : BufferHandle;
    m_VertexBuffer : BufferHandle;
    m_IndexBuffer : BufferHandle;
    m_Texture : TextureHandle;
    m_InputLayout : InputLayoutHandle;
    m_BindingLayout : BindingLayoutHandle;
    m_BindingSets : list BindingSetHandle;       (* c_NumViews entries *)
    m_Pipeline : GraphicsPipelineHandle;
    m_CommandList : CommandListHandle;
    m_Rotation : Binary32.t }.

Definition new : State :=
  mkState None None None None None None None None
          (repeat None (Z.to_nat c_NumViews)) None None Binary32.zero.

Definition set_shaders (vs ps : ShaderHandle) (st : State) : State :=
  mkState vs ps (m_ConstantBuffer st) (m_VertexBuffer st) (m_IndexBuffer st)
          (m_Texture st) (m_InputLayout st) (m_BindingLayout st) (m_BindingSets st)
          (m_Pipeline st) (m_CommandList st) (m_Rotation st).

Definition set_resources (cb vb ib : BufferHandle) (tex : TextureHandle)
    (il : InputLayoutHandle) (cl : CommandListHandle) (st : State) : State :=
  mkState (m_VertexShader st) (m_PixelShader st) cb vb ib tex il
          (m_BindingLayout st) (m_BindingSets st)
          (m_Pipeline st) cl (m_Rotation st).

Definition set_bindings (layout : BindingLayoutHandle) (sets : list BindingSetHandle)
    (st : State) : State :=
  mkState (m_VertexShader st) (m_PixelShader st) (m_ConstantBuffer st)
          (m_VertexBuffer st) (m_IndexBuffer st) (m_Texture st) (m_InputLayout st)
          layout sets (m_Pipeline st) (m_CommandList st) (m_Rotation st).

Definition set_Pipeline (p : GraphicsPipelineHandle) (st : State) : State :=
  mkState (m_VertexShader st) (m_PixelShader st) (m_ConstantBuffer st)
          (m_VertexBuffer st) (m_IndexBuffer st) (m_Texture st) (m_InputLayout st)
          (m_BindingLayout st) (m_BindingSets st) p (m_CommandList st) (m_Rotation st).

Definition set_Rotation (r : Binary32.t) (st : State) : State :=
  mkState (m_VertexShader st) (m_PixelShader st) (m_ConstantBuffer st)
          (m_VertexBuffer st) (m_IndexBuffer st) (m_Texture st) (m_InputLayout st)
          (m_BindingLayout st) (m_BindingSets st) (m_Pipeline st) (m_CommandList st) r.

(** The slice of the constant buffer that view [viewIndex] binds. *)
Definition view_range (viewIndex : Z) : BufferRange :=
  mkBufferRange (u64 (sizeof_ConstantBufferEntry * viewIndex))
                sizeof_ConstantBufferEntry.

Definition bindingSetDesc (st : State) (viewIndex : Z) : BindingSetDesc :=
  [ ConstantBuffer 0 (m_ConstantBuffer st) (view_range viewIndex);
    Texture_SRV 0 (m_Texture st);
    Sampler 0 "m_AnisotropicWrapSampler" ].

(** The loop of [Init] that creates one binding set per view, from
    [viewIndex] on, [remaining] iterations being left. *)
Fixpoint create_binding_sets (env : Env) (remaining : nat) (viewIndex : Z)
    (st : State) : Cmd (bool * State) :=
  match remaining with
  | O => ret (true, st)
  | S k =>
      r <- CreateBindingSetAndLayout env (bindingSetDesc st viewIndex)
                                      (m_BindingLayout st);;
      let st := set_bindings (fst (snd r))
                  (array_set (m_BindingSets st) (Z.to_nat viewIndex) (snd (snd r))) st in
      if fst r
      then create_binding_sets env k (viewIndex + 1) st
      else
        emit (EvLog Severity.Error "Couldn't create the binding set or layout");;
        ret (false, st)
  end.

Definition Init (env : Env) (st : State) : Cmd (bool * State) :=
  vs <- CreateShader env "app/shaders.hlsl" "main_vs" ShaderType.Vertex;;
  ps <- CreateShader env "app/shaders.hlsl" "main_ps" ShaderType.Pixel;;
  let st := set_shaders vs ps st in
  match m_VertexShader st, m_PixelShader st with
  | Some _, Some _ =>
      let constantBufferDesc :=
        mkBufferDesc (u64 (sizeof_ConstantBufferEntry * c_NumViews)) "ConstantBuffer"
                     false false true ResourceStates.ConstantBuffer true in
      emit (EvCreateBuffer constantBufferDesc);;
      let attributes :=
        [ mkVertexAttributeDesc "POSITION" Format.RGB32_FLOAT 0 0 sizeof_Vertex;
          mkVertexAttributeDesc "UV" Format.RG32_FLOAT 0 1 sizeof_Vertex ] in
      emit (EvCreateInputLayout attributes (m_VertexShader st));;
      emit EvCommonRenderPassesCreate;;
      emit EvTextureCacheCreate;;
      emit EvCreateCommandList;;
      emit EvOpen;;
      let vertexBufferDesc :=
        mkBufferDesc sizeof_g_Vertices "VertexBuffer" true false false
                     ResourceStates.CopyDest false in
      emit (EvCreateBuffer vertexBufferDesc);;
      emit (EvBeginTrackingBufferState (Some vertexBufferDesc) ResourceStates.CopyDest);;
      emit (EvWriteBuffer (Some vertexBufferDesc) sizeof_g_Vertices 0);;
      emit (EvSetPermanentBufferState (Some vertexBufferDesc) ResourceStates.VertexBuffer);;
      let indexBufferDesc :=
        mkBufferDesc sizeof_g_Indices "IndexBuffer" false true false
                     ResourceStates.CopyDest false in
      emit (EvCreateBuffer indexBufferDesc);;
      emit (EvBeginTrackingBufferState (Some indexBufferDesc) ResourceStates.CopyDest);;
      emit (EvWriteBuffer (Some indexBufferDesc) sizeof_g_Indices 0);;
      emit (EvSetPermanentBufferState (Some indexBufferDesc) ResourceStates.IndexBuffer);;
      loaded <- LoadTextureFromFile env "media/nvidia-logo.png";;
      let st := set_resources (Some constantBufferDesc) (Some vertexBufferDesc)
                  (Some indexBufferDesc) (texture loaded)
                  (Some attributes) (Some tt) st in
      emit EvClose;;
      emit EvExecuteCommandList;;
      match texture loaded with
      | None =>
          emit (EvLog Severity.Error "Couldn't load the texture");;
          ret (false, st)
      | Some _ => create_binding_sets env (Z.to_nat c_NumViews) 0 st
      end
  | _, _ => ret (false, st)
  end.

Definition Animate (seconds : Binary32.t) (st : State) : Cmd State :=
  let st :=
    set_Rotation (Binary32.add (m_Rotation st) (Binary32.mul seconds Binary32.c_1_1)) st in
  emit (EvSetInformativeWindowTitle g_WindowTitle);;
  ret st.

Definition BackBufferResizing (st : State) : Cmd State :=
  ret (set_Pipeline None st).

(** The viewport of view [viewIndex], "so that all viewports form a
    grid". *)
Definition view_viewport (fbinfo : FramebufferInfo) (viewIndex : Z) : Viewport :=
  let width := F32.mul (F32.of_Z (width fbinfo)) F32.half in
  let height := F32.mul (F32.of_Z (height fbinfo)) F32.half in
  let left := F32.mul width (F32.of_Z (viewIndex mod 2)) in
  let top := F32.mul height (F32.of_Z (viewIndex / 2)) in
  mkViewport left (F32.add left width) top (F32.add top height) F32.zero F32.one.

Definition view_indices : list Z := map Z.of_nat (seq 0 (Z.to_nat c_NumViews)).

Definition psoDesc (st : State) : GraphicsPipelineDesc :=
  mkGraphicsPipelineDesc (m_VertexShader st) (m_PixelShader st)
                         (m_InputLayout st) [m_BindingLayout st] false.

Definition Render (env : Env) (framebuffer : FramebufferInfo) (st : State) : Cmd State :=
  let fbinfo := framebuffer in
  st <- match m_Pipeline st with
        | Some _ => ret st
        | None =>
            pipeline <- createGraphicsPipeline env (psoDesc st) framebuffer;;
            ret (set_Pipeline pipeline st)
        end;;
  emit EvOpen;;
  emit (EvClearColorAttachment framebuffer);;
  (* sizeof(modelConstants): c_NumViews entries uploaded at once *)
  emit (EvWriteBuffer (m_ConstantBuffer st)
                      (u64 (sizeof_ConstantBufferEntry * c_NumViews)) 0);;
  for_each view_indices (fun viewIndex =>
    let state :=
      mkGraphicsState (m_Pipeline st) framebuffer
        [view_viewport fbinfo viewIndex]
        [nth (Z.to_nat viewIndex) (m_BindingSets st) None]
        (m_IndexBuffer st)
        [ mkVertexBufferBinding (m_VertexBuffer st) 1 offsetof_Vertex_uv;
          mkVertexBufferBinding (m_VertexBuffer st) 0 offsetof_Vertex_position ] in
    emit (EvSetGraphicsState state);;
    emit (EvDrawIndexed dim_g_Indices));;
  emit EvClose;;
  emit EvExecuteCommandList;;
  ret st.

(** The render pass on the device of [env]. *)
Definition RenderPass (env : Env) : IRenderPass State :=
  Build_IRenderPass State BackBufferResizing Animate (Render env).

(** The process exit code. *)
Definition main (env : Env) : Cmd Z :=
  emit EvGetGraphicsAPIFromCommandLine;;
  emit EvDeviceManagerCreate;;
  let ok := CreateWindowDeviceAndSwapChain_ok env in
  emit (EvCreateWindowDeviceAndSwapChain g_WindowTitle ok);;
  if negb ok
  then
    emit (EvLog Severity.Fatal
            "Cannot initialize a graphics device with the requested parameters");;
    ret 1
  else
    r <- Init env new;;
    (if fst r
     then
       emit EvAddRenderPassToBack;;
       emit EvRunMessageLoop;;
       @RunMessageLoop _ (RenderPass env)
         (iterations env) (initial_framebuffer env) (snd r);;
       emit EvRemoveRenderPass
     else ret tt);;
    emit EvShutdown;;
    emit EvDeleteDeviceManager;;
    ret 0.

End VertexBuffer.

(** ** donut::engine scene types used by the deferred-shading example *)

Module VertexAttribute.
Inductive t : Set :=
  Position | PrevPosition | TexCoord1 | TexCoord2 | Normal | Tangent
| Transform | PrevTransform | JointIndices | JointWeights.

Definition eqb (a b : t) : bool :=
  match a, b with
  | Position, Position | PrevPosition, PrevPosition
  | TexCoord1, TexCoord1 | TexCoord2, TexCoord2
  | Normal, Normal | Tangent, Tangent
  | Transform, Transform | PrevTransform, PrevTransform
  | JointIndices, JointIndices | JointWeights, JointWeights => true
  | _, _ => false
  end.
End VertexAttribute.

(** [BufferGroup]: the three device buffers and, per vertex attribute, the
    byte range of the vertex buffer that holds it. *)
Record BufferGroup : Set := mkBufferGroup
  { indexBuffer : BufferHandle;
    vertexBuffer : BufferHandle;
    instanceBuffer : BufferHandle;
    vertexBufferRanges : VertexAttribute.t -> BufferRange }.

Definition getVertexBufferRange (b : BufferGroup) (attr : VertexAttribute.t) : BufferRange :=
  vertexBufferRanges b attr.

(** [getVertexBufferRange(attr).setByteOffset(o).setByteSize(s)] *)
Definition setVertexBufferRange (b : BufferGroup) (attr : VertexAttribute.t)
    (offset size : Z) : BufferGroup :=
  mkBufferGroup (indexBuffer b) (vertexBuffer b) (instanceBuffer b)
    (fun a => if VertexAttribute.eqb a attr
              then mkBufferRange offset size
              else vertexBufferRanges b a).

Definition new_BufferGroup : BufferGroup :=
  mkBufferGroup None None None (fun _ => mkBufferRange 0 0).

Record Material : Set := mkMaterial
  { material_name : string;
    useSpecularGlossModel : bool;
    enableBaseOrDiffuseTexture : bool;
    baseOrDiffuseTexture : option LoadedTexture;
    materialConstants : BufferHandle }.

Record MeshGeometry : Set := mkMeshGeometry
  { material : option Material;
    numIndices : Z;
    numVertices : Z }.

(** [objectSpaceBounds], a box of [float] constants, is left out. *)
Record MeshInfo : Type := mkMeshInfo
  { mesh_name : string;
    buffers : option BufferGroup;
    totalIndices : Z;
    totalVertices : Z;
    geometries : list MeshGeometry }.

(** The leaves a scene-graph node can hold.  The light's direction is kept
    as the rational numbers that the [double] arguments of the source
    are. *)
Inductive SceneGraphLeaf : Type :=
| MeshInstance (mesh : option MeshInfo)
| DirectionalLight (direction : option (Q * Q * Q)) (angularSize irradiance : F32.t).

Record SceneGraphNode : Set := mkSceneGraphNode
  { node_name : string;
    node_leaf : option nat;
    node_children : list nat;
    node_parent : option nat }.

(** Nodes and leaves are shared objects: the example keeps pointers to
    them while the graph holds them too, and changes them after they were
    attached.  They live in a store and are named by their index. *)
Record SceneStore : Type := mkSceneStore
  { nodes : list SceneGraphNode;
    leaves : list (string * SceneGraphLeaf) }.

Record SceneGraph : Set := mkSceneGraph
  { rootNode : option nat }.

Definition node_at (s : SceneStore) (n : nat) : SceneGraphNode :=
  nth n (nodes s) (mkSceneGraphNode "" None [] None).

Definition is_MeshInstance (l : string * SceneGraphLeaf) : bool :=
  match snd l with MeshInstance _ => true | DirectionalLight _ _ _ => false end.

Definition is_Light (l : string * SceneGraphLeaf) : bool :=
  match snd l with MeshInstance _ => false | DirectionalLight _ _ _ => true end.

(** The nodes of the subtree rooted at [n], parents first; [depth] bounds
    the descent, and a tree is never deeper than its number of nodes. *)
Fixpoint subtree_nodes (depth : nat) (s : SceneStore) (n : nat) : list nat :=
  match depth with
  | O => []
  | S d =>
      match nth_error (nodes s) n with
      | None => []
      | Some node => n :: flat_map (subtree_nodes d s) (node_children node)
      end
  end.

Definition graph_nodes (s : SceneStore) (g : SceneGraph) : list nat :=
  match rootNode g with
  | None => []
  | Some r => subtree_nodes (S (List.length (nodes s))) s r
  end.

(** The leaves held by the nodes of the graph. *)
Definition graph_leaves (s : SceneStore) (g : SceneGraph) : list (string * SceneGraphLeaf) :=
  flat_map (fun n =>
              match node_leaf (node_at s n) with
              | None => []
              | Some l => match nth_error (leaves s) l with Some x => [x] | None => [] end
              end)
           (graph_nodes s g).

(** The nodes of the graph that have no parent. *)
Definition graph_roots (s : SceneStore) (g : SceneGraph) : list nat :=
  filter (fun n => match node_parent (node_at s n) with None => true | Some _ => false end)
         (graph_nodes s g).

(** [make_shared<SceneGraphNode>()]: a fresh node without leaf, children
    or parent; its index is returned. *)
Definition new_node (s : SceneStore) : nat * SceneStore :=
  (List.length (nodes s),
   mkSceneStore (nodes s ++ [mkSceneGraphNode "" None [] None]) (leaves s)).

(** [make_shared<MeshInstance>(..)], [make_shared<DirectionalLight>()] *)
Definition new_leaf (s : SceneStore) (l : SceneGraphLeaf) : nat * SceneStore :=
  (List.length (leaves s), mkSceneStore (nodes s) (leaves s ++ [(EmptyString, l)])).

Definition update_node (s : SceneStore) (n : nat) (f : SceneGraphNode -> SceneGraphNode)
  : SceneStore :=
  mkSceneStore (array_set (nodes s) n (f (node_at s n))) (leaves s).

Definition update_leaf (s : SceneStore) (l : nat)
    (f : string * SceneGraphLeaf -> string * SceneGraphLeaf) : SceneStore :=
  match nth_error (leaves s) l with
  | Some x => mkSceneStore (nodes s) (array_set (leaves s) l (f x))
  | None => s
  end.

(** Modelled from the spec: the scene graph of the engine is not among the
    sources.  "The scene graph owns a tree of nodes, with leaves holding
    either a mesh instance or a light"; the example builds "a single root
    node" and attaches "one mesh-instance leaf and one light leaf".

    [SceneGraph::SetRootNode] *)
Definition SetRootNode (g : SceneGraph) (node : nat) : Cmd SceneGraph :=
  emit (EvSetRootNode node);;
  ret (mkSceneGraph (Some node)).

(** [SceneGraphNode::SetLeaf] *)
Definition SetLeaf (s : SceneStore) (node leaf : nat) : Cmd SceneStore :=
  emit (EvSetLeaf node leaf);;
  ret (update_node s node (fun n =>
         mkSceneGraphNode (node_name n) (Some leaf) (node_children n) (node_parent n))).

(** [SceneGraphNode::SetName] *)
Definition SetNodeName (s : SceneStore) (node : nat) (name : string) : Cmd SceneStore :=
  emit (EvSetNodeName node name);;
  ret (update_node s node (fun n =>
         mkSceneGraphNode name (node_leaf n) (node_children n) (node_parent n))).

(** [SceneGraph::AttachLeafNode]: a new node that holds [leaf] becomes a
    child of [parent]. *)
Definition AttachLeafNode (s : SceneStore) (parent leaf : nat) : Cmd SceneStore :=
  emit (EvAttachLeafNode parent leaf);;
  let child := List.length (nodes s) in
  let s := mkSceneStore (nodes s ++ [mkSceneGraphNode "" (Some leaf) [] (Some parent)])
                        (leaves s) in
  ret (update_node s parent (fun n =>
         mkSceneGraphNode (node_name n) (node_leaf n) (node_children n ++ [child])
                          (node_parent n))).

(** The [double] nearest to the literals [0.1] and [0.2]. *)
Definition double_0_1 : Q := 3602879701896397 # 36028797018963968.
Definition double_0_2 : Q := 3602879701896397 # 18014398509481984.

(** [DirectionalLight::SetDirection] and the assignments to [angularSize]
    and [irradiance]. *)
Definition SetDirection (s : SceneStore) (leaf : nat) (d : Q * Q * Q) : Cmd SceneStore :=
  emit (EvSetDirection leaf);;
  ret (update_leaf s leaf (fun x =>
         match snd x with
         | DirectionalLight _ a i => (fst x, DirectionalLight (Some d) a i)
         | MeshInstance _ => x
         end)).

Definition set_light (s : SceneStore) (leaf : nat) (angularSize irradiance : F32.t)
  : SceneStore :=
  update_leaf s leaf (fun x =>
    match snd x with
    | DirectionalLight d _ _ => (fst x, DirectionalLight d angularSize irradiance)
    | MeshInstance _ => x
    end).

(** [SceneGraphLeaf::SetName] *)
Definition SetLeafName (s : SceneStore) (leaf : nat) (name : string) : Cmd SceneStore :=
  emit (EvSetLeafName leaf name);;
  ret (update_leaf s leaf (fun x => (name, snd x))).

(** The calls that change the structure or the content of a scene graph. *)
Definition is_scene_mutation (e : Event) : bool :=
  match e with
  | EvSetRootNode _ | EvSetLeaf _ _ | EvSetNodeName _ _ | EvAttachLeafNode _ _
  | EvSetDirection _ | EvSetLeafName _ _ => true
  | _ => false
  end.

(** ** examples/deferred_shading: the G-buffer with the shaded output *)
Module RenderTargets.

(** Modelled from the spec: [GBufferRenderTargets], the base class, is not
    among the sources.  Render targets are "a set of GPU textures sized to
    the current framebuffer": [GBufferRenderTargets::Init] stores the size
    it is given in [m_Size] and [GetSize] returns it. *)
Record t : Set := mk
  { m_Size : Z * Z;                              (* dm::uint2 *)
    ShadedColor : TextureHandle }.

Definition GetSize (rt : t) : Z * Z := m_Size rt.

Definition Init (size : Z * Z) (sampleCount : Z)
    (enableMotionVectors useReverseProjection : bool) : Cmd t :=
  emit (EvGBufferRenderTargetsInit size sampleCount
          enableMotionVectors useReverseProjection);;
  let textureDesc :=
    mkTextureDesc (fst size) (snd size) sampleCount Format.RGBA16_FLOAT
                  "ShadedColor" true ResourceStates.UnorderedAccess true in
  emit (EvCreateTexture textureDesc);;
  ret (mk size (Some (TextureCreated textureDesc))).

End RenderTargets.

(** ** examples/deferred_shading: the scene *)
Module SimpleScene.

Record State : Type := mkState
  { m_Buffers : option BufferGroup;
    m_Material : option Material;
    m_MeshInfo : option MeshInfo;
    m_MeshInstance : option nat;
    m_SceneGraph : option SceneGraph;
    store : SceneStore }.

Definition new : State :=
  mkState None None None None None (mkSceneStore [] []).

(** [data] tells whether the data pointer is non-null. *)
Definition CreateGeometryBuffer (debugName : string) (data : bool) (dataSize : Z)
    (isVertexBuffer : bool) : Cmd BufferHandle :=
  let desc := mkBufferDesc dataSize debugName isVertexBuffer (negb isVertexBuffer)
                           false ResourceStates.CopyDest false in
  emit (EvCreateBuffer desc);;
  let bufHandle := Some desc in
  (if data
   then
     emit (EvBeginTrackingBufferState bufHandle ResourceStates.CopyDest);;
     emit (EvWriteBuffer bufHandle dataSize 0);;
     emit (EvSetPermanentBufferState bufHandle
             (if isVertexBuffer then ResourceStates.VertexBuffer
              else ResourceStates.IndexBuffer))
   else ret tt);;
  ret bufHandle.

Definition CreateMaterialConstantBuffer (env : Env) (material : Material)
  : Cmd BufferHandle :=
  let bufferDesc :=
    mkBufferDesc (sizeof_MaterialConstants env) (material_name material)
                 false false true ResourceStates.ConstantBuffer true in
  emit (EvCreateBuffer bufferDesc);;
  emit EvFillConstantBuffer;;
  emit (EvWriteBuffer (Some bufferDesc) (sizeof_MaterialConstants env) 0);;
  ret (Some bufferDesc).

(** The part of [Init] that lays out and fills the geometry buffers
    (from [commandList->open()] to the instance buffer). *)
Definition Init_buffers (env : Env) : Cmd BufferGroup :=
  let c := cube env in
  emit EvOpen;;
  let b := new_BufferGroup in
  ib <- CreateGeometryBuffer "IndexBuffer" true (sizeof_g_Indices c) false;;
  let b := mkBufferGroup ib (vertexBuffer b) (instanceBuffer b) (vertexBufferRanges b) in
  let vertexBufferSize := 0 in
  let b := setVertexBufferRange b VertexAttribute.Position
             vertexBufferSize (sizeof_g_Positions c) in
  let vertexBufferSize := u64 (vertexBufferSize + sizeof_g_Positions c) in
  let b := setVertexBufferRange b VertexAttribute.TexCoord1
             vertexBufferSize (sizeof_g_TexCoords c) in
  let vertexBufferSize := u64 (vertexBufferSize + sizeof_g_TexCoords c) in
  let b := setVertexBufferRange b VertexAttribute.Normal
             vertexBufferSize (sizeof_g_Normals c) in
  let vertexBufferSize := u64 (vertexBufferSize + sizeof_g_Normals c) in
  let b := setVertexBufferRange b VertexAttribute.Tangent
             vertexBufferSize (sizeof_g_Tangents c) in
  let vertexBufferSize := u64 (vertexBufferSize + sizeof_g_Tangents c) in
  vb <- CreateGeometryBuffer "VertexBuffer" false vertexBufferSize true;;
  let b := mkBufferGroup (indexBuffer b) vb (instanceBuffer b) (vertexBufferRanges b) in
  emit (EvBeginTrackingBufferState (vertexBuffer b) ResourceStates.CopyDest);;
  emit (EvWriteBuffer (vertexBuffer b) (sizeof_g_Positions c)
          (byteOffset (getVertexBufferRange b VertexAttribute.Position)));;
  emit (EvWriteBuffer (vertexBuffer b) (sizeof_g_TexCoords c)
          (byteOffset (getVertexBufferRange b VertexAttribute.TexCoord1)));;
  emit (EvWriteBuffer (vertexBuffer b) (sizeof_g_Normals c)
          (byteOffset (getVertexBufferRange b VertexAttribute.Normal)));;
  emit (EvWriteBuffer (vertexBuffer b) (sizeof_g_Tangents c)
          (byteOffset (getVertexBufferRange b VertexAttribute.Tangent)));;
  emit (EvSetPermanentBufferState (vertexBuffer b) ResourceStates.VertexBuffer);;
  inst <- CreateGeometryBuffer "VertexBufferTransform" true (sizeof_InstanceData env) true;;
  ret (mkBufferGroup (indexBuffer b) (vertexBuffer b) inst (vertexBufferRanges b)).

(** The part of [Init] that builds the scene graph (from
    [make_shared<SceneGraph>()] to the end). *)
Definition Init_graph (meshInfo : MeshInfo) : Cmd (nat * SceneGraph * SceneStore) :=
  let s := mkSceneStore [] [] in
  let g := mkSceneGraph None in
  let (node, s) := new_node s in
  g <- SetRootNode g node;;
  let (meshInstance, s) := new_leaf s (MeshInstance (Some meshInfo)) in
  s <- SetLeaf s node meshInstance;;
  s <- SetNodeName s node "CubeNode";;
  let (sunLight, s) := new_leaf s (DirectionalLight None F32.zero F32.zero) in
  s <- AttachLeafNode s node sunLight;;
  s <- SetDirection s sunLight (double_0_1, - (1), double_0_2)%Q;;
  let s := set_light s sunLight (F32.mk 8891924 (-24)) F32.one in   (* 0.53f, 1.f *)
  s <- SetLeafName s sunLight "Sun";;
  emit (EvSceneGraphRefresh 0);;
  emit EvPrintSceneGraph;;
  ret (meshInstance, g, s).

Definition Init (env : Env) (st : State) : Cmd (bool * State) :=
  b <- Init_buffers env;;
  loaded <- LoadTextureFromFile env "media/nvidia-logo.png";;
  let mat := mkMaterial "CubeMaterial" true true (Some loaded) None in
  constants <- CreateMaterialConstantBuffer env mat;;
  let mat := mkMaterial (material_name mat) (useSpecularGlossModel mat)
                        (enableBaseOrDiffuseTexture mat) (baseOrDiffuseTexture mat)
                        constants in
  emit EvClose;;
  emit EvExecuteCommandList;;
  let st := mkState (Some b) (Some mat) (m_MeshInfo st) (m_MeshInstance st)
                    (m_SceneGraph st) (store st) in
  match texture loaded with
  | None =>
      emit (EvLog Severity.Error "Couldn't load the texture");;
      ret (false, st)
  | Some _ =>
      let geometry :=
        mkMeshGeometry (Some mat) (dim_g_Indices (cube env)) (dim_g_Positions (cube env)) in
      let meshInfo :=
        mkMeshInfo "CubeMesh" (Some b) (numIndices geometry) (numVertices geometry)
                   [geometry] in
      r <- Init_graph meshInfo;;
      ret (true, mkState (m_Buffers st) (m_Material st) (Some meshInfo)
                         (Some (fst (fst r))) (Some (snd (fst r))) (snd r))
  end.

Definition GetMeshInstance (st : State) : option nat := m_MeshInstance st.

Definition GetSceneGraph (st : State) : option SceneGraph := m_SceneGraph st.

(** [SceneGraph::GetLights]: the light leaves of the graph. *)
Definition GetLights (st : State) : list (string * SceneGraphLeaf) :=
  match m_SceneGraph st with
  | Some g => filter is_Light (graph_leaves (store st) g)
  | None => []
  end.

End SimpleScene.

(** ** examples/deferred_shading: the render pass *)
Module DeferredShading.

Definition g_WindowTitle : string := "Donut Example: Deferred Shading".

(** [PlanarView]: the viewport, and the values the view and projection
    matrices are computed from (the rotation angle; the two sides of the
    aspect ratio). *)
Record PlanarView : Set := mkPlanarView
  { view_viewport : Viewport;
    view_rotation : Binary32.t;
    view_aspect : F32.t * F32.t }.

Record State : Type := mkState
  { m_ShaderFactory : option unit;
    m_TextureCache : option unit;
    m_CommonPasses : option unit;
    m_BindingCache : option unit;
    m_RenderTargets : option RenderTargets.t;
    m_GBufferPass : option unit;
    m_DeferredLightingPass : option unit;
    m_View : PlanarView;
    m_Scene : SimpleScene.State;
    m_CommandList : CommandListHandle;
    m_Rotation : Binary32.t }.

Definition new : State :=
  mkState None None None None None None None
          (mkPlanarView (mkViewport F32.zero F32.zero F32.zero F32.zero F32.zero F32.one)
                        Binary32.zero (F32.zero, F32.zero))
          SimpleScene.new None Binary32.zero.

Definition set_RenderTargets (rt : option RenderTargets.t) (st : State) : State :=
  mkState (m_ShaderFactory st) (m_TextureCache st) (m_CommonPasses st) (m_BindingCache st)
          rt (m_GBufferPass st) (m_DeferredLightingPass st) (m_View st) (m_Scene st)
          (m_CommandList st) (m_Rotation st).

Definition set_GBufferPass (p : option unit) (st : State) : State :=
  mkState (m_ShaderFactory st) (m_TextureCache st) (m_CommonPasses st) (m_BindingCache st)
          (m_RenderTargets st) p (m_DeferredLightingPass st) (m_View st) (m_Scene st)
          (m_CommandList st) (m_Rotation st).

Definition set_View (v : PlanarView) (st : State) : State :=
  mkState (m_ShaderFactory st) (m_TextureCache st) (m_CommonPasses st) (m_BindingCache st)
          (m_RenderTargets st) (m_GBufferPass st) (m_DeferredLightingPass st) v (m_Scene st)
          (m_CommandList st) (m_Rotation st).

Definition set_Rotation (r : Binary32.t) (st : State) : State :=
  mkState (m_ShaderFactory st) (m_TextureCache st) (m_CommonPasses st) (m_BindingCache st)
          (m_RenderTargets st) (m_GBufferPass st) (m_DeferredLightingPass st) (m_View st)
          (m_Scene st) (m_CommandList st) r.

(** Reads [m_RenderTargets], which [Render] has made non-null before the
    call. *)
Definition SetupView (st : State) : State :=
  match m_RenderTargets st with
  | None => st
  | Some rt =>
      let renderTargetSize :=
        (F32.of_Z (fst (RenderTargets.GetSize rt)),
         F32.of_Z (snd (RenderTargets.GetSize rt))) in
      set_View
        (mkPlanarView
           (mkViewport F32.zero (fst renderTargetSize)
                       F32.zero (snd renderTargetSize) F32.zero F32.one)
           (m_Rotation st) renderTargetSize)
        st
  end.

Definition Init (env : Env) (st : State) : Cmd (bool * State) :=
  emit EvCommonRenderPassesCreate;;
  emit EvBindingCacheCreate;;
  emit EvDeferredLightingPassCreate;;
  emit EvDeferredLightingPassInit;;
  emit EvTextureCacheCreate;;
  emit EvCreateCommandList;;
  r <- SimpleScene.Init env (m_Scene st);;
  ret (fst r,
       mkState (Some tt) (Some tt) (Some tt) (Some tt)
               (m_RenderTargets st) (m_GBufferPass st) (Some tt) (m_View st)
               (snd r) (Some tt) (m_Rotation st)).

Definition Animate (seconds : Binary32.t) (st : State) : Cmd State :=
  let st :=
    set_Rotation (Binary32.add (m_Rotation st) (Binary32.mul seconds Binary32.c_1_1)) st in
  emit (EvSetInformativeWindowTitle g_WindowTitle);;
  ret st.

Definition BackBufferResizing (st : State) : Cmd State :=
  ret st.

(** [!m_RenderTargets || any(m_RenderTargets->GetSize() != size)] *)
Definition targets_outdated (st : State) (size : Z * Z) : bool :=
  match m_RenderTargets st with
  | None => true
  | Some rt =>
      negb (fst (RenderTargets.GetSize rt) =? fst size)
      || negb (snd (RenderTargets.GetSize rt) =? snd size)
  end.

Definition Render (framebuffer : FramebufferInfo) (st : State) : Cmd State :=
  let fbinfo := framebuffer in
  let size := (width fbinfo, height fbinfo) in
  st <- (if targets_outdated st size
         then
           let st := set_RenderTargets None st in
           emit EvBindingCacheClear;;
           emit EvDeferredLightingPassResetBindingCache;;
           let st := set_GBufferPass None st in
           rt <- RenderTargets.Init size 1 false false;;
           ret (set_RenderTargets (Some rt) st)
         else ret st);;
  let st := SetupView st in
  st <- match m_GBufferPass st with
        | Some _ => ret st
        | None =>
            emit EvGBufferFillPassCreate;;
            emit EvGBufferFillPassInit;;
            ret (set_GBufferPass (Some tt) st)
        end;;
  emit EvOpen;;
  emit EvRenderTargetsClear;;
  emit (EvRenderView (SimpleScene.GetMeshInstance (m_Scene st)));;
  emit EvDeferredLightingPassRender;;
  emit (EvBlitTexture
          (match m_RenderTargets st with
           | Some rt => RenderTargets.ShadedColor rt
           | None => None
           end));;
  emit EvClose;;
  emit EvExecuteCommandList;;
  ret st.

#[export] Instance RenderPass : IRenderPass State :=
  Build_IRenderPass State BackBufferResizing Animate Render.

(** The process exit code. *)
Definition main (env : Env) : Cmd Z :=
  emit EvGetGraphicsAPIFromCommandLine;;
  emit EvDeviceManagerCreate;;
  let ok := CreateWindowDeviceAndSwapChain_ok env in
  emit (EvCreateWindowDeviceAndSwapChain g_WindowTitle ok);;
  if negb ok
  then
    emit (EvLog Severity.Fatal
            "Cannot initialize a graphics device with the requested parameters");;
    ret 1
  else
    r <- Init env new;;
    (if fst r
     then
       emit EvAddRenderPassToBack;;
       emit EvRunMessageLoop;;
       RunMessageLoop (iterations env) (initial_framebuffer env) (snd r);;
       emit EvRemoveRenderPass
     else ret tt);;
    emit EvShutdown;;
    emit EvDeleteDeviceManager;;
    ret 0.

End DeferredShading.

(** ** The three examples side by side *)

Inductive Example : Set := basic_triangle | vertex_buffer | deferred_shading.

Definition ExampleState (ex : Example) : Type :=
  match ex with
  | basic_triangle => BasicTriangle.State
  | vertex_buffer => VertexBuffer.State
  | deferred_shading => DeferredShading.State
  end.

Definition example_new (ex : Example) : ExampleState ex :=
  match ex with
  | basic_triangle => BasicTriangle.new
  | vertex_buffer => VertexBuffer.new
  | deferred_shading => DeferredShading.new
  end.

Definition example_Init (ex : Example)
  : Env -> ExampleState ex -> Cmd (bool * ExampleState ex) :=
  match ex with
  | basic_triangle => BasicTriangle.Init
  | vertex_buffer => VertexBuffer.Init
  | deferred_shading => DeferredShading.Init
  end.

Definition example_BackBufferResizing (ex : Example)
  : ExampleState ex -> Cmd (ExampleState ex) :=
  match ex with
  | basic_triangle => BasicTriangle.BackBufferResizing
  | vertex_buffer => VertexBuffer.BackBufferResizing
  | deferred_shading => DeferredShading.BackBufferResizing
  end.

Definition example_Render (ex : Example) (env : Env)
  : FramebufferInfo -> ExampleState ex -> Cmd (ExampleState ex) :=
  match ex with
  | basic_triangle => BasicTriangle.Render env
  | vertex_buffer => VertexBuffer.Render env
  | deferred_shading => DeferredShading.Render
  end.

Definition example_main (ex : Example) : Env -> Cmd Z :=
  match ex with
  | basic_triangle => BasicTriangle.main
  | vertex_buffer => VertexBuffer.main
  | deferred_shading => DeferredShading.main
  end.

(** Whether the example holds a cached pipeline object.  The first two
    examples keep the pipeline handle itself; the deferred-shading example
    keeps the G-buffer fill pass, which owns its graphics pipelines. *)
Definition pipeline_cached (ex : Example) : ExampleState ex -> bool :=
  match ex with
  | basic_triangle => fun st =>
      match BasicTriangle.m_Pipeline st with Some _ => true | None => false end
  | vertex_buffer => fun st =>
      match VertexBuffer.m_Pipeline st with Some _ => true | None => false end
  | deferred_shading => fun st =>
      match DeferredShading.m_GBufferPass st with Some _ => true | None => false end
  end.

(** The example state with the cached pipeline object cleared and
    everything else as it was. *)
Definition clear_pipeline (ex : Example) : ExampleState ex -> ExampleState ex :=
  match ex with
  | basic_triangle => fun st =>
      BasicTriangle.mkState (BasicTriangle.m_VertexShader st) (BasicTriangle.m_PixelShader st)
                            None (BasicTriangle.m_CommandList st)
  | vertex_buffer => VertexBuffer.set_Pipeline None
  | deferred_shading => DeferredShading.set_GBufferPass None
  end.

Definition creates_pipeline (e : Event) : bool :=
  match e with
  | EvCreateGraphicsPipeline _ _ | EvGBufferFillPassCreate => true
  | _ => false
  end.

(** The shaders an example asks the shader factory for.  The
    deferred-shading example requests none itself: the engine's passes do,
    with the factory the example hands them. *)
Definition shader_compilation_fails (ex : Example) (env : Env) : Prop :=
  match ex with
  | basic_triangle =>
      CreateShader_ok env "shaders.hlsl" "main_vs" ShaderType.Vertex = false
      \/ CreateShader_ok env "shaders.hlsl" "main_ps" ShaderType.Pixel = false
  | vertex_buffer =>
      CreateShader_ok env "app/shaders.hlsl" "main_vs" ShaderType.Vertex = false
      \/ CreateShader_ok env "app/shaders.hlsl" "main_ps" ShaderType.Pixel = false
  | deferred_shading =>
      forall file entry stage, CreateShader_ok env file entry stage = false
  end.

Definition is_texture_load (e : Event) : bool :=
  match e with EvLoadTextureFromFile _ _ => true | _ => false end.

Definition is_texture_load_failure (e : Event) : bool :=
  match e with EvLoadTextureFromFile _ None => true | _ => false end.

Definition is_render_target_allocation (e : Event) : bool :=
  match e with EvGBufferRenderTargetsInit _ _ _ _ => true | _ => false end.

Definition count (p : Event -> bool) (l : list Event) : nat :=
  List.length (filter p l).

(** ** Regions *)

(** A point of the render target, in pixel coordinates. *)
Definition Point : Set := (Q * Q)%type.

(** The rectangle a viewport covers, right and bottom edges excluded. *)
Definition inside (vp : Viewport) (p : Point) : Prop :=
  (F32.value (minX vp) <= fst p /\ fst p < F32.value (maxX vp)
   /\ F32.value (minY vp) <= snd p /\ snd p < F32.value (maxY vp))%Q.

(** The four viewports of the vertex-buffer example cut the area
    [W] by [H] into a grid of two by two cells of [W/2] by [H/2]: view [i]
    has its corner at column [i mod 2] and row [i / 2]; no point lies in
    two of them, and the points of the area are those of the four cells. *)
Definition viewports_tile (fb : FramebufferInfo) (W H : Q) : Prop :=
  (forall i, 0 <= i < VertexBuffer.c_NumViews ->
     let vp := VertexBuffer.view_viewport fb i in
     (F32.value (minX vp) == W / 2 * inject_Z (i mod 2)
      /\ F32.value (maxX vp) == F32.value (minX vp) + W / 2
      /\ F32.value (minY vp) == H / 2 * inject_Z (i / 2)
      /\ F32.value (maxY vp) == F32.value (minY vp) + H / 2)%Q)
  /\ (forall i j p,
        0 <= i < VertexBuffer.c_NumViews -> 0 <= j < VertexBuffer.c_NumViews ->
        inside (VertexBuffer.view_viewport fb i) p ->
        inside (VertexBuffer.view_viewport fb j) p -> i = j)
  /\ (forall p : Point,
        (0 <= fst p /\ fst p < W /\ 0 <= snd p /\ snd p < H)%Q <->
        exists i, 0 <= i < VertexBuffer.c_NumViews
                  /\ inside (VertexBuffer.view_viewport fb i) p).

(** Byte [b] lies in the range. *)
Definition in_range (r : BufferRange) (b : Z) : Prop :=
  byteOffset r <= b < byteOffset r + rangeByteSize r.

(** The arrays of the cube are objects of one program: their sizes are
    not negative and together they fit the address space. *)
Definition cube_in_memory (c : CubeGeometry) : Prop :=
  0 <= sizeof_g_Positions c /\ 0 <= sizeof_g_TexCoords c
  /\ 0 <= sizeof_g_Normals c /\ 0 <= sizeof_g_Tangents c
  /\ sizeof_g_Positions c + sizeof_g_TexCoords c
     + sizeof_g_Normals c + sizeof_g_Tangents c < 2 ^ 64.

Definition example_RenderPass (ex : Example) (env : Env)
  : IRenderPass (ExampleState ex) :=
  match ex with
  | basic_triangle => BasicTriangle.RenderPass env
  | vertex_buffer => VertexBuffer.RenderPass env
  | deferred_shading => DeferredShading.RenderPass
  end.

Definition example_title (ex : Example) : string :=
  match ex with
  | basic_triangle => BasicTriangle.g_WindowTitle
  | vertex_buffer => VertexBuffer.g_WindowTitle
  | deferred_shading => DeferredShading.g_WindowTitle
  end.

(** The calls of [main] that put the example into the render loop. *)
Definition is_registration (e : Event) : bool :=
  match e with
  | EvAddRenderPassToBack | EvRunMessageLoop => true
  | _ => false
  end.

Definition is_error_log (e : Event) : bool :=
  match e with EvLog Severity.Error _ => true | _ => false end.

(** ** Sample surroundings *)

(** A cube of 24 vertices and 36 indices: [float3] positions, [float2]
    texture coordinates, normals and tangents packed in 4 bytes each. *)
Definition sample_cube : CubeGeometry :=
  mkCubeGeometry 144 288 192 96 96 36 24.

Definition sample_iterations : list Iteration :=
  [ mkIteration None Binary32.zero;
    mkIteration (Some (mkFramebufferInfo 1920 1080)) Binary32.one ].

(** Everything succeeds. *)
Definition env_all_ok : Env :=
  mkEnv (fun _ _ _ => true) (fun _ => true) (fun _ => true) (fun _ _ => true) true
        (mkFramebufferInfo 1280 720) sample_iterations sample_cube 112 128.

(** No shader compiles (the shader files are missing). *)
Definition env_no_shaders : Env :=
  mkEnv (fun _ _ _ => false) (fun _ => true) (fun _ => true) (fun _ _ => true) true
        (mkFramebufferInfo 1280 720) sample_iterations sample_cube 112 128.

(** The texture file is missing. *)
Definition env_no_texture : Env :=
  mkEnv (fun _ _ _ => true) (fun _ => false) (fun _ => true) (fun _ _ => true) true
        (mkFramebufferInfo 1280 720) sample_iterations sample_cube 112 128.

(** No graphics device can be created. *)
Definition env_no_device : Env :=
  mkEnv (fun _ _ _ => true) (fun _ => true) (fun _ => true) (fun _ _ => true) false
        (mkFramebufferInfo 1280 720) sample_iterations sample_cube 112 128.

(** ** The Standard Library's IEEE 754 model, to compare with

    [SpecFloat] specifies binary floating point for any precision; binary32
    has 24 bits of precision and [emax = 128]. *)
Definition F32_to_IEEE (x : F32.t) : spec_float :=
  binary_normalize 24 128 (F32.mant x) (F32.expo x) false.

Definition IEEE_of_Z (n : Z) : spec_float := binary_normalize 24 128 n 0 false.

(** The right edge of the cell in column [j] of a target [n] pixels wide,
    computed as [VertexBuffer.view_viewport] does, in either model. *)
Definition cell_edge_F32 (n j : Z) : F32.t :=
  let width := F32.mul (F32.of_Z n) F32.half in
  let left := F32.mul width (F32.of_Z j) in
  F32.add left width.

Definition cell_edge_IEEE (n j : Z) : spec_float :=
  let width := SFmul 24 128 (IEEE_of_Z n) (S754_finite false 8388608 (-24)) in
  let left := SFmul 24 128 width (IEEE_of_Z j) in
  SFadd 24 128 left width.

Definition sample_sizes : list Z :=
  [0; 1; 2; 3; 5; 720; 1080; 1280; 1920; 4095; 16777215; 16777216; 16777217;
   16777218; 16777219; 33554431; 4294967295].

(** ** The calls a host makes

    A host may call the three methods of a render pass in any order; the
    message loop is one such host. *)
Inductive Call : Set :=
| CallBackBufferResizing
| CallAnimate (seconds : Binary32.t)
| CallRender (framebuffer : FramebufferInfo).

Definition do_call {S : Type} `{IRenderPass S} (c : Call) (st : S) : Cmd S :=
  match c with
  | CallBackBufferResizing => BackBufferResizing st
  | CallAnimate seconds => Animate seconds st
  | CallRender framebuffer => Render framebuffer st
  end.

Fixpoint run_calls {S : Type} `{IRenderPass S} (cs : list Call) (st : S) : Cmd S :=
  match cs with
  | [] => ret st
  | c :: rest => st' <- do_call c st;; run_calls rest st'
  end.

(** The calls that [RunMessageLoop] makes. *)
Fixpoint loop_calls (its : list Iteration) (fb : FramebufferInfo) : list Call :=
  match its with
  | [] => []
  | it :: rest =>
      let fb' := match resized it with Some f => f | None => fb end in
      match resized it with Some _ => [CallBackBufferResizing] | None => [] end
      ++ [CallAnimate (elapsed it); CallRender fb']
      ++ loop_calls rest fb'
  end.

Definition is_CallBackBufferResizing (c : Call) : bool :=
  match c with CallBackBufferResizing => true | _ => false end.

Definition fb_eqb (a b : FramebufferInfo) : bool :=
  (width a =? width b) && (height a =? height b).

(** Every change of framebuffer is announced: a [Render] uses the
    framebuffer of the [Render] before it unless [BackBufferResizing] was
    called in between.  [cur] is the framebuffer in use, if any. *)
Fixpoint resizes_announced (cur : option FramebufferInfo) (cs : list Call) : bool :=
  match cs with
  | [] => true
  | CallBackBufferResizing :: rest => resizes_announced None rest
  | CallAnimate _ :: rest => resizes_announced cur rest
  | CallRender fb :: rest =>
      match cur with
      | Some fb0 => fb_eqb fb0 fb
      | None => true
      end && resizes_announced (Some fb) rest
  end.

(** A graphics state whose pipeline was created for the framebuffer it is
    used with. *)
Definition pipeline_fits_framebuffer (e : Event) : bool :=
  match e with
  | EvSetGraphicsState s =>
      match gs_pipeline s with
      | Some (_, fb) => fb_eqb fb (gs_framebuffer s)
      | None => false
      end
  | _ => true
  end.

(** A graphics state that does not use a pipeline created for another
    framebuffer: its pipeline is null, when the device delivered none, or
    was created for the framebuffer it is used with. *)
Definition pipeline_not_stale (e : Event) : bool :=
  match e with
  | EvSetGraphicsState s =>
      match gs_pipeline s with
      | Some (_, fb) => fb_eqb fb (gs_framebuffer s)
      | None => true
      end
  | _ => true
  end.

(** The device creates every pipeline it is asked for. *)
Definition pipelines_available (env : Env) : Prop :=
  forall desc fb, createGraphicsPipeline_ok env desc fb = true.

(** The device creates none. *)
Definition pipelines_unavailable (env : Env) : Prop :=
  forall desc fb, createGraphicsPipeline_ok env desc fb = false.

Definition is_CallRender (c : Call) : bool :=
  match c with CallRender _ => true | _ => false end.

(** ** The command-list protocol

    A command list is created, then opened, recorded into, closed and
    executed, in this order and any number of times. *)
Inductive CommandListState : Set := ClNone | ClIdle | ClRecording | ClClosed.

(** The calls that record into the command list or are handed it to
    record into. *)
Definition is_recorded (e : Event) : bool :=
  match e with
  | EvBeginTrackingBufferState _ _ | EvWriteBuffer _ _ _
  | EvSetPermanentBufferState _ _ | EvClearColorAttachment _
  | EvSetGraphicsState _ | EvDraw _ | EvDrawIndexed _
  | EvLoadTextureFromFile _ _ | EvRenderTargetsClear | EvRenderView _
  | EvDeferredLightingPassRender | EvBlitTexture _ => true
  | _ => false
  end.

Definition command_list_step (s : CommandListState) (e : Event)
  : option CommandListState :=
  match e with
  | EvCreateCommandList =>
      match s with ClNone => Some ClIdle | _ => None end
  | EvOpen =>
      match s with ClIdle => Some ClRecording | _ => None end
  | EvClose =>
      match s with ClRecording => Some ClClosed | _ => None end
  | EvExecuteCommandList =>
      match s with ClClosed => Some ClIdle | _ => None end
  | _ =>
      if is_recorded e
      then match s with ClRecording => Some ClRecording | _ => None end
      else Some s
  end.

Fixpoint command_list_run (s : CommandListState) (l : list Event)
  : option CommandListState :=
  match l with
  | [] => Some s
  | e :: rest =>
      match command_list_step s e with
      | Some s' => command_list_run s' rest
      | None => None
      end
  end.

(** The calls that create a device or engine object. *)
Definition is_creation (e : Event) : bool :=
  match e with
  | EvCreateCommandList | EvCreateBuffer _ | EvCreateInputLayout _ _
  | EvCreateTexture _ | EvCreateGraphicsPipeline _ _ | EvCreateShader _ _ _ _
  | EvCommonRenderPassesCreate | EvTextureCacheCreate | EvBindingCacheCreate
  | EvLoadTextureFromFile _ _ | EvCreateBindingSetAndLayout _ _
  | EvDeferredLightingPassCreate | EvDeferredLightingPassInit
  | EvGBufferFillPassCreate | EvGBufferFillPassInit
  | EvGBufferRenderTargetsInit _ _ _ _ => true
  | _ => false
  end.

(** The calls after which the next frame has something to create again:
    [BackBufferResizing] in the two examples that cache a pipeline, a
    [Render] on a framebuffer of another size in the deferred-shading
    example. *)
Definition invalidates (ex : Example) (fb : FramebufferInfo) (c : Call) : bool :=
  match ex, c with
  | deferred_shading, CallRender fb' => negb (fb_eqb fb fb')
  | deferred_shading, _ => false
  | _, CallBackBufferResizing => true
  | _, _ => false
  end.

(** The cached pipeline handle of the two examples that keep one. *)
Definition example_pipeline (ex : Example) : ExampleState ex -> GraphicsPipelineHandle :=
  match ex with
  | basic_triangle => BasicTriangle.m_Pipeline
  | vertex_buffer => VertexBuffer.m_Pipeline
  | deferred_shading => fun _ => None
  end.

(** What [createGraphicsPipeline] hands to [Render] when the example asks
    for its pipeline on framebuffer [fb]: a null handle when the device
    delivers none.  The deferred-shading example asks for none. *)
Definition created_pipeline (ex : Example) (env : Env) (fb : FramebufferInfo)
  : ExampleState ex -> GraphicsPipelineHandle :=
  match ex with
  | basic_triangle => fun st =>
      result (createGraphicsPipeline env (BasicTriangle.psoDesc st) fb)
  | vertex_buffer => fun st =>
      result (createGraphicsPipeline env (VertexBuffer.psoDesc st) fb)
  | deferred_shading => fun _ => None
  end.

(** The pipeline [Render] uses on framebuffer [fb]: the cached one if there
    is one, else the one it asks the device for. *)
Definition pipeline_in_use (ex : Example) (env : Env) (fb : FramebufferInfo)
    (st : ExampleState ex) : GraphicsPipelineHandle :=
  match example_pipeline ex st with
  | Some p => Some p
  | None => created_pipeline ex env fb st
  end.

(** Nothing is left to create for a frame on framebuffer [fb]. *)
Definition frame_ready (ex : Example) (fb : FramebufferInfo) : ExampleState ex -> bool :=
  match ex with
  | basic_triangle => fun st =>
      match BasicTriangle.m_Pipeline st with Some _ => true | None => false end
  | vertex_buffer => fun st =>
      match VertexBuffer.m_Pipeline st with Some _ => true | None => false end
  | deferred_shading => fun st =>
      negb (DeferredShading.targets_outdated st (width fb, height fb))
      && match DeferredShading.m_GBufferPass st with Some _ => true | None => false end
  end.

(** What [Init] sets up and the frames use: every member but the cached
    pipeline, render targets, pass and view, and the rotation angle. *)
Definition same_resources (ex : Example) : ExampleState ex -> ExampleState ex -> Prop :=
  match ex with
  | basic_triangle => fun a b =>
      BasicTriangle.m_VertexShader a = BasicTriangle.m_VertexShader b
      /\ BasicTriangle.m_PixelShader a = BasicTriangle.m_PixelShader b
      /\ BasicTriangle.m_CommandList a = BasicTriangle.m_CommandList b
  | vertex_buffer => fun a b =>
      VertexBuffer.m_VertexShader a = VertexBuffer.m_VertexShader b
      /\ VertexBuffer.m_PixelShader a = VertexBuffer.m_PixelShader b
      /\ VertexBuffer.m_ConstantBuffer a = VertexBuffer.m_ConstantBuffer b
      /\ VertexBuffer.m_VertexBuffer a = VertexBuffer.m_VertexBuffer b
      /\ VertexBuffer.m_IndexBuffer a = VertexBuffer.m_IndexBuffer b
      /\ VertexBuffer.m_Texture a = VertexBuffer.m_Texture b
      /\ VertexBuffer.m_InputLayout a = VertexBuffer.m_InputLayout b
      /\ VertexBuffer.m_BindingLayout a = VertexBuffer.m_BindingLayout b
      /\ VertexBuffer.m_BindingSets a = VertexBuffer.m_BindingSets b
      /\ VertexBuffer.m_CommandList a = VertexBuffer.m_CommandList b
  | deferred_shading => fun a b =>
      DeferredShading.m_ShaderFactory a = DeferredShading.m_ShaderFactory b
      /\ DeferredShading.m_TextureCache a = DeferredShading.m_TextureCache b
      /\ DeferredShading.m_CommonPasses a = DeferredShading.m_CommonPasses b
      /\ DeferredShading.m_BindingCache a = DeferredShading.m_BindingCache b
      /\ DeferredShading.m_DeferredLightingPass a = DeferredShading.m_DeferredLightingPass b
      /\ DeferredShading.m_Scene a = DeferredShading.m_Scene b
      /\ DeferredShading.m_CommandList a = DeferredShading.m_CommandList b
  end.

(** Both shaders the example asks for compiled. *)
Definition shaders_ok (ex : Example) (env : Env) : bool :=
  match ex with
  | basic_triangle =>
      CreateShader_ok env "shaders.hlsl" "main_vs" ShaderType.Vertex
      && CreateShader_ok env "shaders.hlsl" "main_ps" ShaderType.Pixel
  | vertex_buffer =>
      CreateShader_ok env "app/shaders.hlsl" "main_vs" ShaderType.Vertex
      && CreateShader_ok env "app/shaders.hlsl" "main_ps" ShaderType.Pixel
  | deferred_shading => true
  end.

(** The graphics states set, in order. *)
Definition graphics_states (l : list Event) : list GraphicsState :=
  flat_map (fun e => match e with EvSetGraphicsState s => [s] | _ => [] end) l.

(** The (offset, size) of the writes into the buffer called [name]. *)
Definition writes_to (name : string) (l : list Event) : list (Z * Z) :=
  flat_map (fun e =>
              match e with
              | EvWriteBuffer (Some d) size offset =>
                  if String.eqb (debugName d) name then [(offset, size)] else []
              | _ => []
              end) l.

(** A write that stays inside the buffer it writes: inside the byte size
    the buffer was asked for when it was created.  Nothing is said of a
    write through a null handle. *)
Definition write_in_bounds (e : Event) : Prop :=
  match e with
  | EvWriteBuffer (Some d) size offset =>
      0 <= offset /\ 0 <= size /\ offset + size <= byteSize d
  | _ => True
  end.

Definition write_in_boundsb (e : Event) : bool :=
  match e with
  | EvWriteBuffer (Some d) size offset =>
      (0 <=? offset) && (0 <=? size) && (offset + size <=? byteSize d)
  | _ => true
  end.

Definition is_WriteBuffer (e : Event) : bool :=
  match e with EvWriteBuffer _ _ _ => true | _ => false end.

(** The writes [ws], given as (offset, size), follow one another from
    [start] to [stop] without gap or overlap. *)
Fixpoint writes_tile (start : Z) (ws : list (Z * Z)) (stop : Z) : Prop :=
  match ws with
  | [] => start = stop
  | (offset, size) :: rest =>
      offset = start /\ 0 <= size /\ writes_tile (start + size) rest stop
  end.

(** The sizes the environment reports are sizes: none is negative. *)
Definition sizes_in_memory (env : Env) : Prop :=
  cube_in_memory (cube env)
  /\ 0 <= sizeof_g_Indices (cube env)
  /\ 0 <= sizeof_InstanceData env
  /\ 0 <= sizeof_MaterialConstants env.
(** The pipeline in the state, if any, was created for [cur]. *)
Definition pipeline_for (cur : option FramebufferInfo) (p : GraphicsPipelineHandle) : Prop :=
  forall d fb, p = Some (d, fb) -> cur = Some fb.

Definition next_framebuffer (cur : option FramebufferInfo) (c : Call)
  : option FramebufferInfo :=
  match c with
  | CallBackBufferResizing => None
  | CallAnimate _ => cur
  | CallRender fb => Some fb
  end.

Definition is_SetGraphicsState (e : Event) : bool :=
  match e with EvSetGraphicsState _ => true | _ => false end.

(** What [Init] asks of its surroundings, step by step: it succeeds when
    every step does.  [st'] is the state [Init] leaves, whose constant
    buffer and texture the binding sets name. *)
Definition Init_steps_succeed (ex : Example) (env : Env)
  : ExampleState ex -> bool :=
  match ex with
  | basic_triangle => fun _ => shaders_ok basic_triangle env
  | vertex_buffer => fun st' =>
      shaders_ok vertex_buffer env
      && LoadTextureFromFile_ok env "media/nvidia-logo.png"
      && forallb (fun i => CreateBindingSetAndLayout_ok env
                             (VertexBuffer.bindingSetDesc st' i))
                 VertexBuffer.view_indices
  | deferred_shading => fun _ => LoadTextureFromFile_ok env "media/nvidia-logo.png"
  end.

(** What [main] undoes before it returns. *)
Definition is_teardown (e : Event) : bool :=
  match e with
  | EvRemoveRenderPass | EvShutdown | EvDeleteDeviceManager => true
  | _ => false
  end.

(** The constant-buffer ranges a binding set binds. *)
Definition constant_ranges (h : BindingSetHandle) : list BufferRange :=
  match h with
  | Some desc =>
      flat_map (fun item => match item with
                            | ConstantBuffer _ _ range => [range]
                            | _ => []
                            end) desc
  | None => []
  end.

Definition is_draw (e : Event) : bool :=
  match e with EvDraw _ | EvDrawIndexed _ => true | _ => false end.

(** ** Buffer state tracking

    A buffer that does not keep its initial state is written only after
    [beginTrackingBufferState] and before [setPermanentBufferState], each
    of which is called once for it.  The state is the names of the buffers
    being tracked and of those made permanent.  A buffer is known by the
    description it was created from; the order of the calls is what is
    checked, so a call on a null handle is passed over. *)
Definition name_in (name : string) (l : list string) : bool :=
  existsb (String.eqb name) l.

Definition buffer_state_step (s : list string * list string) (e : Event)
  : option (list string * list string) :=
  let (tracked, permanent) := s in
  match e with
  | EvBeginTrackingBufferState (Some d) _ =>
      if keepInitialState d || name_in (debugName d) tracked
         || name_in (debugName d) permanent
      then None
      else Some (debugName d :: tracked, permanent)
  | EvWriteBuffer (Some d) _ _ =>
      if keepInitialState d || name_in (debugName d) tracked
      then Some s
      else None
  | EvSetPermanentBufferState (Some d) _ =>
      if name_in (debugName d) tracked
      then Some (filter (fun n => negb (String.eqb n (debugName d))) tracked,
                 debugName d :: permanent)
      else None
  | _ => Some s
  end.

Fixpoint buffer_state_run (s : list string * list string) (l : list Event)
  : option (list string * list string) :=
  match l with
  | [] => Some s
  | e :: rest =>
      match buffer_state_step s e with
      | Some s' => buffer_state_run s' rest
      | None => None
      end
  end.




(** The draw item [Render] builds for the G-buffer pass: the mesh instance
    of the scene, its mesh, the first geometry of the mesh, the material of
    that geometry and the buffers of the mesh.  [None] where the source
    would follow a null pointer or index an empty vector. *)
Definition drawItem (st : SimpleScene.State)
  : option (MeshInfo * MeshGeometry * Material * BufferGroup) :=
  match SimpleScene.GetMeshInstance st with
  | Some instance =>
      match nth_error (leaves (SimpleScene.store st)) instance with
      | Some (_, MeshInstance (Some mesh)) =>
          match geometries mesh with
          | geometry :: _ =>
              match material geometry, buffers mesh with
              | Some mat, Some b => Some (mesh, geometry, mat, b)
              | _, _ => None
              end
          | [] => None
          end
      | _ => None
      end
  | None => None
  end.

(** ** Proof automation *)

(** Unfold the computations down to their events and leave the
    descriptors inside the events alone. *)
Ltac run_cmd :=
  cbn [existsb filter events result bind emit ret fst snd app orb negb
       for_each List.length
       creates_pipeline is_registration is_texture_load is_texture_load_failure
       is_error_log is_render_target_allocation is_scene_mutation
       CreateShader LoadTextureFromFile CreateBindingSetAndLayout texture
       BasicTriangle.m_VertexShader BasicTriangle.m_PixelShader BasicTriangle.m_Pipeline
       VertexBuffer.create_binding_sets VertexBuffer.set_shaders
       VertexBuffer.m_VertexShader VertexBuffer.m_PixelShader VertexBuffer.m_Pipeline
       VertexBuffer.set_Pipeline
       SimpleScene.Init_buffers SimpleScene.Init_graph SimpleScene.CreateGeometryBuffer
       SimpleScene.CreateMaterialConstantBuffer
       new_node new_leaf SetRootNode SetLeaf SetNodeName AttachLeafNode SetDirection
       SetLeafName RenderTargets.Init].

Ltac split_oracles :=
  repeat (run_cmd;
          match goal with
          | |- context [CreateShader_ok ?e ?f ?n ?s] =>
              destruct (CreateShader_ok e f n s) eqn:?
          | |- context [LoadTextureFromFile_ok ?e ?p] =>
              destruct (LoadTextureFromFile_ok e p) eqn:?
          | |- context [CreateBindingSetAndLayout_ok ?e ?d] =>
              destruct (CreateBindingSetAndLayout_ok e d) eqn:?
          end);
  run_cmd.

Ltac split_ifs :=
  repeat match goal with
         | |- context [match ?b with true => _ | false => _ end] => destruct b
         end.

(** Membership in a list that is written out. *)
Ltac in_list := cbn [In]; repeat (first [left; reflexivity | right]).

(** A property of the events of [Init] that does not depend on what the
    surroundings answer. *)
Ltac Init_events ex :=
  destruct ex;
  [ vm_compute; split_ifs; reflexivity
  | vm_compute; split_ifs; reflexivity
  | cbn [example_Init]; unfold DeferredShading.Init, SimpleScene.Init;
    split_oracles; reflexivity ].

(** Case analysis on what the surroundings answered, once the answers
    are variables; an answer asked for twice is the same both times. *)
Ltac split_answers :=
  repeat (match goal with
          | |- context [match ?b with true => _ | false => _ end] =>
              let E := fresh "E" in destruct b eqn:E
          end; cbv beta iota);
  try reflexivity; try congruence.

(** * Properties *)

(** * Single-precision arithmetic: what rounding leaves exact *)
Section F32_facts.
Import F32.

Lemma round_small m e : 0 <= m < 2 ^ 24 -> round m e = mk m e.
Proof.
  intros H. unfold round, prec.
  assert (Hl : Z.log2 (Z.abs m) < 24).
  { rewrite Z.abs_eq by lia. destruct (Z.eq_dec m 0) as [->|]; [reflexivity|].
    apply Z.log2_lt_pow2; lia. }
  destruct (Z.leb_spec (Z.log2 (Z.abs m) + 1 - 24) 0); [reflexivity | lia].
Qed.

Lemma round_pow24 e : round (2 ^ 24) e = mk (2 ^ 23) (e + 1).
Proof. reflexivity. Qed.

Lemma round_mant_bound m e : 0 <= m -> 0 <= mant (round m e) <= 2 ^ 24.
Proof.
  intros Hm. unfold round, prec. rewrite Z.abs_eq by lia.
  set (d := Z.log2 m + 1 - 24).
  destruct (Z.leb_spec d 0) as [Hd|Hd]; cbn [mant].
  - split; [lia|]. destruct (Z.eq_dec m 0) as [->|]; [lia|].
    assert (m < 2 ^ 24); [|lia].
    apply Z.log2_lt_pow2; lia.
  - assert (Hpos : 0 < m).
    { destruct (Z.eq_dec m 0) as [E|]; [|lia]. subst m. cbn in d. lia. }
    assert (Hq : 0 <= m / 2 ^ d < 2 ^ 24).
    { split; [apply Z.div_pos; lia|].
      apply Z.div_lt_upper_bound; [lia|].
      rewrite <- Z.pow_add_r by lia.
      replace (d + 24) with (Z.succ (Z.log2 m)) by lia.
      apply Z.log2_spec; lia. }
    rewrite Z.sgn_pos by lia.
    repeat match goal with |- context [if ?b then _ else _] => destruct b end; lia.
Qed.

Lemma value_shift m k e :
  0 <= k -> (value (mk (m * 2 ^ k) e) == value (mk m (e + k)))%Q.
Proof.
  intros Hk. unfold value; cbn [mant expo].
  rewrite Qpower_plus by discriminate.
  rewrite inject_Z_mult, Zpower_Qpower by lia.
  change (inject_Z 2) with 2%Q. ring.
Qed.

(** A number with at most 24 significant bits is not changed by
    rounding. *)
Lemma round_exact m k e :
  0 <= m <= 2 ^ 24 -> 0 <= k ->
  (value (round (m * 2 ^ k) e) == value (mk (m * 2 ^ k) e))%Q.
Proof.
  intros Hm Hk. unfold round, prec.
  set (M := m * 2 ^ k).
  assert (HM : 0 <= M) by (unfold M; nia).
  rewrite Z.abs_eq by lia.
  set (d := Z.log2 M + 1 - 24).
  destruct (Z.leb_spec d 0) as [Hd|Hd]; [reflexivity|].
  assert (Hpos : 0 < m).
  { destruct (Z.eq_dec m 0) as [E|]; [|lia]. subst m. cbn in d. lia. }
  assert (HMpos : 0 < M) by (unfold M; nia).
  assert (Hdiv : exists c, 0 <= c /\ M = c * 2 ^ d).
  { destruct (Z.eq_dec m (2 ^ 24)) as [E|NE].
    - assert (EM : M = 2 ^ (24 + k)) by (unfold M; rewrite E, Z.pow_add_r; lia).
      assert (d = k + 1) by (unfold d; rewrite EM, Z.log2_pow2; lia).
      exists (2 ^ 23). split; [lia|].
      rewrite EM, H, <- Z.pow_add_r by lia. f_equal; lia.
    - assert (Hl : Z.log2 M < 24 + k).
      { apply Z.log2_lt_pow2; [lia|]. unfold M. rewrite Z.pow_add_r by lia.
        apply Z.mul_lt_mono_pos_r; lia. }
      exists (m * 2 ^ (k - d)). split; [nia|].
      unfold M. rewrite <- Z.mul_assoc, <- Z.pow_add_r by lia. do 2 f_equal. lia. }
  destruct Hdiv as (c & Hc & EM).
  assert (Eq : M / 2 ^ d = c) by (rewrite EM; apply Z.div_mul; lia).
  assert (Er : M mod 2 ^ d = 0) by (rewrite EM; apply Z.mod_mul; lia).
  rewrite Eq, Er.
  destruct (Z.ltb_spec 0 (2 ^ (d - 1))) as [_|Hh];
    [|pose proof (Z.pow_pos_nonneg 2 (d - 1)); lia].
  rewrite Z.sgn_pos by lia. rewrite Z.mul_1_l.
  rewrite EM. symmetry. apply value_shift. lia.
Qed.

Lemma value_aligned a b e :
  e <= expo a -> e <= expo b ->
  (value (mk (mant a * 2 ^ (expo a - e) + mant b * 2 ^ (expo b - e)) e)
   == value a + value b)%Q.
Proof.
  intros Ha Hb. unfold value; cbn [mant expo].
  rewrite inject_Z_plus, !inject_Z_mult, !Zpower_Qpower by lia.
  change (inject_Z 2) with 2%Q.
  replace (expo a) with ((expo a - e) + e) at 2 by lia.
  replace (expo b) with ((expo b - e) + e) at 2 by lia.
  rewrite !Qpower_plus by discriminate. ring.
Qed.

Lemma add_exact a b m k :
  0 <= m <= 2 ^ 24 -> 0 <= k ->
  mant a * 2 ^ (expo a - Z.min (expo a) (expo b))
    + mant b * 2 ^ (expo b - Z.min (expo a) (expo b)) = m * 2 ^ k ->
  (value (add a b) == value a + value b)%Q.
Proof.
  intros Hm Hk E. unfold add. rewrite E, round_exact by assumption.
  rewrite <- E. apply value_aligned; lia.
Qed.

Lemma mul_exact a b :
  0 <= mant a * mant b <= 2 ^ 24 ->
  (value (mul a b) == value a * value b)%Q.
Proof.
  intros H. unfold mul.
  rewrite <- (Z.mul_1_r (mant a * mant b)).
  change 1 with (2 ^ 0) at 1. rewrite round_exact by lia.
  rewrite Z.mul_1_r. unfold value; cbn [mant expo].
  rewrite inject_Z_mult, Qpower_plus by discriminate. ring.
Qed.

(** Integers up to 2^24 convert to [float] without error. *)
Lemma of_Z_exact n : 0 <= n <= 2 ^ 24 -> (value (of_Z n) == inject_Z n)%Q.
Proof.
  intros Hn. unfold of_Z.
  rewrite <- (Z.mul_1_r n) at 1. change 1 with (2 ^ 0) at 1.
  rewrite round_exact by lia. rewrite Z.mul_1_r.
  unfold value; cbn. ring.
Qed.

Lemma of_Z_mant n : 0 <= n -> 0 <= mant (of_Z n) <= 2 ^ 24.
Proof. apply round_mant_bound. Qed.

Lemma of_Z_nonneg n : 0 <= n -> (0 <= value (of_Z n))%Q.
Proof.
  intros Hn. pose proof (of_Z_mant n Hn) as Hb. unfold value.
  apply Qmult_le_0_compat.
  - change 0%Q with (inject_Z 0). rewrite <- Zle_Qle. lia.
  - apply Qpower_0_le. discriminate.
Qed.

(** The side of a grid cell, its near edge in column or row [j] and its
    far edge, as [VertexBuffer.view_viewport] computes them. *)
Local Abbreviation cell_size n := (mul (of_Z n) half).
Local Abbreviation cell_lo n j := (mul (cell_size n) (of_Z j)).
Local Abbreviation cell_hi n j := (add (cell_lo n j) (cell_size n)).

Lemma cell_size_mant n : 0 <= n -> 0 <= mant (cell_size n) <= 2 ^ 24.
Proof.
  intros Hn. unfold mul. apply round_mant_bound.
  pose proof (of_Z_mant n Hn). cbn. lia.
Qed.

Lemma cell_size_value n :
  0 <= n -> (value (cell_size n) == value (of_Z n) / 2)%Q.
Proof.
  intros Hn. rewrite mul_exact.
  - change (value half) with (1 * / 2)%Q. field.
  - pose proof (of_Z_mant n Hn). cbn. lia.
Qed.

Lemma mul_one_r a : mul a (of_Z 1) = round (mant a) (expo a).
Proof.
  unfold mul. change (mant (of_Z 1)) with 1. change (expo (of_Z 1)) with 0.
  now rewrite Z.mul_1_r, Z.add_0_r.
Qed.

Lemma mul_zero_r a : mul a (of_Z 0) = mk 0 (expo a).
Proof.
  unfold mul. change (mant (of_Z 0)) with 0. change (expo (of_Z 0)) with 0.
  now rewrite Z.mul_0_r, Z.add_0_r.
Qed.


Lemma cell_lo_value n j :
  0 <= n -> 0 <= j <= 1 ->
  (value (cell_lo n j) == value (cell_size n) * inject_Z j)%Q.
Proof.
  intros Hn Hj. assert (j = 0 \/ j = 1) as [-> | ->] by lia.
  - rewrite mul_zero_r. unfold value; cbn [mant expo]. ring.
  - rewrite mul_exact.
    + change (value (of_Z 1)) with (1 * 1)%Q. ring.
    + pose proof (cell_size_mant n Hn). change (mant (of_Z 1)) with 1. lia.
Qed.

Lemma cell_hi_value n j :
  0 <= n -> 0 <= j <= 1 ->
  (value (cell_hi n j) == value (cell_lo n j) + value (cell_size n))%Q.
Proof.
  intros Hn Hj. pose proof (cell_size_mant n Hn) as Hb.
  assert (j = 0 \/ j = 1) as [-> | ->] by lia.
  - rewrite mul_zero_r.
    apply add_exact with (m := mant (cell_size n)) (k := 0); [lia | lia |].
    cbn [mant expo]. rewrite Z.min_id, Z.sub_diag. lia.
  - rewrite mul_one_r.
    destruct (Z.eq_dec (mant (cell_size n)) (2 ^ 24)) as [E|NE].
    + rewrite E, round_pow24.
      apply add_exact with (m := 2 ^ 24) (k := 1); [lia | lia |].
      rewrite E. cbn [mant expo].
      rewrite Z.min_r by lia.
      replace (expo (cell_size n) + 1 - expo (cell_size n)) with 1 by lia.
      rewrite Z.sub_diag. reflexivity.
    + rewrite round_small by lia.
      apply add_exact with (m := mant (cell_size n)) (k := 1); [lia | lia |].
      cbn [mant expo]. rewrite Z.min_id, Z.sub_diag. lia.
Qed.

End F32_facts.

(** * The viewports of the vertex-buffer example *)

Lemma view_viewport_edges fb i :
  0 <= width fb -> 0 <= height fb -> 0 <= i < 4 ->
  let vp := VertexBuffer.view_viewport fb i in
  (F32.value (minX vp) == F32.value (F32.of_Z (width fb)) / 2 * inject_Z (i mod 2)
   /\ F32.value (maxX vp) == F32.value (minX vp) + F32.value (F32.of_Z (width fb)) / 2
   /\ F32.value (minY vp) == F32.value (F32.of_Z (height fb)) / 2 * inject_Z (i / 2)
   /\ F32.value (maxY vp) == F32.value (minY vp) + F32.value (F32.of_Z (height fb)) / 2)%Q.
Proof.
  intros Hw Hh Hi. cbv zeta. unfold VertexBuffer.view_viewport. cbn [minX maxX minY maxY].
  assert (Hc : 0 <= i mod 2 <= 1) by (pose proof (Z.mod_pos_bound i 2); lia).
  assert (Hr : 0 <= i / 2 <= 1).
  { split; [apply Z.div_pos; lia|]. apply Z.lt_succ_r, Z.div_lt_upper_bound; lia. }
  rewrite !cell_hi_value, !cell_lo_value, !cell_size_value by assumption.
  repeat split; reflexivity.
Qed.

Lemma viewports_tile_float fb :
  0 <= width fb -> 0 <= height fb ->
  viewports_tile fb (F32.value (F32.of_Z (width fb))) (F32.value (F32.of_Z (height fb))).
Proof.
  intros Hw Hh.
  pose proof (of_Z_nonneg _ Hw) as HW. pose proof (of_Z_nonneg _ Hh) as HH.
  pose proof (view_viewport_edges fb 0 Hw Hh ltac:(lia)) as E0.
  pose proof (view_viewport_edges fb 1 Hw Hh ltac:(lia)) as E1.
  pose proof (view_viewport_edges fb 2 Hw Hh ltac:(lia)) as E2.
  pose proof (view_viewport_edges fb 3 Hw Hh ltac:(lia)) as E3.
  cbv zeta in E0, E1, E2, E3.
  change (0 mod 2) with 0 in E0. change (0 / 2) with 0 in E0.
  change (1 mod 2) with 1 in E1. change (1 / 2) with 0 in E1.
  change (2 mod 2) with 0 in E2. change (2 / 2) with 1 in E2.
  change (3 mod 2) with 1 in E3. change (3 / 2) with 1 in E3.
  change (inject_Z 0) with 0%Q in *. change (inject_Z 1) with 1%Q in *.
  set (W := F32.value (F32.of_Z (width fb))) in *.
  set (H := F32.value (F32.of_Z (height fb))) in *.
  assert (HW2 : (W / 2 + W / 2 == W)%Q) by field.
  assert (HH2 : (H / 2 + H / 2 == H)%Q) by field.
  unfold viewports_tile, VertexBuffer.c_NumViews.
  split; [|split].
  - intros i Hi. apply view_viewport_edges; assumption.
  - intros i j p Hi Hj. unfold inside.
    assert (Ci : i = 0 \/ i = 1 \/ i = 2 \/ i = 3) by lia.
    assert (Cj : j = 0 \/ j = 1 \/ j = 2 \/ j = 3) by lia.
    destruct Ci as [-> | [-> | [-> | ->]]], Cj as [-> | [-> | [-> | ->]]];
      intros Pi Pj; try reflexivity; exfalso; lra.
  - intros p. unfold inside. split.
    + intros Hp.
      destruct (Qlt_le_dec (fst p) (W / 2)) as [Hx|Hx],
               (Qlt_le_dec (snd p) (H / 2)) as [Hy|Hy].
      * exists 0. split; [lia|]. repeat split; lra.
      * exists 2. split; [lia|]. repeat split; lra.
      * exists 1. split; [lia|]. repeat split; lra.
      * exists 3. split; [lia|]. repeat split; lra.
    + intros (i & Hi & Pi).
      assert (Ci : i = 0 \/ i = 1 \/ i = 2 \/ i = 3) by lia.
      destruct Ci as [-> | [-> | [-> | ->]]]; repeat split; lra.
Qed.

Lemma viewports_tile_ext fb W H W' H' :
  (W == W')%Q -> (H == H')%Q -> viewports_tile fb W H -> viewports_tile fb W' H'.
Proof.
  intros EW EH (A & B & C). split; [|split].
  - intros i Hi. specialize (A i Hi). cbv zeta in *.
    rewrite <- EW, <- EH. exact A.
  - exact B.
  - intros p. rewrite <- EW, <- EH. apply C.
Qed.

(** * The four viewports and the framebuffer *)

(** C2, as stated, fails for a framebuffer 16777217 pixels wide: that
    width is not a [float], the conversion rounds it to 16777216, and the
    point (16777216.5, 0) of the last pixel column lies in no viewport. *)
Lemma viewports_counterexample :
  ~ viewports_tile (mkFramebufferInfo 16777217 2) (inject_Z 16777217) (inject_Z 2).
Proof.
  intros (_ & _ & C).
  destruct (proj1 (C ((33554433 # 2)%Q, 0%Q))) as (i & Hi & Hin).
  - cbn [fst snd]. repeat split; reflexivity || discriminate.
  - unfold VertexBuffer.c_NumViews in Hi. unfold inside in Hin. cbn [fst snd] in Hin.
    destruct Hin as (_ & Hx & _).
    assert (Ci : i = 0 \/ i = 1 \/ i = 2 \/ i = 3) by lia.
    destruct Ci as [-> | [-> | [-> | ->]]]; vm_compute in Hx; discriminate Hx.
Qed.

(** C2, amended.  For every framebuffer whose width and height are at most
    2^24 (so that they convert to [float] exactly), the four viewports of
    [VertexBuffer.Render] form a grid of two by two cells of w/2 by h/2,
    view [i] at column [i mod 2] and row [i / 2]; they do not overlap, and
    their union is the whole w by h area. *)
Theorem vertex_buffer_viewports_tile :
  forall fb,
    0 <= width fb <= 2 ^ 24 -> 0 <= height fb <= 2 ^ 24 ->
    viewports_tile fb (inject_Z (width fb)) (inject_Z (height fb)).
Proof.
  intros fb Hw Hh.
  apply viewports_tile_ext
    with (W := F32.value (F32.of_Z (width fb))) (H := F32.value (F32.of_Z (height fb))).
  - apply of_Z_exact. exact Hw.
  - apply of_Z_exact. exact Hh.
  - apply viewports_tile_float; lia.
Qed.

(** C2 at a 1920 by 1080 framebuffer. *)
Lemma vertex_buffer_viewports_tile_witness :
  viewports_tile (mkFramebufferInfo 1920 1080) (inject_Z 1920) (inject_Z 1080).
Proof.
  apply (vertex_buffer_viewports_tile (mkFramebufferInfo 1920 1080)); cbn; lia.
Defined.

(** Whatever the size, the four viewports cover exactly the viewport that
    [getViewport] reports for the whole framebuffer. *)
Lemma viewports_cover_getViewport fb p :
  0 <= width fb -> 0 <= height fb ->
  inside (getViewport fb) p <->
  exists i, 0 <= i < VertexBuffer.c_NumViews
            /\ inside (VertexBuffer.view_viewport fb i) p.
Proof.
  intros Hw Hh. destruct (viewports_tile_float fb Hw Hh) as (_ & _ & C).
  rewrite <- C. unfold inside, getViewport. cbn [minX maxX minY maxY].
  change (F32.value F32.zero) with (0 * 1)%Q.
  split; intros (A & B & D & E); repeat split; try assumption; lra.
Qed.

(** The viewports that [Render] sets are those of [view_viewport], one per
    view and in the order of the views. *)
Lemma Render_viewports env fb st :
  flat_map (fun e => match e with EvSetGraphicsState s => gs_viewports s | _ => [] end)
           (events (VertexBuffer.Render env fb st))
  = map (VertexBuffer.view_viewport fb) [0; 1; 2; 3].
Proof.
  unfold VertexBuffer.Render. destruct (VertexBuffer.m_Pipeline st); reflexivity.
Qed.

(** * Computations and their events *)

Lemma result_bind {A B} (m : Cmd A) (k : A -> Cmd B) :
  result (bind m k) = result (k (result m)).
Proof. destruct m as [a l]; cbn. now destruct (k a). Qed.

Lemma events_bind {A B} (m : Cmd A) (k : A -> Cmd B) :
  events (bind m k) = events m ++ events (k (result m)).
Proof. destruct m as [a l]; cbn. now destruct (k a). Qed.

Lemma count_app p l1 l2 : count p (l1 ++ l2) = (count p l1 + count p l2)%nat.
Proof. unfold count. now rewrite filter_app, length_app. Qed.

(** * The shape of [main] *)

Lemma example_main_eq ex env :
  example_main ex env =
    if CreateWindowDeviceAndSwapChain_ok env
    then
      let r := example_Init ex env (example_new ex) in
      (0,
       [EvGetGraphicsAPIFromCommandLine; EvDeviceManagerCreate;
        EvCreateWindowDeviceAndSwapChain (example_title ex) true]
         ++ events r
         ++ (if fst (result r)
             then EvAddRenderPassToBack :: EvRunMessageLoop
                    :: events (@RunMessageLoop _ (example_RenderPass ex env) (iterations env)
                                 (initial_framebuffer env) (snd (result r)))
                    ++ [EvRemoveRenderPass]
             else [])
         ++ [EvShutdown; EvDeleteDeviceManager])
    else
      (1,
       [EvGetGraphicsAPIFromCommandLine; EvDeviceManagerCreate;
        EvCreateWindowDeviceAndSwapChain (example_title ex) false;
        EvLog Severity.Fatal
          "Cannot initialize a graphics device with the requested parameters"]).
Proof.
  destruct ex;
    cbn [example_main example_Init example_new example_title example_RenderPass ExampleState];
    [unfold BasicTriangle.main | unfold VertexBuffer.main | unfold DeferredShading.main];
    (destruct (CreateWindowDeviceAndSwapChain_ok env); [|reflexivity]);
    cbv zeta; unfold result, events;
    match goal with |- context [bind ?i _] =>
      match i with
      | BasicTriangle.Init _ _ => generalize i
      | VertexBuffer.Init _ _ => generalize i
      | DeferredShading.Init _ _ => generalize i
      end
    end;
    intros [[b st] evs]; unfold bind, emit, ret; cbn [fst snd negb app];
    destruct b; cbn [fst snd app];
    try match goal with
        | |- context [RunMessageLoop ?its ?fb ?s] => destruct (RunMessageLoop its fb s)
        end;
    cbn [fst snd app]; rewrite <- ?app_assoc; reflexivity.
Qed.

(** * What [Init] can do *)

Lemma Init_creates_no_pipeline ex env st :
  existsb creates_pipeline (events (example_Init ex env st)) = false.
Proof. Init_events ex. Qed.

Lemma Init_registers_nothing ex env st :
  existsb is_registration (events (example_Init ex env st)) = false.
Proof. Init_events ex. Qed.

(** * What the render-pass methods do *)

Lemma BackBufferResizing_events ex st :
  events (example_BackBufferResizing ex st) = [].
Proof. destruct ex; reflexivity. Qed.

Lemma Animate_events ex env dt st :
  events (@Animate _ (example_RenderPass ex env) dt st)
  = [EvSetInformativeWindowTitle (example_title ex)].
Proof. destruct ex; reflexivity. Qed.

(** The events of one frame of the deferred-shading example. *)
Lemma DeferredShading_Render_events fb st :
  exists tail,
    events (DeferredShading.Render fb st)
    = (if DeferredShading.targets_outdated st (width fb, height fb)
       then [ EvBindingCacheClear; EvDeferredLightingPassResetBindingCache;
              EvGBufferRenderTargetsInit (width fb, height fb) 1 false false;
              EvCreateTexture
                (mkTextureDesc (width fb) (height fb) 1 Format.RGBA16_FLOAT
                               "ShadedColor" true ResourceStates.UnorderedAccess true) ]
       else [])
      ++ (if DeferredShading.targets_outdated st (width fb, height fb)
             || negb (pipeline_cached deferred_shading st)
          then [EvGBufferFillPassCreate; EvGBufferFillPassInit]
          else [])
      ++ EvOpen :: EvRenderTargetsClear :: tail
    /\ existsb creates_pipeline tail = false
    /\ existsb is_registration tail = false
    /\ existsb is_render_target_allocation tail = false.
Proof.
  unfold DeferredShading.Render. cbv zeta.
  destruct (DeferredShading.targets_outdated st (width fb, height fb)) eqn:E.
  - eexists. split; [reflexivity|]. repeat split; reflexivity.
  - unfold DeferredShading.targets_outdated in E.
    destruct st as [sf tc cp bc [rt|] [[]|] lp v sc cl rot];
      try discriminate; cbn;
      (eexists; split; [reflexivity|]; repeat split; reflexivity).
Qed.

Lemma Render_registers_nothing ex env fb st :
  existsb is_registration (events (example_Render ex env fb st)) = false.
Proof.
  destruct ex; cbn [example_Render].
  - unfold BasicTriangle.Render. destruct (BasicTriangle.m_Pipeline st); reflexivity.
  - unfold VertexBuffer.Render. destruct (VertexBuffer.m_Pipeline st); reflexivity.
  - change (existsb is_registration (events (DeferredShading.Render fb st)) = false).
    destruct (DeferredShading_Render_events fb st) as (tail & -> & _ & H & _).
    rewrite !existsb_app. cbn [existsb is_registration orb]. rewrite H.
    destruct (DeferredShading.targets_outdated st _), (negb _); reflexivity.
Qed.

Lemma RunMessageLoop_step {S} `{IRenderPass S} it rest fb (st : S) :
  RunMessageLoop (it :: rest) fb st
  = bind (match resized it with
          | Some _ => BackBufferResizing st
          | None => ret st
          end)
      (fun st1 =>
         bind (Animate (elapsed it) st1)
           (fun st2 =>
              bind (Render (match resized it with Some f => f | None => fb end) st2)
                (fun st3 =>
                   RunMessageLoop rest
                     (match resized it with Some f => f | None => fb end) st3))).
Proof. reflexivity. Qed.

Lemma RunMessageLoop_registers_nothing ex env its fb st :
  existsb is_registration
    (events (@RunMessageLoop _ (example_RenderPass ex env) its fb st)) = false.
Proof.
  revert fb st. induction its as [|it rest IH]; intros fb st; [reflexivity|].
  rewrite RunMessageLoop_step, !events_bind, !existsb_app, IH.
  rewrite Animate_events.
  replace (@Render _ (example_RenderPass ex env)) with (example_Render ex env)
    by (destruct ex; reflexivity).
  rewrite Render_registers_nothing.
  destruct (resized it).
  - replace (@BackBufferResizing _ (example_RenderPass ex env))
      with (example_BackBufferResizing ex) by (destruct ex; reflexivity).
    rewrite BackBufferResizing_events. reflexivity.
  - reflexivity.
Qed.

(** * Shader compilation failure *)

(** C1, as stated, fails for the deferred-shading example: with a shader
    factory that compiles nothing, its [Init] still returns [true]. *)
Lemma shader_failure_counterexample :
  ~ (forall ex env,
       shader_compilation_fails ex env ->
       fst (result (example_Init ex env (example_new ex))) = false).
Proof.
  intros H.
  specialize (H deferred_shading env_no_shaders (fun _ _ _ => eq_refl)).
  vm_compute in H. discriminate H.
Qed.

Lemma DeferredShading_Init_result env st :
  fst (result (DeferredShading.Init env st))
  = LoadTextureFromFile_ok env "media/nvidia-logo.png".
Proof.
  unfold DeferredShading.Init, SimpleScene.Init. split_oracles; reflexivity.
Qed.

Lemma Init_fails_without_shaders ex env st :
  ex <> deferred_shading -> shader_compilation_fails ex env ->
  fst (result (example_Init ex env st)) = false.
Proof.
  intros Hex H. destruct ex; [| |contradiction];
    destruct H as [H|H]; vm_compute in H |- *; rewrite H; split_ifs; reflexivity.
Qed.

Lemma main_creates_no_pipeline_when_Init_fails ex env :
  fst (result (example_Init ex env (example_new ex))) = false ->
  existsb creates_pipeline (events (example_main ex env)) = false.
Proof.
  intros H. rewrite example_main_eq.
  destruct (CreateWindowDeviceAndSwapChain_ok env); [|reflexivity].
  cbv zeta. rewrite H. cbn [events snd].
  change (snd (example_Init ex env (example_new ex)))
    with (events (example_Init ex env (example_new ex))).
  rewrite !existsb_app, Init_creates_no_pipeline. reflexivity.
Qed.

(** C1, amended.  In basic_triangle and vertex_buffer, when the shader
    factory returns a null vertex or pixel shader, [Init] returns [false]
    and [main] creates no graphics pipeline.  The deferred-shading [Init]
    holds no shader handle to test: it returns what the scene's [Init]
    returns, which is whether the texture was loaded. *)
Theorem shader_failure_aborts_Init :
  (forall ex env,
     ex <> deferred_shading ->
     shader_compilation_fails ex env ->
     (forall st, fst (result (example_Init ex env st)) = false)
     /\ existsb creates_pipeline (events (example_main ex env)) = false)
  /\ (forall env st,
        fst (result (DeferredShading.Init env st))
        = LoadTextureFromFile_ok env "media/nvidia-logo.png").
Proof.
  split.
  - intros ex env Hex H. split.
    + intros st. now apply Init_fails_without_shaders.
    + apply main_creates_no_pipeline_when_Init_fails.
      now apply Init_fails_without_shaders.
  - apply DeferredShading_Init_result.
Qed.

(** C1 at the vertex-buffer example with no shader compiling. *)
Lemma shader_failure_aborts_Init_witness :
  (forall st, fst (result (example_Init vertex_buffer env_no_shaders st)) = false)
  /\ existsb creates_pipeline (events (example_main vertex_buffer env_no_shaders)) = false.
Proof.
  apply (proj1 shader_failure_aborts_Init vertex_buffer env_no_shaders).
  - discriminate.
  - left. reflexivity.
Defined.

(** * Resizing the back buffer *)

(** C3, as stated, fails for the deferred-shading example: after one
    rendered frame, [BackBufferResizing] leaves the cached pass in place and
    the next [Render] at the same size creates no pipeline. *)
Lemma BackBufferResizing_counterexample :
  let fb := mkFramebufferInfo 1280 720 in
  let st := result (DeferredShading.Render fb
                      (snd (result (DeferredShading.Init env_all_ok DeferredShading.new)))) in
  pipeline_cached deferred_shading
    (result (example_BackBufferResizing deferred_shading st)) = true
  /\ existsb creates_pipeline
       (events (example_Render deferred_shading env_all_ok fb
                  (result (example_BackBufferResizing deferred_shading st)))) = false.
Proof. vm_compute. split; reflexivity. Qed.

Lemma Render_creates_pipeline_when_cleared ex env fb st :
  existsb creates_pipeline (events (example_Render ex env fb (clear_pipeline ex st))) = true.
Proof.
  destruct ex; cbn [example_Render clear_pipeline].
  - reflexivity.
  - reflexivity.
  - change (existsb creates_pipeline
              (events (DeferredShading.Render fb (DeferredShading.set_GBufferPass None st)))
            = true).
    destruct (DeferredShading_Render_events fb (DeferredShading.set_GBufferPass None st))
      as (tail & -> & _).
    rewrite !existsb_app. cbn [pipeline_cached DeferredShading.set_GBufferPass
                                DeferredShading.m_GBufferPass negb].
    rewrite orb_true_r. cbn [existsb creates_pipeline orb]. apply orb_true_r.
Qed.

Lemma DeferredShading_Render_rebuilds_when_outdated fb st :
  DeferredShading.targets_outdated st (width fb, height fb) = true ->
  existsb creates_pipeline (events (DeferredShading.Render fb st)) = true.
Proof.
  intros H. destruct (DeferredShading_Render_events fb st) as (tail & -> & _).
  rewrite H, !existsb_app. reflexivity.
Qed.

(** C3, amended.  In basic_triangle and vertex_buffer,
    [BackBufferResizing] sets the cached pipeline handle to null, changes
    nothing else and causes no library call, and the next [Render] creates
    the pipeline again.  In deferred_shading [BackBufferResizing] changes
    nothing at all; there [Render] itself rebuilds the render targets and
    the G-buffer pass when the target size differs from the framebuffer
    size. *)
Theorem BackBufferResizing_clears_pipeline :
  (forall ex st,
     ex <> deferred_shading ->
     example_BackBufferResizing ex st = ret (clear_pipeline ex st)
     /\ pipeline_cached ex (clear_pipeline ex st) = false
     /\ forall env fb,
          existsb creates_pipeline
            (events (example_Render ex env fb (result (example_BackBufferResizing ex st))))
          = true)
  /\ (forall st, DeferredShading.BackBufferResizing st = ret st)
  /\ (forall fb st,
        DeferredShading.targets_outdated st (width fb, height fb) = true ->
        existsb creates_pipeline (events (DeferredShading.Render fb st)) = true).
Proof.
  split; [|split].
  - intros ex st Hex.
    assert (E : example_BackBufferResizing ex st = ret (clear_pipeline ex st))
      by (destruct ex; [reflexivity | reflexivity | contradiction]).
    split; [exact E|]. split.
    + destruct ex; [reflexivity | reflexivity | contradiction].
    + intros env fb. rewrite E. apply Render_creates_pipeline_when_cleared.
  - reflexivity.
  - apply DeferredShading_Render_rebuilds_when_outdated.
Qed.

(** C3 at the initialised vertex-buffer example. *)
Lemma BackBufferResizing_clears_pipeline_witness :
  let st := snd (result (VertexBuffer.Init env_all_ok VertexBuffer.new)) in
  example_BackBufferResizing vertex_buffer st = ret (clear_pipeline vertex_buffer st)
  /\ pipeline_cached vertex_buffer (clear_pipeline vertex_buffer st) = false
  /\ forall env fb,
       existsb creates_pipeline
         (events (example_Render vertex_buffer env fb
                    (result (example_BackBufferResizing vertex_buffer st)))) = true.
Proof.
  apply (proj1 BackBufferResizing_clears_pipeline vertex_buffer). discriminate.
Defined.

(** * The exit code *)

Lemma main_exit_code ex env :
  result (example_main ex env)
  = if CreateWindowDeviceAndSwapChain_ok env then 0 else 1.
Proof.
  rewrite example_main_eq. now destruct (CreateWindowDeviceAndSwapChain_ok env).
Qed.

(** C8.  For every example, [main] exits with code 1 exactly when the
    window, device and swap chain could not be created, and with code 0 in
    every other case, also when [Init] fails. *)
Theorem exit_code_reports_device_creation :
  forall ex env,
    (result (example_main ex env) = 1 <-> CreateWindowDeviceAndSwapChain_ok env = false)
    /\ (result (example_main ex env) = 0 <-> CreateWindowDeviceAndSwapChain_ok env = true)
    /\ (CreateWindowDeviceAndSwapChain_ok env = true ->
        fst (result (example_Init ex env (example_new ex))) = false ->
        result (example_main ex env) = 0).
Proof.
  intros ex env. rewrite main_exit_code.
  destruct (CreateWindowDeviceAndSwapChain_ok env); repeat split; congruence.
Qed.

(** * Entering the render loop *)

Lemma existsb_false_not_In (p : Event -> bool) e l :
  p e = true -> existsb p l = false -> ~ In e l.
Proof.
  intros He Hl Hin.
  assert (existsb p l = true) by (apply existsb_exists; eauto).
  congruence.
Qed.

(** C9.  For every example, [main] calls [AddRenderPassToBack], and
    [RunMessageLoop] right after it, exactly when the device was created
    and [Init] returned [true].  When [Init] returns [false] neither call
    is made, the device manager is still shut down, and the exit code
    is 0. *)
Theorem render_loop_entered_iff_Init_succeeds :
  forall ex env,
    let evs := events (example_main ex env) in
    let started :=
      CreateWindowDeviceAndSwapChain_ok env
      && fst (result (example_Init ex env (example_new ex))) in
    (In EvAddRenderPassToBack evs <-> started = true)
    /\ (In EvRunMessageLoop evs <-> started = true)
    /\ (started = true ->
        exists pre post,
          evs = pre ++ EvAddRenderPassToBack :: EvRunMessageLoop :: post
          /\ existsb is_registration pre = false
          /\ existsb is_registration post = false)
    /\ (CreateWindowDeviceAndSwapChain_ok env = true ->
        fst (result (example_Init ex env (example_new ex))) = false ->
        existsb is_registration evs = false
        /\ In EvShutdown evs
        /\ result (example_main ex env) = 0).
Proof.
  intros ex env evs started.
  assert (Hshape :
            (started = true /\
             exists pre post,
               evs = pre ++ EvAddRenderPassToBack :: EvRunMessageLoop :: post
               /\ existsb is_registration pre = false
               /\ existsb is_registration post = false)
            \/ (started = false /\ existsb is_registration evs = false
                /\ (CreateWindowDeviceAndSwapChain_ok env = true -> In EvShutdown evs))).
  { subst evs started. rewrite example_main_eq.
    destruct (CreateWindowDeviceAndSwapChain_ok env); cbn [andb];
      [|right; split; [reflexivity | split; [reflexivity | discriminate]]].
    cbv zeta.
    pose proof (Init_registers_nothing ex env (example_new ex)) as HI.
    pose proof (fun st => RunMessageLoop_registers_nothing ex env (iterations env)
                            (initial_framebuffer env) st) as HL.
    destruct (example_Init ex env (example_new ex)) as [[b st] ev0].
    specialize (HL st). unfold result, events in *. cbn [fst snd] in *.
    destruct (@RunMessageLoop _ (example_RenderPass ex env) (iterations env)
                (initial_framebuffer env) st) as [st' evl].
    cbn [snd] in *. destruct b.
    - left. split; [reflexivity|].
      exists ([EvGetGraphicsAPIFromCommandLine; EvDeviceManagerCreate;
               EvCreateWindowDeviceAndSwapChain (example_title ex) true] ++ ev0),
             (evl ++ [EvRemoveRenderPass; EvShutdown; EvDeleteDeviceManager]).
      split; [|split].
      + cbn [app]. rewrite <- !app_assoc. reflexivity.
      + rewrite existsb_app, HI. reflexivity.
      + rewrite existsb_app, HL. reflexivity.
    - right. split; [reflexivity|]. split.
      + rewrite !existsb_app, HI. reflexivity.
      + intros _. rewrite !in_app_iff. right. right. right. left. reflexivity. }
  destruct Hshape as [(Hs & pre & post & E & Hpre & Hpost) | (Hs & Hno & Hsd)].
  - rewrite Hs. repeat split; try reflexivity.
    + rewrite E, in_app_iff. right. left. reflexivity.
    + rewrite E, in_app_iff. right. right. left. reflexivity.
    + exists pre, post. auto.
    + subst started.
      destruct (CreateWindowDeviceAndSwapChain_ok env); [|discriminate].
      cbn [andb] in Hs. congruence.
    + subst started.
      destruct (CreateWindowDeviceAndSwapChain_ok env); [|discriminate].
      cbn [andb] in Hs. congruence.
    + subst started.
      destruct (CreateWindowDeviceAndSwapChain_ok env); [|discriminate].
      cbn [andb] in Hs. congruence.
  - rewrite Hs. split; [|split; [|split]].
    + split; [|discriminate]. intros Hin. exfalso.
      exact (existsb_false_not_In is_registration EvAddRenderPassToBack evs
               eq_refl Hno Hin).
    + split; [|discriminate]. intros Hin. exfalso.
      exact (existsb_false_not_In is_registration EvRunMessageLoop evs
               eq_refl Hno Hin).
    + discriminate.
    + intros Hok HI. split; [exact Hno|]. split; [auto|].
      rewrite main_exit_code, Hok. reflexivity.
Qed.

(** * Texture loading failure *)

(** C7.  In vertex_buffer, once both shaders compiled, and in
    deferred_shading, when the texture file cannot be loaded [Init] asks
    for it, gets a null handle, logs the error "Couldn't load the texture"
    and returns [false]; it asks once only.  basic_triangle loads no
    texture.  And in every example, whenever the trace of [Init] holds a
    texture load that returned a null handle, [Init] returned [false], an
    error was logged, and the texture was asked for exactly once. *)
Theorem texture_failure_aborts_Init :
  forall ex env st,
    (ex <> basic_triangle ->
     shaders_ok ex env = true ->
     LoadTextureFromFile_ok env "media/nvidia-logo.png" = false ->
     In (EvLoadTextureFromFile "media/nvidia-logo.png" None)
        (events (example_Init ex env st))
     /\ In (EvLog Severity.Error "Couldn't load the texture")
           (events (example_Init ex env st))
     /\ fst (result (example_Init ex env st)) = false
     /\ count is_texture_load (events (example_Init ex env st)) = 1%nat)
    /\ (existsb is_texture_load_failure (events (example_Init ex env st)) = true ->
        fst (result (example_Init ex env st)) = false
        /\ existsb is_error_log (events (example_Init ex env st)) = true
        /\ count is_texture_load (events (example_Init ex env st)) = 1%nat)
    /\ (ex = basic_triangle ->
        count is_texture_load (events (example_Init ex env st)) = 0%nat).
Proof.
  intros ex env st. split; [|split].
  - intros Hex Hs Ht. destruct ex; [contradiction | |].
    + cbn [shaders_ok] in Hs. apply andb_true_iff in Hs as [Hvs Hps].
      cbn [example_Init]. unfold VertexBuffer.Init, CreateShader, LoadTextureFromFile, count.
      rewrite Hvs, Hps, Ht. run_cmd.
      split; [in_list|]. split; [in_list|]. split; reflexivity.
    + cbn [example_Init].
      unfold DeferredShading.Init, SimpleScene.Init, LoadTextureFromFile, count.
      rewrite Ht. run_cmd.
      split; [in_list|]. split; [in_list|]. split; reflexivity.
  - destruct ex.
    + vm_compute. split_ifs; intros H; discriminate H.
    + vm_compute. split_ifs; intros H; try discriminate H; repeat split; reflexivity.
    + cbn [example_Init]. unfold DeferredShading.Init, SimpleScene.Init, count.
      split_oracles; intros H; try discriminate H; repeat split; reflexivity.
  - intros ->. vm_compute. split_ifs; reflexivity.
Qed.

(** C7 at the vertex-buffer and deferred-shading examples with the texture
    file missing and the shaders in place. *)
Lemma texture_failure_aborts_Init_witness :
  (In (EvLoadTextureFromFile "media/nvidia-logo.png" None)
      (events (example_Init vertex_buffer env_no_texture VertexBuffer.new))
   /\ In (EvLog Severity.Error "Couldn't load the texture")
         (events (example_Init vertex_buffer env_no_texture VertexBuffer.new))
   /\ fst (result (example_Init vertex_buffer env_no_texture VertexBuffer.new)) = false
   /\ count is_texture_load
        (events (example_Init vertex_buffer env_no_texture VertexBuffer.new)) = 1%nat)
  /\ (In (EvLoadTextureFromFile "media/nvidia-logo.png" None)
         (events (example_Init deferred_shading env_no_texture DeferredShading.new))
      /\ In (EvLog Severity.Error "Couldn't load the texture")
            (events (example_Init deferred_shading env_no_texture DeferredShading.new))
      /\ fst (result (example_Init deferred_shading env_no_texture DeferredShading.new))
         = false
      /\ count is_texture_load
           (events (example_Init deferred_shading env_no_texture DeferredShading.new))
         = 1%nat).
Proof.
  split.
  - apply (proj1 (texture_failure_aborts_Init vertex_buffer env_no_texture
                    VertexBuffer.new)); [discriminate | reflexivity | reflexivity].
  - apply (proj1 (texture_failure_aborts_Init deferred_shading env_no_texture
                    DeferredShading.new)); [discriminate | reflexivity | reflexivity].
Defined.

(** [Init] asks for the texture at most once, whatever happens. *)
Lemma Init_loads_texture_at_most_once ex env st :
  (count is_texture_load (events (example_Init ex env st)) <= 1)%nat.
Proof.
  destruct ex.
  - vm_compute. split_ifs; repeat constructor.
  - vm_compute. split_ifs; repeat constructor.
  - cbn [example_Init]. unfold DeferredShading.Init, SimpleScene.Init, count.
    split_oracles; repeat constructor.
Qed.

(** * Render targets of the deferred-shading example *)

Lemma targets_outdated_spec st size :
  DeferredShading.targets_outdated st size = true <->
  (DeferredShading.m_RenderTargets st = None
   \/ exists rt, DeferredShading.m_RenderTargets st = Some rt
                 /\ RenderTargets.GetSize rt <> size).
Proof.
  unfold DeferredShading.targets_outdated.
  destruct (DeferredShading.m_RenderTargets st) as [rt|]; [|intuition].
  destruct (RenderTargets.GetSize rt) as [w h] eqn:Eg.
  destruct size as [w' h']. cbn [fst snd].
  split.
  - intros H. right. exists rt. split; [reflexivity|]. intros E.
    rewrite Eg in E. inversion E; subst.
    rewrite !Z.eqb_refl in H. discriminate H.
  - intros [H | (rt' & E & Hne)]; [discriminate H|].
    inversion E; subst rt'. rewrite Eg in Hne.
    destruct (Z.eqb_spec w w'), (Z.eqb_spec h h'); try reflexivity.
    subst. now contradiction Hne.
Qed.

Lemma targets_outdated_false st size :
  DeferredShading.targets_outdated st size = false ->
  exists rt, DeferredShading.m_RenderTargets st = Some rt
             /\ RenderTargets.GetSize rt = size.
Proof.
  unfold DeferredShading.targets_outdated.
  destruct (DeferredShading.m_RenderTargets st) as [rt|]; [|discriminate].
  destruct (RenderTargets.GetSize rt) as [w h] eqn:Eg.
  destruct size as [w' h']. cbn [fst snd].
  intros H. exists rt. split; [reflexivity|]. rewrite Eg.
  destruct (Z.eqb_spec w w'), (Z.eqb_spec h h'); try discriminate H. now subst.
Qed.

Lemma DeferredShading_Render_targets fb st :
  DeferredShading.m_RenderTargets (result (DeferredShading.Render fb st))
  = if DeferredShading.targets_outdated st (width fb, height fb)
    then Some (RenderTargets.mk (width fb, height fb)
                 (Some (TextureCreated
                          (mkTextureDesc (width fb) (height fb) 1 Format.RGBA16_FLOAT
                             "ShadedColor" true ResourceStates.UnorderedAccess true))))
    else DeferredShading.m_RenderTargets st.
Proof.
  unfold DeferredShading.Render. cbv zeta.
  destruct (DeferredShading.targets_outdated st (width fb, height fb)) eqn:E.
  - reflexivity.
  - unfold DeferredShading.targets_outdated in E.
    destruct st as [sf tc cp bc [rt|] [[]|] lp v sc cl rot]; try discriminate; reflexivity.
Qed.

Lemma count_none p l : existsb p l = false -> count p l = 0%nat.
Proof.
  unfold count. induction l as [|e tl IH]; [reflexivity|].
  cbn [existsb filter]. intros H. apply orb_false_iff in H as [He Htl].
  rewrite He. auto.
Qed.

Lemma Render_allocation_count fb st :
  count is_render_target_allocation (events (DeferredShading.Render fb st))
  = (if DeferredShading.targets_outdated st (width fb, height fb) then 1 else 0)%nat.
Proof.
  destruct (DeferredShading_Render_events fb st) as (tail & -> & _ & _ & Htail).
  rewrite !count_app.
  assert (Hc : count is_render_target_allocation (EvOpen :: EvRenderTargetsClear :: tail)
               = 0%nat) by (apply count_none; exact Htail).
  rewrite Hc.
  destruct (DeferredShading.targets_outdated st _), (negb _); reflexivity.
Qed.

Lemma Render_targets_sized fb st :
  exists rt,
    DeferredShading.m_RenderTargets (result (DeferredShading.Render fb st)) = Some rt
    /\ RenderTargets.GetSize rt = (width fb, height fb).
Proof.
  rewrite DeferredShading_Render_targets.
  destruct (DeferredShading.targets_outdated st (width fb, height fb)) eqn:E.
  - eexists. split; reflexivity.
  - now apply targets_outdated_false.
Qed.

Lemma Render_targets_up_to_date fb st :
  DeferredShading.targets_outdated (result (DeferredShading.Render fb st))
    (width fb, height fb) = false.
Proof.
  destruct (Render_targets_sized fb st) as (rt & E1 & E2).
  unfold DeferredShading.targets_outdated. rewrite E1, E2. cbn [fst snd].
  now rewrite !Z.eqb_refl.
Qed.

(** C5.  [DeferredShading.Render] allocates render targets exactly when
    there are none yet or their size differs from the framebuffer's, and
    then exactly once, with the framebuffer's width and height; otherwise it
    keeps the targets it has.  After any [Render] the targets have the
    framebuffer's size, so a further [Render] at that size allocates
    nothing. *)
Theorem render_targets_follow_framebuffer_size :
  forall fb st,
    let size := (width fb, height fb) in
    let r := DeferredShading.Render fb st in
    (DeferredShading.targets_outdated st size = true <->
     (DeferredShading.m_RenderTargets st = None
      \/ exists rt, DeferredShading.m_RenderTargets st = Some rt
                    /\ RenderTargets.GetSize rt <> size))
    /\ count is_render_target_allocation (events r)
       = (if DeferredShading.targets_outdated st size then 1 else 0)%nat
    /\ (DeferredShading.targets_outdated st size = true ->
        In (EvGBufferRenderTargetsInit size 1 false false) (events r)
        /\ exists desc,
             In (EvCreateTexture desc) (events r)
             /\ tex_width desc = width fb /\ tex_height desc = height fb
             /\ DeferredShading.m_RenderTargets (result r)
                = Some (RenderTargets.mk size (Some (TextureCreated desc))))
    /\ (DeferredShading.targets_outdated st size = false ->
        DeferredShading.m_RenderTargets (result r) = DeferredShading.m_RenderTargets st)
    /\ (exists rt, DeferredShading.m_RenderTargets (result r) = Some rt
                   /\ RenderTargets.GetSize rt = size)
    /\ DeferredShading.targets_outdated (result r) size = false
    /\ count is_render_target_allocation (events (DeferredShading.Render fb (result r)))
       = 0%nat.
Proof.
  intros fb st size r.
  pose proof (DeferredShading_Render_targets fb st) as HT.
  destruct (DeferredShading_Render_events fb st) as (tail & HE & _).
  fold size in HT, HE. fold r in HT, HE.
  split; [apply targets_outdated_spec|].
  split; [apply Render_allocation_count|].
  split; [|split; [|split; [|split]]].
  - intros E. rewrite HE, HT, E. split.
    + cbn. auto.
    + eexists. split; [cbn; auto 6|]. repeat split; reflexivity.
  - intros E. rewrite HT, E. reflexivity.
  - apply Render_targets_sized.
  - apply Render_targets_up_to_date.
  - rewrite Render_allocation_count.
    subst r size. now rewrite Render_targets_up_to_date.
Qed.

(** One resize, one reallocation: with targets of another size, the frame
    after [BackBufferResizing] allocates once, and the frame after that
    not at all. *)
Lemma resize_reallocates_once fb st rt :
  DeferredShading.m_RenderTargets st = Some rt ->
  RenderTargets.GetSize rt <> (width fb, height fb) ->
  let st1 := result (bind (DeferredShading.BackBufferResizing st)
                          (DeferredShading.Render fb)) in
  count is_render_target_allocation
    (events (bind (DeferredShading.BackBufferResizing st) (DeferredShading.Render fb)))
  = 1%nat
  /\ count is_render_target_allocation (events (DeferredShading.Render fb st1)) = 0%nat.
Proof.
  intros Hrt Hsize st1. subst st1.
  rewrite result_bind, events_bind.
  cbn [DeferredShading.BackBufferResizing ret result events fst snd app].
  change (snd (DeferredShading.Render fb st)) with (events (DeferredShading.Render fb st)).
  change (fst (DeferredShading.Render fb st)) with (result (DeferredShading.Render fb st)).
  rewrite !Render_allocation_count, Render_targets_up_to_date.
  rewrite (proj2 (targets_outdated_spec st (width fb, height fb)))
    by (right; exists rt; auto).
  split; reflexivity.
Qed.

(** * The scene graph *)

Lemma Init_graph_events meshInfo :
  events (SimpleScene.Init_graph meshInfo)
  = [ EvSetRootNode 0; EvSetLeaf 0 0; EvSetNodeName 0 "CubeNode";
      EvAttachLeafNode 0 1; EvSetDirection 1; EvSetLeafName 1 "Sun";
      EvSceneGraphRefresh 0; EvPrintSceneGraph ].
Proof. reflexivity. Qed.

Lemma Init_graph_result meshInfo :
  result (SimpleScene.Init_graph meshInfo)
  = (0%nat, mkSceneGraph (Some 0%nat),
     mkSceneStore
       [ mkSceneGraphNode "CubeNode" (Some 0%nat) [1%nat] None;
         mkSceneGraphNode "" (Some 1%nat) [] (Some 0%nat) ]
       [ (EmptyString, MeshInstance (Some meshInfo));
         ("Sun"%string,
          DirectionalLight (Some (double_0_1, - (1), double_0_2)%Q)
                           (F32.mk 8891924 (-24)) F32.one) ]).
Proof. reflexivity. Qed.

Lemma SimpleScene_Init_success env st :
  fst (result (SimpleScene.Init env st)) = true ->
  exists pre meshInfo,
    events (SimpleScene.Init env st) = pre ++ events (SimpleScene.Init_graph meshInfo)
    /\ existsb is_scene_mutation pre = false
    /\ SimpleScene.m_SceneGraph (snd (result (SimpleScene.Init env st)))
       = Some (snd (fst (result (SimpleScene.Init_graph meshInfo))))
    /\ SimpleScene.store (snd (result (SimpleScene.Init env st)))
       = snd (result (SimpleScene.Init_graph meshInfo))
    /\ SimpleScene.m_MeshInstance (snd (result (SimpleScene.Init env st)))
       = Some (fst (fst (result (SimpleScene.Init_graph meshInfo)))).
Proof.
  unfold SimpleScene.Init.
  destruct (SimpleScene.Init_buffers env) as [b evb] eqn:Eb.
  assert (Hb : existsb is_scene_mutation evb = false).
  { change evb with (snd (b, evb)). rewrite <- Eb. reflexivity. }
  cbn [bind]. unfold LoadTextureFromFile.
  destruct (LoadTextureFromFile_ok env "media/nvidia-logo.png");
    cbn [bind emit ret texture result events fst snd app
         SimpleScene.CreateMaterialConstantBuffer]; [|discriminate].
  intros _.
  match goal with
  | |- context [SimpleScene.Init_graph ?m] =>
      eexists (evb ++ [_; _; _; _; _; _]), m;
      destruct (SimpleScene.Init_graph m) as [[[i g] s] evg]
  end.
  cbn [bind emit ret result events fst snd app
       SimpleScene.m_SceneGraph SimpleScene.store SimpleScene.m_MeshInstance].
  split; [|split; [|split; [|split]]].
  - rewrite <- app_assoc, ?app_nil_r. cbn [app]. reflexivity.
  - rewrite existsb_app, Hb. reflexivity.
  - reflexivity.
  - reflexivity.
  - reflexivity.
Qed.

(** C6.  After a successful [SimpleScene.Init] the scene graph has one
    root, one mesh-instance leaf and one light leaf (two nodes, two leaves),
    and [Refresh] is called after every call that changes the graph and
    before [Init] returns. *)
Theorem scene_graph_after_Init :
  forall env st,
    fst (result (SimpleScene.Init env st)) = true ->
    let st' := snd (result (SimpleScene.Init env st)) in
    exists g,
      SimpleScene.m_SceneGraph st' = Some g
      /\ rootNode g <> None
      /\ List.length (graph_roots (SimpleScene.store st') g) = 1%nat
      /\ List.length (graph_nodes (SimpleScene.store st') g) = 2%nat
      /\ List.length (filter is_MeshInstance (graph_leaves (SimpleScene.store st') g)) = 1%nat
      /\ List.length (filter is_Light (graph_leaves (SimpleScene.store st') g)) = 1%nat
      /\ List.length (graph_leaves (SimpleScene.store st') g) = 2%nat
      /\ exists pre post,
           events (SimpleScene.Init env st) = pre ++ EvSceneGraphRefresh 0 :: post
           /\ count is_scene_mutation pre = 6%nat
           /\ existsb is_scene_mutation post = false.
Proof.
  intros env st H st'. subst st'.
  destruct (SimpleScene_Init_success env st H) as (pre & mi & HE & Hpre & Hg & Hs & _).
  rewrite Hg, Hs, HE, Init_graph_result, Init_graph_events. cbn [fst snd].
  eexists. split; [reflexivity|].
  split; [discriminate|].
  do 5 (split; [reflexivity|]).
  exists (pre ++ [ EvSetRootNode 0; EvSetLeaf 0 0; EvSetNodeName 0 "CubeNode";
                   EvAttachLeafNode 0 1; EvSetDirection 1; EvSetLeafName 1 "Sun" ]),
         [EvPrintSceneGraph].
  split; [|split].
  - rewrite <- app_assoc. reflexivity.
  - rewrite count_app.
    assert (Hc : count is_scene_mutation pre = 0%nat).
    { unfold count. clear -Hpre. induction pre as [|e tl IH]; [reflexivity|].
      cbn [existsb] in Hpre. apply orb_false_iff in Hpre as [He Htl].
      cbn [filter]. rewrite He. auto. }
    rewrite Hc. reflexivity.
  - reflexivity.
Qed.

(** C6 when everything succeeds. *)
Lemma scene_graph_after_Init_witness :
  let st' := snd (result (SimpleScene.Init env_all_ok SimpleScene.new)) in
  exists g,
    SimpleScene.m_SceneGraph st' = Some g
    /\ rootNode g <> None
    /\ List.length (graph_roots (SimpleScene.store st') g) = 1%nat
    /\ List.length (graph_nodes (SimpleScene.store st') g) = 2%nat
    /\ List.length (filter is_MeshInstance (graph_leaves (SimpleScene.store st') g)) = 1%nat
    /\ List.length (filter is_Light (graph_leaves (SimpleScene.store st') g)) = 1%nat
    /\ List.length (graph_leaves (SimpleScene.store st') g) = 2%nat
    /\ exists pre post,
         events (SimpleScene.Init env_all_ok SimpleScene.new)
         = pre ++ EvSceneGraphRefresh 0 :: post
         /\ count is_scene_mutation pre = 6%nat
         /\ existsb is_scene_mutation post = false.
Proof.
  apply (scene_graph_after_Init env_all_ok SimpleScene.new). vm_compute. reflexivity.
Defined.

(** * The vertex buffer layout *)

Lemma Init_buffers_of_Init env st :
  SimpleScene.m_Buffers (snd (result (SimpleScene.Init env st)))
  = Some (result (SimpleScene.Init_buffers env))
  /\ exists post,
       events (SimpleScene.Init env st) = events (SimpleScene.Init_buffers env) ++ post.
Proof.
  unfold SimpleScene.Init.
  destruct (SimpleScene.Init_buffers env) as [b evb].
  cbn [bind result events fst snd]. unfold LoadTextureFromFile.
  destruct (LoadTextureFromFile_ok env "media/nvidia-logo.png");
    cbn [bind emit ret texture result events fst snd app
         SimpleScene.CreateMaterialConstantBuffer];
    try match goal with
        | |- context [SimpleScene.Init_graph ?m] =>
            destruct (SimpleScene.Init_graph m) as [[[i g] s] evg]
        end;
    cbn [bind emit ret result events fst snd app SimpleScene.m_Buffers];
    (split; [reflexivity | eexists; reflexivity]).
Qed.

Lemma u64_small x : 0 <= x < 2 ^ 64 -> u64 x = x.
Proof. intros H. unfold u64. now apply Z.mod_small. Qed.

Lemma Init_buffers_layout env :
  cube_in_memory (cube env) ->
  let c := cube env in
  let b := result (SimpleScene.Init_buffers env) in
  let total := sizeof_g_Positions c + sizeof_g_TexCoords c
               + sizeof_g_Normals c + sizeof_g_Tangents c in
  getVertexBufferRange b VertexAttribute.Position
  = mkBufferRange 0 (sizeof_g_Positions c)
  /\ getVertexBufferRange b VertexAttribute.TexCoord1
     = mkBufferRange (sizeof_g_Positions c) (sizeof_g_TexCoords c)
  /\ getVertexBufferRange b VertexAttribute.Normal
     = mkBufferRange (sizeof_g_Positions c + sizeof_g_TexCoords c) (sizeof_g_Normals c)
  /\ getVertexBufferRange b VertexAttribute.Tangent
     = mkBufferRange (sizeof_g_Positions c + sizeof_g_TexCoords c + sizeof_g_Normals c)
                     (sizeof_g_Tangents c)
  /\ vertexBuffer b
     = Some (mkBufferDesc total "VertexBuffer" true false false
                          ResourceStates.CopyDest false)
  /\ In (EvCreateBuffer (mkBufferDesc total "VertexBuffer" true false false
                                      ResourceStates.CopyDest false))
        (events (SimpleScene.Init_buffers env)).
Proof.
  intros (Hp & Ht & Hn & Hg & Hsum) c b total. subst b total c.
  unfold SimpleScene.Init_buffers.
  cbn [bind emit ret result events fst snd app SimpleScene.CreateGeometryBuffer
       new_BufferGroup indexBuffer vertexBuffer instanceBuffer vertexBufferRanges
       getVertexBufferRange setVertexBufferRange VertexAttribute.eqb negb].
  rewrite Z.add_0_l.
  rewrite (u64_small (sizeof_g_Positions (cube env))) by lia.
  rewrite (u64_small (sizeof_g_Positions (cube env) + sizeof_g_TexCoords (cube env)))
    by lia.
  rewrite (u64_small (sizeof_g_Positions (cube env) + sizeof_g_TexCoords (cube env)
                      + sizeof_g_Normals (cube env))) by lia.
  rewrite (u64_small (sizeof_g_Positions (cube env) + sizeof_g_TexCoords (cube env)
                      + sizeof_g_Normals (cube env) + sizeof_g_Tangents (cube env)))
    by lia.
  repeat split; try reflexivity.
  cbn [In]. auto 10.
Qed.

(** C4.  [SimpleScene.Init] lays the Position, TexCoord1, Normal and
    Tangent ranges out one after the other from offset 0; no byte belongs to
    two of them, together they are exactly the bytes of the vertex buffer,
    and that buffer is created with the sum of the four sizes as its byte
    size. *)
Theorem vertex_attribute_ranges_are_packed :
  forall env st,
    cube_in_memory (cube env) ->
    let c := cube env in
    let total := sizeof_g_Positions c + sizeof_g_TexCoords c
                 + sizeof_g_Normals c + sizeof_g_Tangents c in
    exists b desc,
      SimpleScene.m_Buffers (snd (result (SimpleScene.Init env st))) = Some b
      /\ getVertexBufferRange b VertexAttribute.Position
         = mkBufferRange 0 (sizeof_g_Positions c)
      /\ getVertexBufferRange b VertexAttribute.TexCoord1
         = mkBufferRange (sizeof_g_Positions c) (sizeof_g_TexCoords c)
      /\ getVertexBufferRange b VertexAttribute.Normal
         = mkBufferRange (sizeof_g_Positions c + sizeof_g_TexCoords c) (sizeof_g_Normals c)
      /\ getVertexBufferRange b VertexAttribute.Tangent
         = mkBufferRange (sizeof_g_Positions c + sizeof_g_TexCoords c + sizeof_g_Normals c)
                         (sizeof_g_Tangents c)
      /\ (forall a1 a2 byte,
            In a1 [VertexAttribute.Position; VertexAttribute.TexCoord1;
                   VertexAttribute.Normal; VertexAttribute.Tangent] ->
            In a2 [VertexAttribute.Position; VertexAttribute.TexCoord1;
                   VertexAttribute.Normal; VertexAttribute.Tangent] ->
            in_range (getVertexBufferRange b a1) byte ->
            in_range (getVertexBufferRange b a2) byte ->
            a1 = a2)
      /\ (forall byte,
            0 <= byte < total <->
            exists a,
              In a [VertexAttribute.Position; VertexAttribute.TexCoord1;
                    VertexAttribute.Normal; VertexAttribute.Tangent]
              /\ in_range (getVertexBufferRange b a) byte)
      /\ vertexBuffer b = Some desc
      /\ byteSize desc = total
      /\ In (EvCreateBuffer desc) (events (SimpleScene.Init env st)).
Proof.
  intros env st Hmem c total.
  destruct (Init_buffers_of_Init env st) as (Hb & post & Hev).
  destruct (Init_buffers_layout env Hmem) as (R1 & R2 & R3 & R4 & Hvb & Hin).
  destruct Hmem as (Hp & Ht & Hn & Hg & Hsum). subst total c.
  eexists _, _. split; [exact Hb|].
  do 4 (split; [assumption|]).
  split; [|split; [|split; [exact Hvb | split; [reflexivity|]]]].
  - intros a1 a2 byte H1 H2. cbn [In] in H1, H2.
    destruct H1 as [<- | [<- | [<- | [<- | []]]]];
      destruct H2 as [<- | [<- | [<- | [<- | []]]]];
      rewrite ?R1, ?R2, ?R3, ?R4; unfold in_range; cbn [byteOffset rangeByteSize];
      intros I1 I2; try reflexivity; exfalso; lia.
  - intros byte. split.
    + intros Hbyte.
      destruct (Z_lt_ge_dec byte (sizeof_g_Positions (cube env))) as [L1|G1];
        [exists VertexAttribute.Position; rewrite R1; cbn; unfold in_range; cbn; split;
         [auto | lia] |].
      destruct (Z_lt_ge_dec byte (sizeof_g_Positions (cube env)
                                  + sizeof_g_TexCoords (cube env))) as [L2|G2];
        [exists VertexAttribute.TexCoord1; rewrite R2; cbn; unfold in_range; cbn; split;
         [auto | lia] |].
      destruct (Z_lt_ge_dec byte (sizeof_g_Positions (cube env)
                                  + sizeof_g_TexCoords (cube env)
                                  + sizeof_g_Normals (cube env))) as [L3|G3];
        [exists VertexAttribute.Normal; rewrite R3; cbn; unfold in_range; cbn; split;
         [auto | lia] |].
      exists VertexAttribute.Tangent. rewrite R4. cbn. unfold in_range. cbn.
      split; [auto | lia].
    + intros (a & Ha & Hr). cbn [In] in Ha.
      destruct Ha as [<- | [<- | [<- | [<- | []]]]];
        rewrite ?R1, ?R2, ?R3, ?R4 in Hr; unfold in_range in Hr;
        cbn [byteOffset rangeByteSize] in Hr; lia.
  - rewrite Hev. apply in_or_app. left. exact Hin.
Qed.

(** C4 at the sample cube: ranges of 288, 192, 96 and 96 bytes in a buffer
    of 672. *)
Lemma vertex_attribute_ranges_are_packed_witness :
  exists b desc,
    SimpleScene.m_Buffers (snd (result (SimpleScene.Init env_all_ok SimpleScene.new)))
    = Some b
    /\ getVertexBufferRange b VertexAttribute.Position = mkBufferRange 0 288
    /\ getVertexBufferRange b VertexAttribute.TexCoord1 = mkBufferRange 288 192
    /\ getVertexBufferRange b VertexAttribute.Normal = mkBufferRange 480 96
    /\ getVertexBufferRange b VertexAttribute.Tangent = mkBufferRange 576 96
    /\ vertexBuffer b = Some desc
    /\ byteSize desc = 672.
Proof.
  destruct (vertex_attribute_ranges_are_packed env_all_ok SimpleScene.new)
    as (b & desc & H0 & H1 & H2 & H3 & H4 & _ & _ & H5 & H6 & _).
  - unfold cube_in_memory. cbn. lia.
  - exists b, desc. repeat split; assumption.
Defined.

(** * The constant buffer and its slices *)

Lemma view_range_eq i :
  0 <= i < VertexBuffer.c_NumViews ->
  VertexBuffer.view_range i = mkBufferRange (256 * i) 256.
Proof.
  intros Hi. unfold VertexBuffer.c_NumViews in Hi.
  assert (C : i = 0 \/ i = 1 \/ i = 2 \/ i = 3) by lia.
  destruct C as [-> | [-> | [-> | ->]]]; reflexivity.
Qed.

Lemma Init_binding_sets env st :
  List.length (VertexBuffer.m_BindingSets st) = Z.to_nat VertexBuffer.c_NumViews ->
  fst (result (VertexBuffer.Init env st)) = true ->
  let st' := snd (result (VertexBuffer.Init env st)) in
  exists cb,
    VertexBuffer.m_ConstantBuffer st' = Some cb
    /\ byteSize cb = 1024
    /\ In (EvCreateBuffer cb) (events (VertexBuffer.Init env st))
    /\ VertexBuffer.m_BindingSets st'
       = map (fun i => Some (VertexBuffer.bindingSetDesc st' i)) VertexBuffer.view_indices.
Proof.
  destruct st as [vs ps cb0 vb ib tex il bl sets pl cl rot].
  cbn [VertexBuffer.m_BindingSets]. intros Hlen.
  destruct sets as [|s0 [|s1 [|s2 [|s3 [|s4 sets]]]]]; try discriminate Hlen.
  clear Hlen. vm_compute. split_ifs; intros H; try discriminate H.
  eexists. split; [reflexivity|]. split; [reflexivity|]. split; [|reflexivity].
  auto 10.
Qed.

(** C10.  A constant-buffer entry is 256 bytes, the required alignment;
    a successful [VertexBuffer.Init] creates the constant buffer with
    4 * 256 = 1024 bytes and binds, in binding set [i], the range
    [256 i, 256 (i + 1)); the four ranges are pairwise disjoint and cover
    the buffer. *)
Theorem constant_buffer_slices :
  VertexBuffer.sizeof_ConstantBufferEntry = 256
  /\ VertexBuffer.sizeof_ConstantBufferEntry
     = VertexBuffer.c_ConstantBufferOffsetSizeAlignment
  /\ VertexBuffer.static_assert_ConstantBufferEntry = true
  /\ (forall env st,
        List.length (VertexBuffer.m_BindingSets st) = Z.to_nat VertexBuffer.c_NumViews ->
        fst (result (VertexBuffer.Init env st)) = true ->
        let st' := snd (result (VertexBuffer.Init env st)) in
        exists cb,
          VertexBuffer.m_ConstantBuffer st' = Some cb
          /\ byteSize cb = VertexBuffer.c_NumViews * VertexBuffer.sizeof_ConstantBufferEntry
          /\ byteSize cb = 1024
          /\ In (EvCreateBuffer cb) (events (VertexBuffer.Init env st))
          /\ VertexBuffer.m_BindingSets st'
             = map (fun i => Some [ ConstantBuffer 0 (Some cb) (VertexBuffer.view_range i);
                                    Texture_SRV 0 (VertexBuffer.m_Texture st');
                                    Sampler 0 "m_AnisotropicWrapSampler" ])
                   [0; 1; 2; 3])
  /\ (forall i, 0 <= i < VertexBuffer.c_NumViews ->
        VertexBuffer.view_range i = mkBufferRange (256 * i) 256)
  /\ (forall i j b,
        0 <= i < VertexBuffer.c_NumViews -> 0 <= j < VertexBuffer.c_NumViews ->
        in_range (VertexBuffer.view_range i) b ->
        in_range (VertexBuffer.view_range j) b -> i = j)
  /\ (forall b,
        0 <= b < 1024 <->
        exists i, 0 <= i < VertexBuffer.c_NumViews
                  /\ in_range (VertexBuffer.view_range i) b).
Proof.
  split; [reflexivity|]. split; [reflexivity|]. split; [reflexivity|].
  split; [|split; [exact view_range_eq | split]].
  - intros env st Hlen H st'. subst st'.
    destruct (Init_binding_sets env st Hlen H) as (cb & E1 & E2 & E3 & E4).
    exists cb. split; [exact E1|]. split; [rewrite E2; reflexivity|].
    split; [exact E2|]. split; [exact E3|].
    rewrite E4. unfold VertexBuffer.bindingSetDesc. rewrite E1. reflexivity.
  - intros i j b Hi Hj. rewrite !view_range_eq by assumption.
    unfold in_range, VertexBuffer.c_NumViews in *. cbn [byteOffset rangeByteSize]. lia.
  - intros b. split.
    + intros Hb. exists (b / 256).
      assert (0 <= b / 256 < 4).
      { split; [apply Z.div_pos; lia | apply Z.div_lt_upper_bound; lia]. }
      split; [exact H|]. rewrite view_range_eq by exact H.
      unfold in_range. cbn [byteOffset rangeByteSize].
      pose proof (Z.div_mod b 256 ltac:(lia)). pose proof (Z.mod_pos_bound b 256). lia.
    + intros (i & Hi & Hr). rewrite view_range_eq in Hr by assumption.
      unfold in_range, VertexBuffer.c_NumViews in *. cbn [byteOffset rangeByteSize] in Hr.
      lia.
Qed.

(** C10 when everything succeeds. *)
Lemma constant_buffer_slices_witness :
  let st' := snd (result (VertexBuffer.Init env_all_ok VertexBuffer.new)) in
  exists cb,
    VertexBuffer.m_ConstantBuffer st' = Some cb
    /\ byteSize cb = VertexBuffer.c_NumViews * VertexBuffer.sizeof_ConstantBufferEntry
    /\ byteSize cb = 1024
    /\ In (EvCreateBuffer cb) (events (VertexBuffer.Init env_all_ok VertexBuffer.new))
    /\ VertexBuffer.m_BindingSets st'
       = map (fun i => Some [ ConstantBuffer 0 (Some cb) (VertexBuffer.view_range i);
                              Texture_SRV 0 (VertexBuffer.m_Texture st');
                              Sampler 0 "m_AnisotropicWrapSampler" ])
             [0; 1; 2; 3].
Proof.
  apply (proj1 (proj2 (proj2 (proj2 constant_buffer_slices)))
           env_all_ok VertexBuffer.new).
  - reflexivity.
  - vm_compute. reflexivity.
Defined.

(** * The arithmetic model against the Standard Library's *)

(** On the sample sizes, converting an integer to [float] gives the value
    IEEE 754 prescribes, and so does the computation of a cell's far edge
    (a conversion, two multiplications and an addition). *)
Example of_Z_agrees_with_IEEE :
  map (fun n => F32_to_IEEE (F32.of_Z n)) sample_sizes = map IEEE_of_Z sample_sizes.
Proof. vm_compute. reflexivity. Qed.

Example cell_edge_agrees_with_IEEE :
  map (fun n => F32_to_IEEE (cell_edge_F32 n 0)) sample_sizes
  = map (fun n => cell_edge_IEEE n 0) sample_sizes
  /\ map (fun n => F32_to_IEEE (cell_edge_F32 n 1)) sample_sizes
     = map (fun n => cell_edge_IEEE n 1) sample_sizes.
Proof. vm_compute. split; reflexivity. Qed.

Example view_viewport_is_cell_edge fb i :
  maxX (VertexBuffer.view_viewport fb i) = cell_edge_F32 (width fb) (i mod 2)
  /\ maxY (VertexBuffer.view_viewport fb i) = cell_edge_F32 (height fb) (i / 2).
Proof.
  unfold VertexBuffer.view_viewport, cell_edge_F32. cbn [maxX maxY]. split; reflexivity.
Qed.

(** * Any sequence of host calls *)

Lemma bind_ret_l {A B} (a : A) (k : A -> Cmd B) : bind (ret a) k = k a.
Proof. unfold bind, ret. now destruct (k a). Qed.

Lemma run_calls_cons {S} `{IRenderPass S} c cs (st : S) :
  run_calls (c :: cs) st = bind (do_call c st) (run_calls cs).
Proof. reflexivity. Qed.

Lemma events_run_calls_cons {S} `{IRenderPass S} c cs (st : S) :
  events (run_calls (c :: cs) st)
  = events (do_call c st) ++ events (run_calls cs (result (do_call c st))).
Proof. rewrite run_calls_cons. apply events_bind. Qed.

Lemma result_run_calls_cons {S} `{IRenderPass S} c cs (st : S) :
  result (run_calls (c :: cs) st) = result (run_calls cs (result (do_call c st))).
Proof. rewrite run_calls_cons. apply result_bind. Qed.

Lemma run_calls_app {S} `{IRenderPass S} cs1 cs2 (st : S) :
  run_calls (cs1 ++ cs2) st = bind (run_calls cs1 st) (run_calls cs2).
Proof.
  revert st. induction cs1 as [|c cs1 IH]; intros st.
  - cbn [app run_calls]. now rewrite bind_ret_l.
  - cbn [app]. rewrite !run_calls_cons.
    destruct (do_call c st) as [st1 l1]. cbn [bind]. rewrite IH.
    destruct (run_calls cs1 st1) as [st2 l2]. cbn [bind].
    destruct (run_calls cs2 st2) as [st3 l3]. now rewrite app_assoc.
Qed.

(** The message loop is one host among others. *)
Lemma RunMessageLoop_as_calls {S} `{IRenderPass S} its fb (st : S) :
  RunMessageLoop its fb st = run_calls (loop_calls its fb) st.
Proof.
  revert fb st. induction its as [|it rest IH]; intros fb st; [reflexivity|].
  rewrite RunMessageLoop_step. cbn [loop_calls].
  destruct (resized it) as [f|].
  - cbn [app]. rewrite run_calls_cons. cbn [do_call].
    destruct (BackBufferResizing st) as [st1 l1]. cbn [bind].
    rewrite run_calls_cons. cbn [do_call].
    destruct (Animate (elapsed it) st1) as [st2 l2]. cbn [bind].
    rewrite run_calls_cons. cbn [do_call].
    destruct (Render f st2) as [st3 l3]. cbn [bind]. now rewrite IH.
  - cbn [app]. rewrite bind_ret_l, run_calls_cons. cbn [do_call].
    destruct (Animate (elapsed it) st) as [st2 l2]. cbn [bind].
    rewrite run_calls_cons. cbn [do_call].
    destruct (Render fb st2) as [st3 l3]. cbn [bind]. now rewrite IH.
Qed.

(** * The command list *)

Lemma command_list_run_app s l1 l2 :
  command_list_run s (l1 ++ l2)
  = match command_list_run s l1 with
    | Some s' => command_list_run s' l2
    | None => None
    end.
Proof.
  revert s. induction l1 as [|e l1 IH]; intros s; [reflexivity|].
  cbn [app command_list_run]. destruct (command_list_step s e); auto.
Qed.

Lemma Init_command_list ex env st :
  exists s,
    command_list_run ClNone (events (example_Init ex env st)) = Some s
    /\ (s = ClNone \/ s = ClIdle)
    /\ (fst (result (example_Init ex env st)) = true -> s = ClIdle).
Proof.
  destruct ex.
  - vm_compute. split_ifs; eexists; (split; [reflexivity|]); split; auto; discriminate.
  - vm_compute. split_ifs; eexists; (split; [reflexivity|]); split; auto; discriminate.
  - cbn [example_Init]. unfold DeferredShading.Init, SimpleScene.Init.
    cbn [existsb filter events result bind emit ret fst snd app
         CreateShader LoadTextureFromFile texture
         SimpleScene.Init_buffers SimpleScene.Init_graph SimpleScene.CreateGeometryBuffer
         SimpleScene.CreateMaterialConstantBuffer
         new_node new_leaf SetRootNode SetLeaf SetNodeName AttachLeafNode SetDirection
         SetLeafName command_list_run command_list_step is_recorded].
    destruct (LoadTextureFromFile_ok env "media/nvidia-logo.png");
      cbn [existsb filter events result bind emit ret fst snd app
           CreateShader LoadTextureFromFile texture
           SimpleScene.Init_buffers SimpleScene.Init_graph SimpleScene.CreateGeometryBuffer
           SimpleScene.CreateMaterialConstantBuffer
           new_node new_leaf SetRootNode SetLeaf SetNodeName AttachLeafNode SetDirection
           SetLeafName command_list_run command_list_step is_recorded];
      eexists; (split; [reflexivity|]); split; auto.
Qed.

Lemma do_call_command_list ex env c st :
  command_list_run ClIdle (events (@do_call _ (example_RenderPass ex env) c st)) = Some ClIdle.
Proof.
  destruct c as [|dt|fb]; [destruct ex; reflexivity | destruct ex; reflexivity |].
  destruct ex; cbn [do_call example_RenderPass Render BasicTriangle.RenderPass
                    VertexBuffer.RenderPass DeferredShading.RenderPass].
  - unfold BasicTriangle.Render. destruct (BasicTriangle.m_Pipeline st); reflexivity.
  - unfold VertexBuffer.Render. destruct (VertexBuffer.m_Pipeline st); reflexivity.
  - unfold DeferredShading.Render. cbv zeta.
    destruct (DeferredShading.targets_outdated st (width fb, height fb)) eqn:E.
    + reflexivity.
    + unfold DeferredShading.targets_outdated in E.
      destruct st as [sf tc cp bc [rt|] [[]|] lp v sc cl rot]; try discriminate; reflexivity.
Qed.

Lemma run_calls_command_list ex env cs st :
  command_list_run ClIdle (events (@run_calls _ (example_RenderPass ex env) cs st))
  = Some ClIdle.
Proof.
  revert st. induction cs as [|c cs IH]; intros st; [reflexivity|].
  rewrite events_run_calls_cons, command_list_run_app, do_call_command_list. apply IH.
Qed.

(** X1.  The command list is used as nvrhi requires, in every example:
    [Init] creates it at most once and leaves it idle (created, not
    recording) when it succeeds; from then on any sequence of
    [BackBufferResizing], [Animate] and [Render] calls opens it, records
    into it only while it is open, closes and executes it, in this order,
    and leaves it idle again. *)
Theorem command_list_protocol_respected :
  forall ex env st cs,
    exists s,
      command_list_run ClNone (events (example_Init ex env st)) = Some s
      /\ (s = ClNone \/ s = ClIdle)
      /\ (fst (result (example_Init ex env st)) = true ->
          command_list_run ClNone
            (events (example_Init ex env st)
             ++ events (@run_calls _ (example_RenderPass ex env) cs
                          (snd (result (example_Init ex env st)))))
          = Some ClIdle).
Proof.
  intros ex env st cs.
  destruct (Init_command_list ex env st) as (s & Hrun & Hs & Hok).
  exists s. split; [exact Hrun|]. split; [exact Hs|].
  intros H. rewrite command_list_run_app, Hrun, (Hok H).
  apply run_calls_command_list.
Qed.

(** * The cached pipeline *)

Lemma fb_eqb_eq a b : fb_eqb a b = true <-> a = b.
Proof.
  destruct a as [w h], b as [w' h']. unfold fb_eqb. cbn [width height].
  rewrite andb_true_iff, !Z.eqb_eq. split.
  - intros [-> ->]. reflexivity.
  - intros E. inversion E. auto.
Qed.

Lemma fb_eqb_refl a : fb_eqb a a = true.
Proof. now apply fb_eqb_eq. Qed.

Lemma fb_eqb_neq a b : a <> b -> fb_eqb a b = false.
Proof.
  intros H. destruct (fb_eqb a b) eqn:E; [|reflexivity].
  apply fb_eqb_eq in E. contradiction.
Qed.

Lemma pipeline_cached_example_pipeline ex st :
  ex <> deferred_shading ->
  pipeline_cached ex st
  = match example_pipeline ex st with Some _ => true | None => false end.
Proof. destruct ex; [reflexivity | reflexivity | contradiction]. Qed.

(** What the device hands out was created for the framebuffer asked for. *)
Lemma created_pipeline_fits ex env fb st d fb' :
  created_pipeline ex env fb st = Some (d, fb') -> fb' = fb.
Proof.
  destruct ex; cbn [created_pipeline]; unfold createGraphicsPipeline;
    cbn [bind emit ret result fst]; try discriminate;
    match goal with |- context [createGraphicsPipeline_ok ?e ?p ?f] =>
      destruct (createGraphicsPipeline_ok e p f) end;
    intros E; inversion E; reflexivity.
Qed.

Lemma created_pipeline_available ex env fb st :
  ex <> deferred_shading ->
  pipelines_available env ->
  exists d, created_pipeline ex env fb st = Some (d, fb).
Proof.
  intros Hex Hav.
  destruct ex; [| |contradiction]; cbn [created_pipeline];
    unfold createGraphicsPipeline; cbn [bind emit ret result fst];
    rewrite Hav; eexists; reflexivity.
Qed.

Lemma created_pipeline_unavailable ex env fb st :
  pipelines_unavailable env -> created_pipeline ex env fb st = None.
Proof.
  intros Hun. destruct ex; cbn [created_pipeline]; [| |reflexivity];
    unfold createGraphicsPipeline; cbn [bind emit ret result fst];
    now rewrite Hun.
Qed.

(** One [Render] of basic_triangle or vertex_buffer: it asks the device
    for a pipeline exactly when none is cached, sets at least one graphics
    state, every one of them with the pipeline in use and the framebuffer
    of the call, and leaves the pipeline in use in [m_Pipeline]. *)
Lemma Render_pipeline ex env fb st :
  ex <> deferred_shading ->
  count creates_pipeline (events (example_Render ex env fb st))
  = match example_pipeline ex st with None => 1%nat | Some _ => 0%nat end
  /\ example_pipeline ex (result (example_Render ex env fb st))
     = pipeline_in_use ex env fb st
  /\ graphics_states (events (example_Render ex env fb st)) <> []
  /\ Forall (fun s => gs_pipeline s = pipeline_in_use ex env fb st
                      /\ gs_framebuffer s = fb)
            (graphics_states (events (example_Render ex env fb st))).
Proof.
  intros Hex. unfold pipeline_in_use.
  destruct ex; [| |contradiction];
    cbn [example_Render example_pipeline created_pipeline].
  - unfold BasicTriangle.Render, createGraphicsPipeline.
    destruct (BasicTriangle.m_Pipeline st) as [p|] eqn:Ep;
      cbn [bind emit ret result events fst snd app count filter creates_pipeline
           List.length graphics_states flat_map BasicTriangle.m_Pipeline
           gs_pipeline gs_framebuffer];
      rewrite ?Ep;
      (split; [reflexivity|]); (split; [reflexivity|]);
      (split; [discriminate|]); repeat constructor.
  - unfold VertexBuffer.Render, createGraphicsPipeline. cbv zeta.
    change VertexBuffer.view_indices with [0; 1; 2; 3].
    destruct (VertexBuffer.m_Pipeline st) as [p|] eqn:Ep;
      cbn [bind emit ret result events fst snd app count filter creates_pipeline
           List.length graphics_states flat_map for_each
           VertexBuffer.m_Pipeline VertexBuffer.set_Pipeline
           gs_pipeline gs_framebuffer];
      rewrite ?Ep;
      (split; [reflexivity|]); (split; [reflexivity|]);
      (split; [discriminate|]); repeat constructor.
Qed.

(** What one call does to the cached pipeline: [BackBufferResizing] drops
    it, [Animate] keeps it, [Render] leaves the pipeline it used. *)
Lemma do_call_pipeline ex env c st :
  ex <> deferred_shading ->
  example_pipeline ex (result (@do_call _ (example_RenderPass ex env) c st))
  = match c with
    | CallBackBufferResizing => None
    | CallAnimate _ => example_pipeline ex st
    | CallRender fb => pipeline_in_use ex env fb st
    end.
Proof.
  intros Hex. destruct c as [|dt|fb].
  - destruct ex; [reflexivity | reflexivity | contradiction].
  - destruct ex; [reflexivity | reflexivity | contradiction].
  - destruct (Render_pipeline ex env fb st Hex) as (_ & H & _).
    rewrite <- H. destruct ex; reflexivity.
Qed.

Lemma do_call_graphics_states ex env c st :
  ex <> deferred_shading ->
  Forall (fun s => exists fb, c = CallRender fb
                              /\ gs_pipeline s = pipeline_in_use ex env fb st
                              /\ gs_framebuffer s = fb)
         (graphics_states (events (@do_call _ (example_RenderPass ex env) c st))).
Proof.
  intros Hex. destruct c as [|dt|fb].
  - destruct ex; [constructor | constructor | contradiction].
  - destruct ex; [constructor | constructor | contradiction].
  - destruct (Render_pipeline ex env fb st Hex) as (_ & _ & _ & H).
    replace (events (@do_call _ (example_RenderPass ex env) (CallRender fb) st))
      with (events (example_Render ex env fb st)) by (destruct ex; reflexivity).
    eapply Forall_impl; [|exact H].
    intros s [Hp Hf]. exists fb. auto.
Qed.

Lemma forallb_graphics_states (p : Event -> bool) (q : GraphicsState -> bool) l :
  (forall e, p e = match e with EvSetGraphicsState s => q s | _ => true end) ->
  forallb p l = forallb q (graphics_states l).
Proof.
  intros Hp. induction l as [|e l IH]; [reflexivity|].
  cbn [forallb]. rewrite IH, Hp. unfold graphics_states. cbn [flat_map].
  destruct e; cbn [app forallb]; reflexivity.
Qed.

Lemma resizes_announced_cons cur c cs :
  resizes_announced cur (c :: cs)
  = resizes_announced cur [c] && resizes_announced (next_framebuffer cur c) cs.
Proof.
  destruct c as [|dt|fb]; cbn [resizes_announced next_framebuffer andb]; try reflexivity.
  now rewrite andb_true_r.
Qed.

Lemma pipeline_in_use_for ex env fb st cur :
  pipeline_for cur (example_pipeline ex st) ->
  resizes_announced cur [CallRender fb] = true ->
  pipeline_for (Some fb) (pipeline_in_use ex env fb st).
Proof.
  intros Hinv Hdisc d fb' E. unfold pipeline_in_use in E.
  destruct (example_pipeline ex st) as [[d0 fb0]|] eqn:Ep.
  - inversion E; subst. specialize (Hinv d fb' eq_refl). subst cur.
    cbn in Hdisc. rewrite andb_true_r in Hdisc. apply fb_eqb_eq in Hdisc.
    now subst.
  - apply created_pipeline_fits in E. now subst.
Qed.

Lemma do_call_pipeline_for ex env c st cur :
  ex <> deferred_shading ->
  pipeline_for cur (example_pipeline ex st) ->
  resizes_announced cur [c] = true ->
  pipeline_for (next_framebuffer cur c)
    (example_pipeline ex (result (@do_call _ (example_RenderPass ex env) c st))).
Proof.
  intros Hex Hinv Hdisc. rewrite do_call_pipeline by assumption.
  destruct c as [|dt|fb]; cbn [next_framebuffer].
  - intros d fb E. discriminate E.
  - exact Hinv.
  - now apply (pipeline_in_use_for ex env fb st cur).
Qed.

(** The graphics states of one call use no pipeline of another
    framebuffer, and a pipeline indeed when the device delivers them. *)
Lemma do_call_fits ex env c st cur :
  ex <> deferred_shading ->
  pipeline_for cur (example_pipeline ex st) ->
  resizes_announced cur [c] = true ->
  forallb pipeline_not_stale
    (events (@do_call _ (example_RenderPass ex env) c st)) = true
  /\ (pipelines_available env ->
      forallb pipeline_fits_framebuffer
        (events (@do_call _ (example_RenderPass ex env) c st)) = true).
Proof.
  intros Hex Hinv Hdisc.
  pose proof (do_call_graphics_states ex env c st Hex) as Hs.
  rewrite (forallb_graphics_states pipeline_not_stale
             (fun s => match gs_pipeline s with
                       | Some (_, fb) => fb_eqb fb (gs_framebuffer s)
                       | None => true
                       end)) by (intros e; destruct e; reflexivity).
  rewrite (forallb_graphics_states pipeline_fits_framebuffer
             (fun s => match gs_pipeline s with
                       | Some (_, fb) => fb_eqb fb (gs_framebuffer s)
                       | None => false
                       end)) by (intros e; destruct e; reflexivity).
  split; [|intros Hav]; apply forallb_forall; intros s Hin;
    rewrite Forall_forall in Hs; destruct (Hs s Hin) as (fb & -> & Hp & Hf);
    pose proof (pipeline_in_use_for ex env fb st cur Hinv Hdisc) as Hfor;
    rewrite Hp, Hf.
  - destruct (pipeline_in_use ex env fb st) as [[d fb']|]; [|reflexivity].
    specialize (Hfor d fb' eq_refl). inversion Hfor. apply fb_eqb_refl.
  - destruct (pipeline_in_use ex env fb st) as [[d fb']|] eqn:Eu.
    + specialize (Hfor d fb' eq_refl). inversion Hfor. apply fb_eqb_refl.
    + unfold pipeline_in_use in Eu.
      destruct (example_pipeline ex st); [discriminate Eu|].
      destruct (created_pipeline_available ex env fb st Hex Hav) as [d Hd].
      congruence.
Qed.

Lemma forallb_app_true {A} (p : A -> bool) l1 l2 :
  forallb p l1 = true -> forallb p l2 = true -> forallb p (l1 ++ l2) = true.
Proof. intros H1 H2. rewrite forallb_app, H1, H2. reflexivity. Qed.

Lemma run_calls_fits ex env cs : forall st cur,
  ex <> deferred_shading ->
  pipeline_for cur (example_pipeline ex st) ->
  resizes_announced cur cs = true ->
  forallb pipeline_not_stale
    (events (@run_calls _ (example_RenderPass ex env) cs st)) = true
  /\ (pipelines_available env ->
      forallb pipeline_fits_framebuffer
        (events (@run_calls _ (example_RenderPass ex env) cs st)) = true).
Proof.
  induction cs as [|c cs IH]; intros st cur Hex Hinv Hdisc; [split; reflexivity|].
  rewrite resizes_announced_cons in Hdisc. apply andb_true_iff in Hdisc as [Hc Hcs].
  rewrite events_run_calls_cons.
  destruct (do_call_fits ex env c st cur Hex Hinv Hc) as [H1 H2].
  destruct (IH (result (@do_call _ (example_RenderPass ex env) c st))
               (next_framebuffer cur c) Hex
               (do_call_pipeline_for ex env c st cur Hex Hinv Hc) Hcs) as [H3 H4].
  split; [|intros Hav]; apply forallb_app_true; auto.
Qed.

(** X2.  In basic_triangle and vertex_buffer, starting without a cached
    pipeline, as long as the host calls [BackBufferResizing] before it
    renders to another framebuffer, no graphics state of any frame uses a
    pipeline that was created for another framebuffer than the one of that
    frame; a null pipeline, which [Render] stores untested when the device
    delivers none, is not one.  When the device delivers every pipeline it
    is asked for, every graphics state has a pipeline, created for the
    framebuffer of its frame. *)
Theorem pipeline_matches_framebuffer :
  forall ex env cs st,
    ex <> deferred_shading ->
    example_pipeline ex st = None ->
    resizes_announced None cs = true ->
    forallb pipeline_not_stale
      (events (@run_calls _ (example_RenderPass ex env) cs st)) = true
    /\ (pipelines_available env ->
        forallb pipeline_fits_framebuffer
          (events (@run_calls _ (example_RenderPass ex env) cs st)) = true).
Proof.
  intros ex env cs st Hex Hnone Hdisc.
  apply (run_calls_fits ex env cs st None); auto.
  rewrite Hnone. intros d fb E. discriminate E.
Qed.

(** X2 at the initialised vertex-buffer example, resized once. *)
Lemma pipeline_matches_framebuffer_witness :
  let cs := [CallRender (mkFramebufferInfo 800 600); CallAnimate Binary32.one;
             CallRender (mkFramebufferInfo 800 600); CallBackBufferResizing;
             CallAnimate Binary32.one; CallRender (mkFramebufferInfo 1024 768)] in
  let st := snd (result (example_Init vertex_buffer env_all_ok
                           (example_new vertex_buffer))) in
  forallb pipeline_not_stale
    (events (@run_calls _ (example_RenderPass vertex_buffer env_all_ok) cs st)) = true
  /\ (pipelines_available env_all_ok ->
      forallb pipeline_fits_framebuffer
        (events (@run_calls _ (example_RenderPass vertex_buffer env_all_ok) cs st))
      = true).
Proof.
  apply pipeline_matches_framebuffer; [discriminate | reflexivity | reflexivity].
Defined.

(** X3.  In basic_triangle and vertex_buffer [Render] never compares the
    cached pipeline with its framebuffer: when a pipeline created for
    framebuffer [fb1] is cached, [Render] on [fb2] asks the device for
    nothing, sets at least one graphics state, every one of them with the
    pipeline of [fb1] and the framebuffer [fb2], and keeps that pipeline
    cached; so without [BackBufferResizing] in between, a frame on another
    framebuffer draws with a stale pipeline. *)
Theorem unannounced_resize_uses_stale_pipeline :
  forall ex env fb1 fb2 st d,
    ex <> deferred_shading ->
    example_pipeline ex st = Some (d, fb1) ->
    let frame := events (example_Render ex env fb2 st) in
    existsb creates_pipeline frame = false
    /\ graphics_states frame <> []
    /\ Forall (fun s => gs_pipeline s = Some (d, fb1) /\ gs_framebuffer s = fb2)
              (graphics_states frame)
    /\ example_pipeline ex (result (example_Render ex env fb2 st)) = Some (d, fb1)
    /\ (fb1 <> fb2 -> forallb pipeline_not_stale frame = false).
Proof.
  intros ex env fb1 fb2 st d Hex Hp frame. subst frame.
  destruct (Render_pipeline ex env fb2 st Hex) as (Hn & Hr & Hne & Hall).
  unfold pipeline_in_use in *. rewrite Hp in *.
  split.
  { unfold count in Hn.
    destruct (existsb creates_pipeline (events (example_Render ex env fb2 st))) eqn:E;
      [|reflexivity].
    apply existsb_exists in E as (e & Hin & He).
    assert (In e (filter creates_pipeline (events (example_Render ex env fb2 st))))
      by (apply filter_In; auto).
    destruct (filter creates_pipeline (events (example_Render ex env fb2 st)));
      [contradiction | discriminate Hn]. }
  split; [exact Hne|]. split; [exact Hall|]. split; [exact Hr|].
  intros Hneq.
  rewrite (forallb_graphics_states pipeline_not_stale
             (fun s => match gs_pipeline s with
                       | Some (_, fb) => fb_eqb fb (gs_framebuffer s)
                       | None => true
                       end)) by (intros e; destruct e; reflexivity).
  destruct (graphics_states (events (example_Render ex env fb2 st))) as [|s l];
    [contradiction|].
  destruct (Forall_inv Hall) as [Hs1 Hs2].
  cbn [forallb]. rewrite Hs1, Hs2, (fb_eqb_neq fb1 fb2 Hneq). reflexivity.
Qed.

(** X3 at the initialised basic-triangle example after a first frame of
    800 by 600: the next frame is 1024 by 768. *)
Lemma unannounced_resize_uses_stale_pipeline_witness :
  let fb1 := mkFramebufferInfo 800 600 in
  let fb2 := mkFramebufferInfo 1024 768 in
  let st0 := snd (result (example_Init basic_triangle env_all_ok
                            (example_new basic_triangle))) in
  let st := result (example_Render basic_triangle env_all_ok fb1 st0) in
  let d := BasicTriangle.psoDesc st0 in
  let frame := events (example_Render basic_triangle env_all_ok fb2 st) in
  existsb creates_pipeline frame = false
  /\ graphics_states frame <> []
  /\ Forall (fun s => gs_pipeline s = Some (d, fb1) /\ gs_framebuffer s = fb2)
            (graphics_states frame)
  /\ example_pipeline basic_triangle
       (result (example_Render basic_triangle env_all_ok fb2 st)) = Some (d, fb1)
  /\ (fb1 <> fb2 -> forallb pipeline_not_stale frame = false).
Proof.
  apply unannounced_resize_uses_stale_pipeline; [discriminate | reflexivity].
Defined.

(** The message loop announces every resize. *)
Lemma loop_calls_announced its : forall fb cur,
  (cur = None \/ cur = Some fb) ->
  resizes_announced cur (loop_calls its fb) = true.
Proof.
  induction its as [|it rest IH]; intros fb cur Hcur; [reflexivity|].
  cbn [loop_calls]. destruct (resized it) as [f|].
  - cbn [app resizes_announced andb]. apply IH. now right.
  - cbn [app resizes_announced].
    rewrite IH by now right. rewrite andb_true_r.
    destruct Hcur as [-> | ->]; [reflexivity | apply fb_eqb_refl].
Qed.

Lemma Init_keeps_pipeline ex env st :
  example_pipeline ex (snd (result (example_Init ex env st))) = example_pipeline ex st.
Proof.
  destruct ex; [| |reflexivity]; cbn [example_Init example_pipeline ExampleState] in *.
  - destruct st as [vs ps pl cl]. vm_compute. split_ifs; reflexivity.
  - destruct st as [vs ps cb0 vb ib tex il bl sets pl cl rot].
    vm_compute. split_ifs; reflexivity.
Qed.

Lemma no_graphics_state_fits l :
  existsb is_SetGraphicsState l = false ->
  forallb pipeline_not_stale l = true /\ forallb pipeline_fits_framebuffer l = true.
Proof.
  induction l as [|e l IH]; [split; reflexivity|]. cbn [existsb forallb].
  intros H. apply orb_false_iff in H as [He Hl]. destruct (IH Hl) as [H1 H2].
  rewrite H1, H2, !andb_true_r.
  destruct e; try (split; reflexivity); discriminate He.
Qed.

Lemma Init_sets_no_graphics_state ex env st :
  existsb is_SetGraphicsState (events (example_Init ex env st)) = false.
Proof. Init_events ex. Qed.

Lemma DeferredShading_sets_no_graphics_state cs : forall st,
  existsb is_SetGraphicsState
    (events (@run_calls _ DeferredShading.RenderPass cs st)) = false.
Proof.
  induction cs as [|c cs IH]; intros st; [reflexivity|].
  rewrite events_run_calls_cons, existsb_app, IH, orb_false_r.
  destruct c as [|dt|fb]; [reflexivity | reflexivity |].
  cbn [do_call Render DeferredShading.RenderPass].
  unfold DeferredShading.Render. cbv zeta.
  destruct (DeferredShading.targets_outdated st (width fb, height fb)) eqn:E.
  - reflexivity.
  - unfold DeferredShading.targets_outdated in E.
    destruct st as [sf tc cp bc [rt|] [[]|] lp v sc cl rot]; try discriminate; reflexivity.
Qed.

Lemma main_loop_fits ex env st :
  example_pipeline ex st = None ->
  forallb pipeline_not_stale
    (events (@RunMessageLoop _ (example_RenderPass ex env) (iterations env)
               (initial_framebuffer env) st)) = true
  /\ (pipelines_available env ->
      forallb pipeline_fits_framebuffer
        (events (@RunMessageLoop _ (example_RenderPass ex env) (iterations env)
                   (initial_framebuffer env) st)) = true).
Proof.
  intros Hnone. rewrite RunMessageLoop_as_calls.
  destruct ex.
  - apply (run_calls_fits basic_triangle env _ _ None); [discriminate | |].
    + rewrite Hnone. intros d fb E. discriminate E.
    + apply loop_calls_announced. now left.
  - apply (run_calls_fits vertex_buffer env _ _ None); [discriminate | |].
    + rewrite Hnone. intros d fb E. discriminate E.
    + apply loop_calls_announced. now left.
  - destruct (no_graphics_state_fits _ (DeferredShading_sets_no_graphics_state
                                          (loop_calls (iterations env)
                                             (initial_framebuffer env)) st)).
    split; auto.
Qed.

(** X4.  In [main] of every example, no graphics state uses a pipeline
    created for another framebuffer than the one it renders to, the message
    loop calling [BackBufferResizing] before the first frame after a
    resize; and when the device delivers every pipeline it is asked for,
    every graphics state has a pipeline, created for the framebuffer it
    renders to.  deferred_shading sets no graphics state itself. *)
Theorem main_pipelines_match_framebuffer :
  forall ex env,
    forallb pipeline_not_stale (events (example_main ex env)) = true
    /\ (pipelines_available env ->
        forallb pipeline_fits_framebuffer (events (example_main ex env)) = true).
Proof.
  intros ex env. rewrite example_main_eq.
  destruct (CreateWindowDeviceAndSwapChain_ok env); [|split; reflexivity].
  cbv zeta. cbn [events snd].
  destruct (no_graphics_state_fits _ (Init_sets_no_graphics_state ex env (example_new ex)))
    as [Hi1 Hi2].
  pose proof (main_loop_fits ex env (snd (result (example_Init ex env (example_new ex)))))
    as Hloop.
  rewrite Init_keeps_pipeline in Hloop.
  assert (Hnew : example_pipeline ex (example_new ex) = None) by (destruct ex; reflexivity).
  destruct (Hloop Hnew) as [Hl1 Hl2].
  split; [|intros Hav; specialize (Hl2 Hav)];
    cbn [app forallb pipeline_not_stale pipeline_fits_framebuffer andb];
    (apply forallb_app_true; [assumption|]);
    (apply forallb_app_true; [|reflexivity]);
    (destruct (fst (result (example_Init ex env (example_new ex)))); [|reflexivity]);
    cbn [forallb pipeline_not_stale pipeline_fits_framebuffer andb];
    (apply forallb_app_true; [assumption | reflexivity]).
Qed.

(** * How often the pipeline is created *)

Lemma do_call_creations ex env c st :
  ex <> deferred_shading ->
  count creates_pipeline (events (@do_call _ (example_RenderPass ex env) c st))
  = match c with
    | CallRender _ =>
        match example_pipeline ex st with None => 1%nat | Some _ => 0%nat end
    | _ => 0%nat
    end.
Proof.
  intros Hex. destruct c as [|dt|fb].
  - destruct ex; [reflexivity | reflexivity | contradiction].
  - destruct ex; [reflexivity | reflexivity | contradiction].
  - destruct (Render_pipeline ex env fb st Hex) as (H & _).
    rewrite <- H. destruct ex; reflexivity.
Qed.

Lemma run_calls_creations ex env cs : forall st,
  ex <> deferred_shading ->
  pipelines_available env ->
  (count creates_pipeline (events (@run_calls _ (example_RenderPass ex env) cs st))
   <= (if pipeline_cached ex st then 0 else 1)
      + List.length (filter is_CallBackBufferResizing cs))%nat.
Proof.
  induction cs as [|c cs IH]; intros st Hex Hav.
  - cbn. destruct (pipeline_cached ex st); lia.
  - rewrite events_run_calls_cons, count_app.
    specialize (IH (result (@do_call _ (example_RenderPass ex env) c st)) Hex Hav).
    rewrite !pipeline_cached_example_pipeline in * by assumption.
    rewrite do_call_pipeline in IH by assumption.
    rewrite do_call_creations by assumption.
    destruct c as [|dt|fb]; cbn [filter is_CallBackBufferResizing List.length].
    + destruct (example_pipeline ex st); lia.
    + lia.
    + unfold pipeline_in_use in IH.
      destruct (example_pipeline ex st) as [p|]; [lia|].
      destruct (created_pipeline_available ex env fb st Hex Hav) as [d Hd].
      rewrite Hd in IH. lia.
Qed.

Lemma run_calls_retries ex env cs : forall st,
  ex <> deferred_shading ->
  pipelines_unavailable env ->
  example_pipeline ex st = None ->
  count creates_pipeline (events (@run_calls _ (example_RenderPass ex env) cs st))
  = List.length (filter is_CallRender cs)
  /\ example_pipeline ex (result (@run_calls _ (example_RenderPass ex env) cs st)) = None.
Proof.
  induction cs as [|c cs IH]; intros st Hex Hun Hnone; [split; [reflexivity | exact Hnone]|].
  rewrite events_run_calls_cons, result_run_calls_cons, count_app.
  rewrite do_call_creations by assumption.
  assert (Hnext : example_pipeline ex
                    (result (@do_call _ (example_RenderPass ex env) c st)) = None).
  { rewrite do_call_pipeline by assumption.
    destruct c as [|dt|fb]; [reflexivity | exact Hnone |].
    unfold pipeline_in_use. rewrite Hnone.
    now apply created_pipeline_unavailable. }
  destruct (IH _ Hex Hun Hnext) as [Hc Hr]. rewrite Hc, Hnone.
  split; [|exact Hr].
  destruct c; reflexivity.
Qed.

(** X5.  In basic_triangle and vertex_buffer, [Render] calls
    [createGraphicsPipeline] exactly when [m_Pipeline] is null.  So when
    the device delivers every pipeline, a sequence of calls creates at most
    one pipeline per [BackBufferResizing] call, plus one when it starts
    without a pipeline; and when the device delivers none, [m_Pipeline]
    stays null and every single [Render] asks the device again. *)
Theorem pipeline_created_at_most_once_per_resize :
  forall ex env cs st,
    ex <> deferred_shading ->
    (forall fb,
        count creates_pipeline (events (example_Render ex env fb st))
        = if pipeline_cached ex st then 0%nat else 1%nat)
    /\ (pipelines_available env ->
        (count creates_pipeline
           (events (@run_calls _ (example_RenderPass ex env) cs st))
         <= (if pipeline_cached ex st then 0 else 1)
            + List.length (filter is_CallBackBufferResizing cs))%nat)
    /\ (pipelines_unavailable env ->
        pipeline_cached ex st = false ->
        count creates_pipeline
          (events (@run_calls _ (example_RenderPass ex env) cs st))
        = List.length (filter is_CallRender cs)).
Proof.
  intros ex env cs st Hex. split; [|split].
  - intros fb. destruct (Render_pipeline ex env fb st Hex) as (Hn & _).
    rewrite Hn, pipeline_cached_example_pipeline by assumption.
    now destruct (example_pipeline ex st).
  - intros Hav. now apply run_calls_creations.
  - intros Hun Hc. rewrite pipeline_cached_example_pipeline in Hc by assumption.
    apply (run_calls_retries ex env cs st Hex Hun).
    now destruct (example_pipeline ex st).
Qed.

(** X5 at the initialised basic-triangle example. *)
Lemma pipeline_created_at_most_once_per_resize_witness :
  let cs := [CallRender (mkFramebufferInfo 800 600); CallBackBufferResizing;
             CallBackBufferResizing; CallRender (mkFramebufferInfo 640 480);
             CallRender (mkFramebufferInfo 640 480)] in
  let st := snd (result (example_Init basic_triangle env_all_ok
                           (example_new basic_triangle))) in
  (forall fb,
      count creates_pipeline (events (example_Render basic_triangle env_all_ok fb st))
      = if pipeline_cached basic_triangle st then 0%nat else 1%nat)
  /\ (pipelines_available env_all_ok ->
      (count creates_pipeline
         (events (@run_calls _ (example_RenderPass basic_triangle env_all_ok) cs st))
       <= (if pipeline_cached basic_triangle st then 0 else 1)
          + List.length (filter is_CallBackBufferResizing cs))%nat)
  /\ (pipelines_unavailable env_all_ok ->
      pipeline_cached basic_triangle st = false ->
      count creates_pipeline
        (events (@run_calls _ (example_RenderPass basic_triangle env_all_ok) cs st))
      = List.length (filter is_CallRender cs)).
Proof.
  apply pipeline_created_at_most_once_per_resize. discriminate.
Defined.

(** * Frames that create nothing *)

Lemma Render_frame_ready ex env fb st :
  frame_ready ex fb (result (example_Render ex env fb st))
  = match ex with
    | deferred_shading => true
    | _ => match pipeline_in_use ex env fb st with Some _ => true | None => false end
    end.
Proof.
  destruct ex.
  - destruct (Render_pipeline basic_triangle env fb st) as (_ & H & _); [discriminate|].
    cbn [frame_ready example_pipeline] in *. now rewrite H.
  - destruct (Render_pipeline vertex_buffer env fb st) as (_ & H & _); [discriminate|].
    cbn [frame_ready example_pipeline] in *. now rewrite H.
  - cbn [example_Render frame_ready]. unfold DeferredShading.Render. cbv zeta.
    destruct (DeferredShading.targets_outdated st (width fb, height fb)) eqn:E.
    + cbn. now rewrite !Z.eqb_refl.
    + unfold DeferredShading.targets_outdated in E.
      destruct st as [sf tc cp bc [rt|] [[]|] lp v sc cl rot]; try discriminate;
        cbn in *; now rewrite E.
Qed.

Lemma do_call_steady ex env fb c st :
  frame_ready ex fb st = true ->
  invalidates ex fb c = false ->
  existsb is_creation (events (@do_call _ (example_RenderPass ex env) c st)) = false
  /\ frame_ready ex fb (result (@do_call _ (example_RenderPass ex env) c st)) = true.
Proof.
  intros Hr Hc.
  destruct ex; destruct c as [|dt|fb']; try discriminate Hc;
    cbn [do_call example_RenderPass frame_ready BackBufferResizing Animate Render
         BasicTriangle.RenderPass VertexBuffer.RenderPass DeferredShading.RenderPass] in *;
    try (split; [reflexivity | exact Hr]).
  - unfold BasicTriangle.Render.
    destruct (BasicTriangle.m_Pipeline st) eqn:E; [|discriminate Hr].
    cbn. rewrite E. split; reflexivity.
  - unfold VertexBuffer.Render. cbv zeta.
    change VertexBuffer.view_indices with [0; 1; 2; 3].
    destruct (VertexBuffer.m_Pipeline st) eqn:E; [|discriminate Hr].
    cbn -[VertexBuffer.view_viewport]. rewrite E. split; reflexivity.
  - cbn [invalidates] in Hc. apply negb_false_iff, fb_eqb_eq in Hc. subst fb'.
    apply andb_true_iff in Hr as [Ho Hp]. apply negb_true_iff in Ho.
    unfold DeferredShading.Render. cbv zeta. rewrite Ho.
    unfold DeferredShading.targets_outdated in Ho.
    destruct st as [sf tc cp bc [rt|] [[]|] lp v sc cl rot]; try discriminate.
    cbn in *. rewrite Ho. split; reflexivity.
Qed.

Lemma run_calls_steady ex env fb cs : forall st,
  frame_ready ex fb st = true ->
  existsb (invalidates ex fb) cs = false ->
  existsb is_creation (events (@run_calls _ (example_RenderPass ex env) cs st)) = false
  /\ frame_ready ex fb (result (@run_calls _ (example_RenderPass ex env) cs st)) = true.
Proof.
  induction cs as [|c cs IH]; intros st Hr Hcs; [split; [reflexivity | exact Hr]|].
  cbn [existsb] in Hcs. apply orb_false_iff in Hcs as [Hc Hcs].
  destruct (do_call_steady ex env fb c st Hr Hc) as [He Hr'].
  rewrite events_run_calls_cons, result_run_calls_cons, existsb_app, He. cbn [orb].
  now apply IH.
Qed.

(** X6.  A frame on framebuffer [fb] has nothing left to create when the
    pipeline is cached (basic_triangle, vertex_buffer), or when the render
    targets have the size of [fb] and the G-buffer pass exists
    (deferred_shading).  One [Render] on [fb] brings this about, in
    deferred_shading always and in the two other examples unless the device
    delivered no pipeline.  From then on the calls create no device or
    engine object and leave nothing to create, as long as none of them
    invalidates the frame: [BackBufferResizing] in basic_triangle and
    vertex_buffer, a [Render] on a framebuffer of another size in
    deferred_shading. *)
Theorem steady_frames_create_nothing :
  forall ex env fb,
    (forall st,
        frame_ready ex fb (result (example_Render ex env fb st))
        = match ex with
          | deferred_shading => true
          | _ => match pipeline_in_use ex env fb st with
                 | Some _ => true
                 | None => false
                 end
          end)
    /\ (forall st cs,
          frame_ready ex fb st = true ->
          existsb (invalidates ex fb) cs = false ->
          existsb is_creation
            (events (@run_calls _ (example_RenderPass ex env) cs st)) = false
          /\ frame_ready ex fb
               (result (@run_calls _ (example_RenderPass ex env) cs st)) = true).
Proof.
  intros ex env fb. split.
  - intros st. apply Render_frame_ready.
  - intros st cs. apply run_calls_steady.
Qed.

(** X6 at the initialised deferred-shading example after a first frame of
    800 by 600; [BackBufferResizing] does not invalidate it. *)
Lemma steady_frames_create_nothing_witness :
  let fb := mkFramebufferInfo 800 600 in
  let cs := [CallAnimate Binary32.one; CallBackBufferResizing; CallRender fb;
             CallAnimate Binary32.half; CallRender fb] in
  let st := result (example_Render deferred_shading env_all_ok fb
                      (snd (result (example_Init deferred_shading env_all_ok
                                      (example_new deferred_shading))))) in
  existsb is_creation
    (events (@run_calls _ (example_RenderPass deferred_shading env_all_ok) cs st)) = false
  /\ frame_ready deferred_shading fb
       (result (@run_calls _ (example_RenderPass deferred_shading env_all_ok) cs st))
     = true.
Proof.
  apply (proj2 (steady_frames_create_nothing deferred_shading env_all_ok
                  (mkFramebufferInfo 800 600))).
  - apply (proj1 (steady_frames_create_nothing deferred_shading env_all_ok
                    (mkFramebufferInfo 800 600))).
  - reflexivity.
Defined.

(** * What the frames leave alone *)

Lemma same_resources_refl ex st : same_resources ex st st.
Proof. destruct ex; cbn [same_resources]; repeat split. Qed.

Lemma same_resources_trans ex a b c :
  same_resources ex a b -> same_resources ex b c -> same_resources ex a c.
Proof.
  destruct ex; cbn [same_resources]; intros H1 H2.
  - destruct H1 as (?&?&?), H2 as (?&?&?). repeat split; congruence.
  - destruct H1 as (?&?&?&?&?&?&?&?&?&?), H2 as (?&?&?&?&?&?&?&?&?&?).
    repeat split; congruence.
  - destruct H1 as (?&?&?&?&?&?&?), H2 as (?&?&?&?&?&?&?).
    repeat split; congruence.
Qed.

Lemma do_call_same_resources ex env c st :
  same_resources ex st (result (@do_call _ (example_RenderPass ex env) c st)).
Proof.
  destruct ex; destruct c as [|dt|fb];
    cbn [do_call example_RenderPass same_resources BackBufferResizing Animate Render
         BasicTriangle.RenderPass VertexBuffer.RenderPass DeferredShading.RenderPass];
    try (repeat split; reflexivity).
  - unfold BasicTriangle.Render.
    destruct (BasicTriangle.m_Pipeline st); repeat split; reflexivity.
  - unfold VertexBuffer.Render. cbv zeta.
    change VertexBuffer.view_indices with [0; 1; 2; 3].
    destruct (VertexBuffer.m_Pipeline st); repeat split; reflexivity.
  - unfold DeferredShading.Render. cbv zeta.
    destruct (DeferredShading.targets_outdated st (width fb, height fb)).
    + repeat split; reflexivity.
    + destruct st as [sf tc cp bc [rt|] [[]|] lp v sc cl rot]; repeat split; reflexivity.
Qed.

(** X7.  No sequence of [BackBufferResizing], [Animate] and [Render] calls
    replaces what [Init] has set up: shaders, buffers, texture, layouts,
    binding sets, caches, scene and command list stay the same handles. *)
Theorem frames_keep_the_resources_of_Init :
  forall ex env cs st,
    same_resources ex st (result (@run_calls _ (example_RenderPass ex env) cs st)).
Proof.
  intros ex env cs. induction cs as [|c cs IH]; intros st.
  - apply same_resources_refl.
  - rewrite result_run_calls_cons.
    eapply same_resources_trans; [apply do_call_same_resources | apply IH].
Qed.

(** * When [Init] succeeds, and what it logs when it does not *)

(** X9.  [Init] returns [true] exactly when every step it depends on
    succeeded: both shaders in basic_triangle; both shaders, the texture
    and all four binding sets in vertex_buffer; the texture in
    deferred_shading. *)
Theorem Init_succeeds_iff_every_step_does :
  forall ex env st,
    fst (result (example_Init ex env st))
    = Init_steps_succeed ex env (snd (result (example_Init ex env st))).
Proof.
  intros ex env st. destruct ex; cbn [ExampleState] in st.
  - destruct st as [vs ps pl cl], env as [cs lt cb gp dev fb its cu si sm].
    vm_compute. split_answers.
  - destruct st as [vs ps cb0 vb ib tex il bl sets pl cl rot],
             env as [cs lt cb gp dev fb its cu si sm].
    vm_compute. split_answers.
  - cbn [example_Init Init_steps_succeed].
    unfold DeferredShading.Init, SimpleScene.Init. split_oracles; reflexivity.
Qed.

(** X10.  [Init] logs an error exactly when it fails for another reason
    than a shader: a failed shader compilation makes basic_triangle and
    vertex_buffer return [false] without any log entry. *)
Theorem Init_failure_is_logged_unless_a_shader_failed :
  forall ex env st,
    existsb is_error_log (events (example_Init ex env st))
    = negb (fst (result (example_Init ex env st))) && shaders_ok ex env.
Proof.
  intros ex env st. destruct ex; cbn [ExampleState] in st.
  - destruct st as [vs ps pl cl], env as [cs lt cb gp dev fb its cu si sm].
    vm_compute. split_answers.
  - destruct st as [vs ps cb0 vb ib tex il bl sets pl cl rot],
             env as [cs lt cb gp dev fb its cu si sm].
    vm_compute. split_answers.
  - cbn [example_Init shaders_ok]. rewrite andb_true_r.
    unfold DeferredShading.Init, SimpleScene.Init. split_oracles; reflexivity.
Qed.

(** * What is written into the buffers *)

Lemma Init_buffers_events env :
  cube_in_memory (cube env) ->
  let c := cube env in
  let ib := mkBufferDesc (sizeof_g_Indices c) "IndexBuffer" false true false
                         ResourceStates.CopyDest false in
  let vb := mkBufferDesc (sizeof_g_Positions c + sizeof_g_TexCoords c
                          + sizeof_g_Normals c + sizeof_g_Tangents c)
                         "VertexBuffer" true false false ResourceStates.CopyDest false in
  let inst := mkBufferDesc (sizeof_InstanceData env) "VertexBufferTransform"
                           true false false ResourceStates.CopyDest false in
  events (SimpleScene.Init_buffers env)
  = [ EvOpen;
      EvCreateBuffer ib;
      EvBeginTrackingBufferState (Some ib) ResourceStates.CopyDest;
      EvWriteBuffer (Some ib) (sizeof_g_Indices c) 0;
      EvSetPermanentBufferState (Some ib) ResourceStates.IndexBuffer;
      EvCreateBuffer vb;
      EvBeginTrackingBufferState (Some vb) ResourceStates.CopyDest;
      EvWriteBuffer (Some vb) (sizeof_g_Positions c) 0;
      EvWriteBuffer (Some vb) (sizeof_g_TexCoords c) (sizeof_g_Positions c);
      EvWriteBuffer (Some vb) (sizeof_g_Normals c)
                    (sizeof_g_Positions c + sizeof_g_TexCoords c);
      EvWriteBuffer (Some vb) (sizeof_g_Tangents c)
                    (sizeof_g_Positions c + sizeof_g_TexCoords c + sizeof_g_Normals c);
      EvSetPermanentBufferState (Some vb) ResourceStates.VertexBuffer;
      EvCreateBuffer inst;
      EvBeginTrackingBufferState (Some inst) ResourceStates.CopyDest;
      EvWriteBuffer (Some inst) (sizeof_InstanceData env) 0;
      EvSetPermanentBufferState (Some inst) ResourceStates.VertexBuffer ].
Proof.
  intros (Hp & Ht & Hn & Hg & Hsum). cbv zeta.
  unfold SimpleScene.Init_buffers.
  cbn [bind emit ret result events fst snd app SimpleScene.CreateGeometryBuffer
       new_BufferGroup indexBuffer vertexBuffer instanceBuffer vertexBufferRanges
       getVertexBufferRange setVertexBufferRange VertexAttribute.eqb negb byteOffset].
  rewrite Z.add_0_l.
  rewrite (u64_small (sizeof_g_Positions (cube env))) by lia.
  rewrite (u64_small (sizeof_g_Positions (cube env) + sizeof_g_TexCoords (cube env)))
    by lia.
  rewrite (u64_small (sizeof_g_Positions (cube env) + sizeof_g_TexCoords (cube env)
                      + sizeof_g_Normals (cube env))) by lia.
  rewrite (u64_small (sizeof_g_Positions (cube env) + sizeof_g_TexCoords (cube env)
                      + sizeof_g_Normals (cube env) + sizeof_g_Tangents (cube env)))
    by lia.
  reflexivity.
Qed.

Lemma SimpleScene_Init_events env st :
  let mat := mkBufferDesc (sizeof_MaterialConstants env) "CubeMaterial"
                          false false true ResourceStates.ConstantBuffer true in
  exists h tail,
    events (SimpleScene.Init env st)
    = events (SimpleScene.Init_buffers env)
      ++ [ EvLoadTextureFromFile "media/nvidia-logo.png" h;
           EvCreateBuffer mat; EvFillConstantBuffer;
           EvWriteBuffer (Some mat) (sizeof_MaterialConstants env) 0;
           EvClose; EvExecuteCommandList ]
      ++ tail
    /\ existsb is_WriteBuffer tail = false.
Proof.
  cbv zeta. unfold SimpleScene.Init.
  destruct (SimpleScene.Init_buffers env) as [b evb].
  cbn [bind events snd]. unfold LoadTextureFromFile.
  destruct (LoadTextureFromFile_ok env "media/nvidia-logo.png");
    cbn [bind emit ret texture result events fst snd app material_name
         SimpleScene.CreateMaterialConstantBuffer].
  - match goal with
    | |- context [SimpleScene.Init_graph ?m] =>
        eexists _, (events (SimpleScene.Init_graph m));
        destruct (SimpleScene.Init_graph m) as [[[i g] s] evg] eqn:Eg
    end.
    cbn [bind emit ret result events fst snd app]. rewrite app_nil_r.
    split; [reflexivity|].
    change evg with (snd (i, g, s, evg)). rewrite <- Eg. reflexivity.
  - eexists _, [_]. split; reflexivity.
Qed.

(** X11.  When the arrays of the cube fit the address space,
    [SimpleScene.Init] uploads each vertex attribute into its own range:
    the four writes into the vertex buffer have the offsets and
    sizes of the Position, TexCoord1, Normal and Tangent ranges, follow one
    another from offset 0 without gap or overlap, and end at the size the
    buffer was created with. *)
Theorem vertex_data_fills_the_vertex_buffer :
  forall env st,
    cube_in_memory (cube env) ->
    let b := result (SimpleScene.Init_buffers env) in
    let ws := writes_to "VertexBuffer" (events (SimpleScene.Init env st)) in
    SimpleScene.m_Buffers (snd (result (SimpleScene.Init env st))) = Some b
    /\ ws = map (fun a => (byteOffset (getVertexBufferRange b a),
                           rangeByteSize (getVertexBufferRange b a)))
                [ VertexAttribute.Position; VertexAttribute.TexCoord1;
                  VertexAttribute.Normal; VertexAttribute.Tangent ]
    /\ exists d, vertexBuffer b = Some d /\ writes_tile 0 ws (byteSize d).
Proof.
  intros env st Hc b ws.
  destruct (Init_buffers_of_Init env st) as [Hb _].
  destruct (Init_buffers_layout env Hc) as (Rp & Rt & Rn & Rg & Hvb & _).
  destruct (SimpleScene_Init_events env st) as (h & tail & Hev & Htail).
  assert (Hw : ws = [ (0, sizeof_g_Positions (cube env));
                      (sizeof_g_Positions (cube env), sizeof_g_TexCoords (cube env));
                      (sizeof_g_Positions (cube env) + sizeof_g_TexCoords (cube env),
                       sizeof_g_Normals (cube env));
                      (sizeof_g_Positions (cube env) + sizeof_g_TexCoords (cube env)
                       + sizeof_g_Normals (cube env), sizeof_g_Tangents (cube env)) ]).
  { subst ws. rewrite Hev, (Init_buffers_events env Hc). unfold writes_to.
    rewrite !flat_map_app.
    assert (Ht : forall l, existsb is_WriteBuffer l = false ->
                 flat_map (fun e => match e with
                                    | EvWriteBuffer (Some d) size offset =>
                                        if String.eqb (debugName d) "VertexBuffer"
                                        then [(offset, size)] else []
                                    | _ => []
                                    end) l = []).
    { induction l as [|e l IH]; [reflexivity|]. cbn [existsb flat_map].
      intros H. apply orb_false_iff in H as [He Hl]. rewrite (IH Hl), app_nil_r.
      destruct e; try reflexivity; discriminate He. }
    rewrite (Ht tail Htail). reflexivity. }
  split; [exact Hb|]. split.
  - rewrite Hw. cbn [map]. fold b in Rp, Rt, Rn, Rg. rewrite Rp, Rt, Rn, Rg. reflexivity.
  - eexists. split; [exact Hvb|]. rewrite Hw.
    destruct Hc as (Hp & Ht & Hn & Hg & Hsum).
    cbn [writes_tile byteSize]. repeat split; lia.
Qed.

Lemma vertex_data_fills_the_vertex_buffer_witness :
  let b := result (SimpleScene.Init_buffers env_all_ok) in
  let ws := writes_to "VertexBuffer"
              (events (SimpleScene.Init env_all_ok SimpleScene.new)) in
  SimpleScene.m_Buffers (snd (result (SimpleScene.Init env_all_ok SimpleScene.new)))
  = Some b
  /\ ws = map (fun a => (byteOffset (getVertexBufferRange b a),
                         rangeByteSize (getVertexBufferRange b a)))
              [ VertexAttribute.Position; VertexAttribute.TexCoord1;
                VertexAttribute.Normal; VertexAttribute.Tangent ]
  /\ exists d, vertexBuffer b = Some d /\ writes_tile 0 ws (byteSize d).
Proof.
  apply vertex_data_fills_the_vertex_buffer.
  vm_compute. repeat split; discriminate.
Defined.

Lemma Forall_no_writes l :
  existsb is_WriteBuffer l = false -> Forall write_in_bounds l.
Proof.
  induction l as [|e l IH]; [constructor|]. cbn [existsb].
  intros H. apply orb_false_iff in H as [He Hl]. constructor; [|auto].
  destruct e; try exact I; discriminate He.
Qed.

Lemma write_in_boundsb_spec e : write_in_boundsb e = true <-> write_in_bounds e.
Proof.
  destruct e; cbn [write_in_boundsb write_in_bounds]; try (split; auto; fail).
  match goal with |- context [match ?b with Some _ => _ | None => _ end] => destruct b end.
  - rewrite !andb_true_iff, !Z.leb_le. tauto.
  - split; auto.
Qed.

Lemma Forall_write_in_bounds l :
  forallb write_in_boundsb l = true -> Forall write_in_bounds l.
Proof.
  intros H. apply Forall_forall. intros e He.
  apply write_in_boundsb_spec. rewrite forallb_forall in H. now apply H.
Qed.

Lemma VertexBuffer_Init_writes env st :
  Forall write_in_bounds (events (VertexBuffer.Init env st)).
Proof.
  apply Forall_write_in_bounds.
  destruct st as [vs ps cb0 vb ib tex il bl sets pl cl rot],
           env as [cs lt cb gp dev fb its cu si sm].
  vm_compute. split_answers.
Qed.

Lemma VertexBuffer_Init_constant_buffer env st :
  fst (result (VertexBuffer.Init env st)) = true ->
  exists d,
    VertexBuffer.m_ConstantBuffer (snd (result (VertexBuffer.Init env st))) = Some d
    /\ byteSize d = 1024.
Proof.
  destruct st as [vs ps cb0 vb ib tex il bl sets pl cl rot],
           env as [cs lt cb gp dev fb its cu si sm].
  vm_compute. split_answers; intros _; eexists; split; reflexivity.
Qed.

Lemma DeferredShading_Init_writes env st :
  sizes_in_memory env ->
  Forall write_in_bounds (events (DeferredShading.Init env st)).
Proof.
  intros (Hc & Hi & Hinst & Hm).
  unfold DeferredShading.Init.
  destruct (SimpleScene_Init_events env (DeferredShading.m_Scene st))
    as (h & tail & Hev & Htail).
  destruct (SimpleScene.Init env (DeferredShading.m_Scene st)) as [r ev].
  cbn [events snd] in Hev. subst ev.
  cbn [bind emit ret events snd app].
  rewrite (Init_buffers_events env Hc), app_nil_r.
  destruct Hc as (Hp & Ht & Hn & Hg & Hsum).
  repeat (apply Forall_cons; [cbn [write_in_bounds byteSize]; try exact I; lia|]).
  cbn [app].
  repeat (apply Forall_cons; [cbn [write_in_bounds byteSize]; try exact I; lia|]).
  now apply Forall_no_writes.
Qed.

Lemma VertexBuffer_run_calls_writes env cs : forall st d,
  VertexBuffer.m_ConstantBuffer st = Some d ->
  byteSize d = 1024 ->
  Forall write_in_bounds (events (@run_calls _ (VertexBuffer.RenderPass env) cs st)).
Proof.
  induction cs as [|c cs IH]; intros st d Hd Hsize; [constructor|].
  rewrite events_run_calls_cons. apply Forall_app. split.
  - destruct c as [|dt|fb]; [constructor | repeat constructor |].
    cbn [do_call Render VertexBuffer.RenderPass].
    unfold VertexBuffer.Render. cbv zeta.
    change VertexBuffer.view_indices with [0; 1; 2; 3].
    destruct (VertexBuffer.m_Pipeline st);
      cbn -[VertexBuffer.view_viewport]; rewrite Hd;
      repeat (apply Forall_cons; [cbn [write_in_bounds]; try exact I; lia|]);
      apply Forall_nil.
  - apply (IH _ d); [|exact Hsize].
    destruct (do_call_same_resources vertex_buffer env c st) as (_ & _ & Hcb & _).
    exact (eq_trans (eq_sym Hcb) Hd).
Qed.

Lemma run_calls_no_writes ex env cs : forall st,
  ex <> vertex_buffer ->
  existsb is_WriteBuffer (events (@run_calls _ (example_RenderPass ex env) cs st)) = false.
Proof.
  induction cs as [|c cs IH]; intros st Hex; [reflexivity|].
  rewrite events_run_calls_cons, existsb_app, IH, orb_false_r by assumption.
  destruct ex; [| contradiction |];
    (destruct c as [|dt|fb]; [reflexivity | reflexivity |]);
    cbn [do_call Render example_RenderPass BasicTriangle.RenderPass
         DeferredShading.RenderPass].
  - unfold BasicTriangle.Render. destruct (BasicTriangle.m_Pipeline st); reflexivity.
  - unfold DeferredShading.Render. cbv zeta.
    destruct (DeferredShading.targets_outdated st (width fb, height fb)).
    + reflexivity.
    + destruct st as [sf tc cp bc [rt|] [[]|] lp v sc cl rot]; reflexivity.
Qed.

(** X12.  When the sizes the surroundings report are sizes (none is
    negative and the arrays of the cube fit the address space), every
    [writeBuffer] that [main] of any example makes, in [Init] and in the
    frames of the message loop, stays inside the buffer it writes: offset
    and size are not negative and offset + size is at most the byte size
    that was asked for when the buffer behind the handle was created.
    Whether the handle is null is not looked at: the examples never test
    what [createBuffer] returns. *)
Theorem every_buffer_write_is_in_bounds :
  forall ex env,
    sizes_in_memory env ->
    Forall write_in_bounds (events (example_main ex env)).
Proof.
  intros ex env Hsizes. rewrite example_main_eq.
  destruct (CreateWindowDeviceAndSwapChain_ok env); [|repeat constructor].
  cbv zeta. cbn [events snd app].
  repeat (apply Forall_cons; [exact I|]).
  apply Forall_app. split; [|apply Forall_app; split; [|repeat constructor]].
  - destruct ex; cbn [example_Init example_new].
    + apply Forall_no_writes. destruct env as [cs lt cb gp dev fb its cu si sm].
      vm_compute. split_answers.
    + apply VertexBuffer_Init_writes.
    + now apply DeferredShading_Init_writes.
  - destruct (fst (result (example_Init ex env (example_new ex)))) eqn:Hok;
      [|constructor].
    repeat (apply Forall_cons; [exact I|]).
    apply Forall_app. split; [|repeat constructor].
    rewrite RunMessageLoop_as_calls.
    destruct ex; cbn [example_Init example_new example_RenderPass] in *.
    + apply Forall_no_writes, (run_calls_no_writes basic_triangle env). discriminate.
    + destruct (VertexBuffer_Init_constant_buffer env VertexBuffer.new Hok)
        as (d & Hd & Hsize).
      now apply (VertexBuffer_run_calls_writes env _ _ d).
    + apply Forall_no_writes, (run_calls_no_writes deferred_shading env). discriminate.
Qed.

(** X12 at the vertex-buffer and deferred-shading examples. *)
Lemma every_buffer_write_is_in_bounds_witness :
  Forall write_in_bounds (events (example_main vertex_buffer env_all_ok))
  /\ Forall write_in_bounds (events (example_main deferred_shading env_all_ok)).
Proof.
  split; apply every_buffer_write_is_in_bounds; vm_compute; repeat split; discriminate.
Defined.

(** * The view of the deferred-shading example *)

(** X13.  After [DeferredShading.Render] the view has the viewport of the
    framebuffer just rendered, the aspect of its width and height, and the
    rotation angle of that frame, whatever the render targets and the view
    were before. *)
Theorem view_follows_the_framebuffer :
  forall fb st,
    DeferredShading.m_View (result (DeferredShading.Render fb st))
    = DeferredShading.mkPlanarView (getViewport fb) (DeferredShading.m_Rotation st)
        (F32.of_Z (width fb), F32.of_Z (height fb)).
Proof.
  intros fb st. unfold DeferredShading.Render. cbv zeta.
  destruct (DeferredShading.targets_outdated st (width fb, height fb)) eqn:E.
  - reflexivity.
  - unfold DeferredShading.targets_outdated in E.
    destruct st as [sf tc cp bc [[[w h] sh]|] [[]|] lp v sc cl rot]; try discriminate E;
      cbn [DeferredShading.m_RenderTargets RenderTargets.GetSize RenderTargets.m_Size
           fst snd] in E;
      apply orb_false_iff in E as [Ew Eh];
      apply negb_false_iff, Z.eqb_eq in Ew; apply negb_false_iff, Z.eqb_eq in Eh;
      subst w h; reflexivity.
Qed.

(** * Leaving [main] *)

Lemma Init_tears_nothing_down ex env st :
  existsb is_teardown (events (example_Init ex env st)) = false.
Proof. Init_events ex. Qed.

Lemma run_calls_tear_nothing_down ex env cs : forall st,
  existsb is_teardown (events (@run_calls _ (example_RenderPass ex env) cs st)) = false.
Proof.
  induction cs as [|c cs IH]; intros st; [reflexivity|].
  rewrite events_run_calls_cons, existsb_app, IH, orb_false_r.
  destruct ex; (destruct c as [|dt|fb]; [reflexivity | reflexivity |]);
    cbn [do_call Render example_RenderPass BasicTriangle.RenderPass
         VertexBuffer.RenderPass DeferredShading.RenderPass].
  - unfold BasicTriangle.Render. destruct (BasicTriangle.m_Pipeline st); reflexivity.
  - unfold VertexBuffer.Render. destruct (VertexBuffer.m_Pipeline st); reflexivity.
  - unfold DeferredShading.Render. cbv zeta.
    destruct (DeferredShading.targets_outdated st (width fb, height fb)).
    + reflexivity.
    + destruct st as [sf tc cp bc [rt|] [[]|] lp v sc cl rot]; reflexivity.
Qed.

(** X14.  When the device was created, [main] ends with [Shutdown] and the
    deletion of the device manager, preceded by [RemoveRenderPass] exactly
    when [Init] succeeded, and nothing is torn down before that.  When the
    device could not be created, [main] returns without shutting down or
    deleting the device manager it created. *)
Theorem main_tears_down_what_it_set_up :
  forall ex env,
    let evs := events (example_main ex env) in
    let started := fst (result (example_Init ex env (example_new ex))) in
    if CreateWindowDeviceAndSwapChain_ok env
    then exists body,
           evs = body ++ (if started then [EvRemoveRenderPass] else [])
                      ++ [EvShutdown; EvDeleteDeviceManager]
           /\ existsb is_teardown body = false
    else existsb is_teardown evs = false.
Proof.
  intros ex env evs started. subst evs started. rewrite example_main_eq.
  destruct (CreateWindowDeviceAndSwapChain_ok env); [|reflexivity].
  cbv zeta. cbn [events snd].
  pose proof (Init_tears_nothing_down ex env (example_new ex)) as Hi.
  set (pre := [EvGetGraphicsAPIFromCommandLine; EvDeviceManagerCreate;
               EvCreateWindowDeviceAndSwapChain (example_title ex) true]).
  destruct (fst (result (example_Init ex env (example_new ex)))).
  - match goal with
    | |- context [EvRunMessageLoop :: ?loop ++ [EvRemoveRenderPass]] =>
        exists (pre ++ events (example_Init ex env (example_new ex))
                    ++ EvAddRenderPassToBack :: EvRunMessageLoop :: loop)
    end.
    split.
    + repeat (rewrite <- app_assoc || rewrite <- app_comm_cons). reflexivity.
    + rewrite !existsb_app, Hi. cbn [existsb is_teardown orb pre].
      rewrite RunMessageLoop_as_calls. apply run_calls_tear_nothing_down.
  - exists (pre ++ events (example_Init ex env (example_new ex))). split.
    + repeat (rewrite <- app_assoc || rewrite <- app_comm_cons). reflexivity.
    + rewrite !existsb_app, Hi. reflexivity.
Qed.

(** * One frame of the vertex-buffer example *)

(** X15.  After a successful [VertexBuffer.Init], one [Render] sets four
    graphics states, each followed by one indexed draw of 36 indices: the
    state of view [i] has the viewport of view [i] and binds the constant
    buffer range [256 i, 256 (i + 1)). *)
Theorem each_view_draws_with_its_own_constants :
  forall env st fb,
    List.length (VertexBuffer.m_BindingSets st) = Z.to_nat VertexBuffer.c_NumViews ->
    fst (result (VertexBuffer.Init env st)) = true ->
    let frame :=
      events (VertexBuffer.Render env fb (snd (result (VertexBuffer.Init env st)))) in
    map (fun s => (gs_viewports s, flat_map constant_ranges (gs_bindings s)))
        (graphics_states frame)
    = map (fun i => ([VertexBuffer.view_viewport fb i], [mkBufferRange (256 * i) 256]))
          [0; 1; 2; 3]
    /\ filter (fun e => is_SetGraphicsState e || is_draw e) frame
       = flat_map (fun s => [EvSetGraphicsState s; EvDrawIndexed 36])
                  (graphics_states frame).
Proof.
  intros env st fb Hlen Hok frame. subst frame.
  destruct (Init_binding_sets env st Hlen Hok) as (cb & Ecb & _ & _ & Esets).
  cbv zeta in Esets.
  set (st' := snd (result (VertexBuffer.Init env st))) in *. clearbody st'.
  change VertexBuffer.view_indices with [0; 1; 2; 3] in Esets. cbn [map] in Esets.
  unfold VertexBuffer.bindingSetDesc in Esets. rewrite Ecb in Esets.
  unfold VertexBuffer.Render. cbv zeta.
  change VertexBuffer.view_indices with [0; 1; 2; 3].
  destruct (VertexBuffer.m_Pipeline st');
    cbn -[VertexBuffer.view_viewport VertexBuffer.view_range];
    rewrite ?Esets; split; reflexivity.
Qed.

Lemma each_view_draws_with_its_own_constants_witness :
  let frame :=
    events (VertexBuffer.Render env_all_ok (mkFramebufferInfo 800 600)
              (snd (result (VertexBuffer.Init env_all_ok VertexBuffer.new)))) in
  map (fun s => (gs_viewports s, flat_map constant_ranges (gs_bindings s)))
      (graphics_states frame)
  = map (fun i => ([VertexBuffer.view_viewport (mkFramebufferInfo 800 600) i],
                   [mkBufferRange (256 * i) 256]))
        [0; 1; 2; 3]
  /\ filter (fun e => is_SetGraphicsState e || is_draw e) frame
     = flat_map (fun s => [EvSetGraphicsState s; EvDrawIndexed 36])
                (graphics_states frame).
Proof.
  apply each_view_draws_with_its_own_constants; reflexivity.
Defined.

(** * Buffer state tracking in [Init] *)

(** X16.  The calls [Init] of every example makes on its buffers come in
    the order nvrhi's state tracking requires: for a buffer that does not
    keep its initial state, [beginTrackingBufferState] once, then the
    writes, then [setPermanentBufferState] once, and no write outside; when
    [Init] returns, [setPermanentBufferState] has been called for every
    buffer it began to track, and after a successful [Init] these are the
    index and vertex buffers (and the instance buffer of deferred_shading).
    Only the order of the calls is looked at, not whether a handle is
    null. *)
Theorem Init_uploads_follow_state_tracking :
  forall ex env st,
    exists permanent,
      buffer_state_run ([], []) (events (example_Init ex env st)) = Some ([], permanent)
      /\ (fst (result (example_Init ex env st)) = true ->
          permanent = match ex with
                      | basic_triangle => []
                      | vertex_buffer => ["IndexBuffer"; "VertexBuffer"]%string
                      | deferred_shading =>
                          ["VertexBufferTransform"; "VertexBuffer"; "IndexBuffer"]%string
                      end).
Proof.
  intros ex env st. destruct ex; cbn [ExampleState] in st.
  - destruct st as [vs ps pl cl], env as [cs lt cb gp dev fb its cu si sm].
    vm_compute. split_answers; eexists; (split; [reflexivity|]);
      first [intros _; reflexivity | intros H; discriminate H | congruence].
  - destruct st as [vs ps cb0 vb ib tex il bl sets pl cl rot],
             env as [cs lt cb gp dev fb its cu si sm].
    vm_compute. split_answers; eexists; (split; [reflexivity|]);
      first [intros _; reflexivity | intros H; discriminate H | congruence].
  - cbn [example_Init]. unfold DeferredShading.Init, SimpleScene.Init.
    split_oracles; eexists; (split; [reflexivity|]);
      first [intros _; reflexivity | intros H; discriminate H | congruence].
Qed.

(** * What is shown on the screen *)




(** * What a frame draws *)

(** X18.  After a successful [SimpleScene.Init] the objects [Render]
    reaches for its draw item are those [Init] made and linked: the mesh
    instance holds the mesh [m_MeshInfo], the mesh has exactly one
    geometry, the material of that geometry is [m_Material], which holds
    the texture that was loaded (not null, [Init] having tested it), and
    the buffers of the mesh are [m_Buffers]; the mesh and its geometry
    count the indices and the vertices of the cube. *)
Theorem draw_item_is_complete_after_Init :
  forall env st,
    fst (result (SimpleScene.Init env st)) = true ->
    let st' := snd (result (SimpleScene.Init env st)) in
    exists mesh geometry mat b tex,
      drawItem st' = Some (mesh, geometry, mat, b)
      /\ SimpleScene.m_MeshInfo st' = Some mesh
      /\ geometries mesh = [geometry]
      /\ material geometry = Some mat
      /\ SimpleScene.m_Material st' = Some mat
      /\ baseOrDiffuseTexture mat = Some (mkLoadedTexture (Some tex))
      /\ buffers mesh = Some b
      /\ SimpleScene.m_Buffers st' = Some b
      /\ totalIndices mesh = dim_g_Indices (cube env)
      /\ totalVertices mesh = dim_g_Positions (cube env)
      /\ numIndices geometry = totalIndices mesh
      /\ numVertices geometry = totalVertices mesh.
Proof.
  intros env st. cbv zeta. unfold SimpleScene.Init.
  destruct (SimpleScene.Init_buffers env) as [b evb].
  cbn [bind]. unfold LoadTextureFromFile.
  destruct (LoadTextureFromFile_ok env "media/nvidia-logo.png");
    cbn [bind emit ret texture result events fst snd app
         SimpleScene.CreateMaterialConstantBuffer]; [|discriminate].
  intros _.
  do 4 eexists. exists (TextureFromFile "media/nvidia-logo.png").
  repeat split; reflexivity.
Qed.

(** X18 when everything succeeds. *)
Lemma draw_item_is_complete_after_Init_witness :
  let st' := snd (result (SimpleScene.Init env_all_ok SimpleScene.new)) in
  exists mesh geometry mat b tex,
    drawItem st' = Some (mesh, geometry, mat, b)
    /\ SimpleScene.m_MeshInfo st' = Some mesh
    /\ geometries mesh = [geometry]
    /\ material geometry = Some mat
    /\ SimpleScene.m_Material st' = Some mat
    /\ baseOrDiffuseTexture mat = Some (mkLoadedTexture (Some tex))
    /\ buffers mesh = Some b
    /\ SimpleScene.m_Buffers st' = Some b
    /\ totalIndices mesh = dim_g_Indices (cube env_all_ok)
    /\ totalVertices mesh = dim_g_Positions (cube env_all_ok)
    /\ numIndices geometry = totalIndices mesh
    /\ numVertices geometry = totalVertices mesh.
Proof.
  apply draw_item_is_complete_after_Init. reflexivity.
Defined.
